(** * Bluetooth scanner: the interactive workflow of
      [bluetooth_scanner.py] and [bluetooth_scanner_bleak.py]

    The two scripts discover devices, show them, let the user pick one and
    print what the device offers.  The Bluetooth stacks (PyBluez, Bleak) are
    outside the repository: their answers are inputs of the model.  What is
    embedded here is the code of the scripts: the selector loop, the
    protocol-descriptor walk, the service-class table, the SDP report and
    the two [main] functions. *)

From Stdlib Require Import ZArith Ascii String HexString.
From stdpp Require Import base strings list gmap pretty sorting.

Local Open Scope Z_scope.

(** ** Python text

    A [str] is modelled as a [string] whose characters are the code points
    below 256; the string literals of the scripts are all ASCII. *)

Definition code (c : ascii) : N := N_of_ascii c.

Definition nl : string := String "010" "".

(** [str.isspace] on the code points below 256. *)
Definition py_isspace (c : ascii) : bool :=
  let n := code c in
  ((9 <=? n) && (n <=? 13) || (28 <=? n) && (n <=? 32)
   || (n =? 133) || (n =? 160))%N.

Fixpoint py_lstrip (s : string) : string :=
  match s with
  | String c s' => if py_isspace c then py_lstrip s' else s
  | "" => ""
  end.

Fixpoint py_rstrip (s : string) : string :=
  match s with
  | "" => ""
  | String c s' =>
      match py_rstrip s' with
      | "" => if py_isspace c then "" else String c ""
      | r => String c r
      end
  end.

(** [str.strip()] *)
Definition py_strip (s : string) : string := py_rstrip (py_lstrip s).

(** [str.lower()], one character: A-Z, and the upper-case letters of the
    Latin-1 block (0xC0-0xDE without the multiplication sign 0xD7). *)
Definition py_lower_char (c : ascii) : ascii :=
  let n := code c in
  if ((65 <=? n) && (n <=? 90)
      || (192 <=? n) && (n <=? 222) && negb (n =? 215))%N
  then ascii_of_N (n + 32) else c.

Fixpoint py_lower (s : string) : string :=
  match s with
  | "" => ""
  | String c s' => String (py_lower_char c) (py_lower s')
  end.

(** [str.join] *)
Fixpoint py_join (sep : string) (l : list string) : string :=
  match l with
  | [] => ""
  | [x] => x
  | x :: l' => x +:+ sep +:+ py_join sep l'
  end.

(** [s * n] *)
Fixpoint py_repeat (s : string) (n : nat) : string :=
  match n with
  | O => ""
  | S n' => s +:+ py_repeat s n'
  end.

(** The format spec [:<w] of an f-string: pad with spaces on the right up
    to width [w]; a longer text is left as it is. *)
Definition py_ljust (w : nat) (s : string) : string :=
  s +:+ py_repeat " " (w - String.length s).

(** *** [int(s)] for a [str] argument

    Surrounding white space is dropped, one sign is allowed, then decimal
    digits, single underscores allowed between digits.  [None] stands for
    the [ValueError].  CPython refuses numerals of more than 4300 digits
    with a [ValueError] too ([sys.int_info.default_max_str_digits]). *)

Definition digit_val (c : ascii) : option Z :=
  let n := code c in
  if ((48 <=? n) && (n <=? 57))%N then Some (Z.of_N n - 48) else None.

Fixpoint parse_digits (after_digit : bool) (s : string) (acc : Z) (count : N)
  : option (Z * N) :=
  match s with
  | "" => if after_digit then Some (acc, count) else None
  | String c s' =>
      match digit_val c with
      | Some d => parse_digits true s' (10 * acc + d) (count + 1)%N
      | None =>
          if Ascii.eqb c "_" && after_digit
          then parse_digits false s' acc count
          else None
      end
  end.

Definition max_str_digits : N := 4300.

Definition py_int (s : string) : option Z :=
  let t := py_strip s in
  let '(neg, body) :=
    match t with
    | String "-" b => (true, b)
    | String "+" b => (false, b)
    | _ => (false, t)
    end in
  match parse_digits false body 0 0 with
  | Some (v, n) =>
      if (max_str_digits <? n)%N then None
      else Some (if neg then - v else v)
  | None => None
  end.


(** *** [repr] of a [str]

    Single quotes unless the text has a single quote and no double quote;
    backslash, the quote in use, tab, newline and carriage return are
    escaped, the other characters that are not printable become [\xNN]. *)

Definition dquote : ascii := "034".
Definition squote : ascii := "'".
Definition backslash : ascii := "\".

Definition hex_digit (n : N) : ascii :=
  if (n <? 10)%N then ascii_of_N (48 + n) else ascii_of_N (87 + n).

Definition py_isprintable (c : ascii) : bool :=
  let n := code c in
  negb ((n <? 32) || (127 <=? n) && (n <=? 160) || (n =? 173))%N.

Definition repr_char (quote c : ascii) : string :=
  if Ascii.eqb c backslash then String backslash (String backslash "")
  else if Ascii.eqb c quote then String backslash (String quote "")
  else if Ascii.eqb c "009" then String backslash "t"
  else if Ascii.eqb c "010" then String backslash "n"
  else if Ascii.eqb c "013" then String backslash "r"
  else if py_isprintable c then String c ""
  else String backslash
         (String "x" (String (hex_digit (code c / 16))
                        (String (hex_digit (code c mod 16)) ""))).

Fixpoint string_has (c : ascii) (s : string) : bool :=
  match s with
  | "" => false
  | String d s' => Ascii.eqb c d || string_has c s'
  end.

Fixpoint repr_chars (quote : ascii) (s : string) : string :=
  match s with
  | "" => ""
  | String c s' => repr_char quote c +:+ repr_chars quote s'
  end.

Definition repr_str (s : string) : string :=
  let quote :=
    if string_has squote s && negb (string_has dquote s)
    then dquote else squote in
  String quote (repr_chars quote s +:+ String quote "").

(** ** Python values and exceptions *)

(** The classes below all derive from [Exception]; [BluetoothError] is
    PyBluez's. *)
Inductive exc_class :=
  | BluetoothError | TypeError | ValueError | IndexError | EOFError
  | OtherException (name : string).

(** An instance of (a subclass of) [Exception]; [exc_text] is [str(e)]. *)
Record exn := Exn { exc_type : exc_class; exc_text : string }.

(** Values the scripts receive from the Bluetooth stack.  [PIter] is an
    iterator object: what [str] shows for it, the items it yields, and the
    exception its [__next__] raises after them ([None]: it just stops). *)
#[warnings="-register-all"]
Inductive pyval :=
  | PNone
  | PBool (b : bool)
  | PInt (z : Z)
  | PStr (s : string)
  | PList (xs : list pyval)
  | PTuple (xs : list pyval)
  | PIter (shown : string) (yields : list pyval) (fails : option exn).

Fixpoint py_repr (v : pyval) : string :=
  match v with
  | PNone => "None"
  | PBool true => "True"
  | PBool false => "False"
  | PInt z => pretty z
  | PStr s => repr_str s
  | PList xs => "[" +:+ py_join ", " (map py_repr xs) +:+ "]"
  | PTuple xs =>
      match xs with
      | [x] => "(" +:+ py_repr x +:+ ",)"
      | _ => "(" +:+ py_join ", " (map py_repr xs) +:+ ")"
      end
  | PIter shown _ _ => shown
  end.

(** [str(v)], also what an f-string puts for [{v}]. *)
Definition py_str (v : pyval) : string :=
  match v with
  | PStr s => s
  | _ => py_repr v
  end.

(** Truth value, as [if v:] tests it. *)
Definition py_truthy (v : pyval) : bool :=
  match v with
  | PNone => false
  | PBool b => b
  | PInt z => negb (z =? 0)
  | PStr s => negb (String.eqb s "")
  | PList xs | PTuple xs => match xs with [] => false | _ => true end
  | PIter _ _ _ => true
  end.

Definition py_type_name (v : pyval) : string :=
  match v with
  | PNone => "NoneType"
  | PBool _ => "bool"
  | PInt _ => "int"
  | PStr _ => "str"
  | PList _ => "list"
  | PTuple _ => "tuple"
  | PIter _ _ _ => "generator"
  end.

Fixpoint string_chars (s : string) : list pyval :=
  match s with
  | "" => []
  | String c s' => PStr (String c "") :: string_chars s'
  end.

(** [for x in v]: the items the loop body sees, in order, and the
    exception that ends the walk, if one does. *)
Definition py_iter (v : pyval) : list pyval * option exn :=
  match v with
  | PList xs | PTuple xs => (xs, None)
  | PStr s => (string_chars s, None)
  | PIter _ ys e => (ys, e)
  | PNone | PBool _ | PInt _ =>
      ([], Some (Exn TypeError
                   ("'" +:+ py_type_name v +:+ "' object is not iterable")))
  end.

(** [v == s] for a [str] constant [s]. *)
Definition py_eq_str (v : pyval) (s : string) : bool :=
  match v with
  | PStr t => String.eqb t s
  | _ => false
  end.

(** A [dict] with [str] keys whose item order is observed: insertion
    order, an assignment to a key already there keeps its place. *)
Abbreviation pydict := (list (string * pyval)).

Fixpoint dict_set (k : string) (v : pyval) (d : pydict) : pydict :=
  match d with
  | [] => [(k, v)]
  | (k', v') :: d' =>
      if String.eqb k' k then (k, v) :: d' else (k', v') :: dict_set k v d'
  end.

Fixpoint dict_get (k : string) (d : pydict) : option pyval :=
  match d with
  | [] => None
  | (k', v) :: d' => if String.eqb k' k then Some v else dict_get k d'
  end.

(** [enumerate(l, 1)] *)
Definition py_enumerate1 {A} (l : list A) : list (nat * A) :=
  zip (seq 1 (length l)) l.

(** ** The process: standard input, standard output, exceptions *)

(** What one call of [input()] finds: a line (without its newline), or
    Ctrl-C pressed while it waits.  With nothing left, [input()] raises
    [EOFError]. *)
Inductive input_event :=
  | Line (s : string)
  | Interrupt.

(** [stdout] is the list of texts written so far, oldest first. *)
Record world := World { stdin : list input_event; stdout : list string }.

(** What can unwind the stack: an [Exception], or one of the two
    [BaseException]s the scripts deal with. *)
Inductive raised :=
  | Exc (e : exn)
  | KeyboardInterrupt
  | SystemExit (status : Z).

Inductive outcome (A : Type) :=
  | Returned (a : A)
  | Raised (r : raised).
Arguments Returned {A} a.
Arguments Raised {A} r.

Definition IO (A : Type) : Type := world -> outcome A * world.

Global Instance IO_ret : MRet IO := fun A a w => (Returned a, w).

Global Instance IO_bind : MBind IO := fun A B f m w =>
  match m w with
  | (Returned a, w') => f a w'
  | (Raised r, w') => (Raised r, w')
  end.

Definition raise {A} (r : raised) : IO A := fun w => (Raised r, w).

(** [sys.stdout.write(s)] *)
Definition write (s : string) : IO unit := fun w =>
  (Returned tt, World (stdin w) (stdout w ++ [s])).

(** The text [s] and the newline that ends it. *)
Definition line (s : string) : string := s +:+ nl.

(** [print(s)] and [print(s, end=...)] with the empty text as end *)
Definition print (s : string) : IO unit := write (line s).
Definition print_no_end (s : string) : IO unit := write s.

Definition EOF_when_reading : exn := Exn EOFError "EOF when reading a line".

(** [sys.exit(n)] *)
Definition sys_exit {A} (n : Z) : IO A := raise (SystemExit n).

(** [try: body / except Exception as e: handler e] *)
Definition try_except_Exception {A} (body : IO A) (handler : exn -> IO A)
  : IO A := fun w =>
  match body w with
  | (Raised (Exc e), w') => handler e w'
  | r => r
  end.

(** A [for] loop whose body prints. *)
Fixpoint for_each {A} (l : list A) (body : A -> IO unit) : IO unit :=
  match l with
  | [] => mret tt
  | x :: l' => _ ← body x; for_each l' body
  end.

(** The result of a call into the Bluetooth stack becomes a step of the
    process. *)
Definition call {A} (r : outcome A) : IO A := fun w => (r, w).

(** [for x in v] as a step: the items, or the exception of the walk.  The
    loops that use it are comprehensions without effects, so the items
    seen before a failure leave no trace. *)
Definition iterate (v : pyval) : IO (list pyval) :=
  match py_iter v with
  | (xs, None) => mret xs
  | (_, Some e) => raise (Exc e)
  end.

(** ** The selector, the same loop in both scripts

    [select_loop] is [while True:] of [select_device].  Each turn calls
    [input(prompt)]: the prompt is written and one [input_event] is taken
    from standard input; with none left [input] raises [EOFError], which
    no handler of the function catches.  The catalog is part of the loop
    state; the run ends with the value returned or the exception that left
    the function, the catalog as the loop leaves it, and the process
    state. *)

Record selection (A : Type) := Selection {
  sel_outcome : outcome (option A);
  sel_catalog : list A;
  sel_world : world
}.
Arguments Selection {A} _ _ _.
Arguments sel_outcome {A} _.
Arguments sel_catalog {A} _.
Arguments sel_world {A} _.

Definition invalid_notice : string :=
  line "[!] Invalid input. Please enter a number or 'q' to quit.".

Definition range_notice (n : nat) : string :=
  line ("[!] Please enter a number between 1 and " +:+ pretty n).

Definition cancelled_notice : string :=
  line (nl +:+ "[!] Cancelled by user.").

Fixpoint select_loop {A} (prompt : string) (devices : list A)
    (inp : list input_event) (out : list string) {struct inp} : selection A :=
  match inp with
  | [] =>
      (* input() raises EOFError: no handler here *)
      Selection (Raised (Exc EOF_when_reading)) devices
        (World [] (out ++ [prompt]))
  | Interrupt :: rest =>
      (* except KeyboardInterrupt *)
      Selection (Returned None) devices
        (World rest (out ++ [prompt; cancelled_notice]))
  | Line l :: rest =>
      let choice := py_strip l in
      if String.eqb (py_lower choice) "q" then
        Selection (Returned None) devices (World rest (out ++ [prompt]))
      else
        match py_int choice with
        | None =>
            (* except ValueError *)
            select_loop prompt devices rest (out ++ [prompt; invalid_notice])
        | Some device_num =>
            if (1 <=? device_num) && (device_num <=? Z.of_nat (length devices))
            then
              match devices !! Z.to_nat (device_num - 1) with
              | Some d =>
                  Selection (Returned (Some d)) devices
                    (World rest (out ++ [prompt]))
              | None =>
                  Selection
                    (Raised (Exc (Exn IndexError "list index out of range")))
                    devices (World rest (out ++ [prompt]))
              end
            else
              select_loop prompt devices rest
                (out ++ [prompt; range_notice (length devices)])
        end
  end.

Definition select_device_with {A} (prompt : string) (devices : list A)
    (w : world) : selection A :=
  select_loop prompt devices (stdin w) (stdout w).

(** The call [select_device(devices)] as a step of the process. *)
Definition returned_by {A} (run : world -> selection A) : IO (option A) :=
  fun w => let sel := run w in (sel_outcome sel, sel_world sel).

(** ** PyBluez, as [bluetooth_scanner.py] uses it

    The module [bluetooth] is not part of the repository.  Its five
    protocol identifiers are [str] constants; the two calls answer with a
    value or raise.  A device is the pair (address, name) that
    [discover_devices(lookup_names=True)] gives; a service is a [dict]. *)

Definition device : Type := string * option string.

Module bluetooth.
Class module := {
  L2CAP_UUID : string;
  RFCOMM_UUID : string;
  OBEX_UUID : string;
  TCP_UUID : string;
  UDP_UUID : string;
  (* discover_devices(duration=..., lookup_names=True, flush_cache=True,
     lookup_class=False) *)
  discover_devices : Z -> outcome (list device);
  (* find_service(address=...) *)
  find_service : string -> outcome (list (gmap string pyval))
}.
End bluetooth.

Definition when (b : bool) (m : IO unit) : IO unit :=
  if b then m else mret tt.

(** [name if name else "<Unknown>"] *)
Definition name_or_unknown (name : option string) : string :=
  match name with
  | Some n => if String.eqb n "" then "<Unknown>" else n
  | None => "<Unknown>"
  end.

Module bluetooth_scanner.
Section with_bluetooth.
Context `{!bluetooth.module}.

Definition print_banner : IO unit :=
  _ ← print (py_repeat "=" 60);
  _ ← print "  Bluetooth Device Scanner & SDP Service Lister";
  _ ← print (py_repeat "=" 60);
  print "".

Definition discover_devices (duration : Z) : IO (list device) :=
  _ ← print ("[*] Scanning for Bluetooth devices (duration: "
             +:+ pretty duration +:+ "s)...");
  _ ← print ("[*] Please wait..." +:+ nl);
  try_except_Exception
    (call (bluetooth.discover_devices duration))
    (fun e =>
       _ ← print ("[!] Error during device discovery: " +:+ exc_text e);
       mret []).

Definition display_devices (devices : list device) : IO unit :=
  match devices with
  | [] => print "[!] No devices found."
  | _ =>
      _ ← print ("[+] Found " +:+ pretty (length devices)
                 +:+ " device(s):" +:+ nl);
      _ ← print (py_ljust 4 "#" +:+ " " +:+ py_ljust 30 "Name" +:+ " "
                 +:+ py_ljust 20 "Address");
      _ ← print (py_repeat "-" 60);
      _ ← for_each (py_enumerate1 devices) (fun '(idx, (addr, name)) =>
             let device_name := name_or_unknown name in
             print (py_ljust 4 (pretty idx) +:+ " "
                    +:+ py_ljust 30 device_name +:+ " "
                    +:+ py_ljust 20 addr));
      print ""
  end.

Definition select_prompt : string :=
  "[?] Enter device number to connect (or 'q' to quit): ".

Definition select_device (devices : list device) (w : world)
  : selection device :=
  select_device_with select_prompt devices w.

(** One turn of the loop of [parse_protocol_descriptor]. *)
Definition proto_step (protocols : pydict) (proto_desc : pyval) : pydict :=
  match proto_desc with
  | PList items | PTuple items =>
      match items with
      | [] => protocols
      | proto_uuid :: _ =>
          if py_eq_str proto_uuid bluetooth.L2CAP_UUID then
            let protocols := dict_set "L2CAP" (PBool true) protocols in
            match items !! 1%nat with
            | Some v => dict_set "PSM" v protocols
            | None => protocols
            end
          else if py_eq_str proto_uuid bluetooth.RFCOMM_UUID then
            let protocols := dict_set "RFCOMM" (PBool true) protocols in
            match items !! 1%nat with
            | Some v => dict_set "Channel" v protocols
            | None => protocols
            end
          else if py_eq_str proto_uuid bluetooth.OBEX_UUID then
            dict_set "OBEX" (PBool true) protocols
          else if py_eq_str proto_uuid bluetooth.TCP_UUID then
            dict_set "TCP" (PBool true) protocols
          else if py_eq_str proto_uuid bluetooth.UDP_UUID then
            dict_set "UDP" (PBool true) protocols
          else protocols
      end
  | _ => protocols
  end.

Definition parse_protocol_descriptor (proto_desc_list : pyval) : pydict :=
  let '(items, failure) := py_iter proto_desc_list in
  let protocols := foldl proto_step [] items in
  match failure with
  | Some e => dict_set "parse_error" (PStr (exc_text e)) protocols
  | None => protocols
  end.
Definition service_classes : gmap string string :=
  list_to_map [
    ("0x1101", "Serial Port Profile (SPP)");
    ("0x1105", "OBEX Object Push");
    ("0x1106", "OBEX File Transfer");
    ("0x110a", "Audio Source");
    ("0x110b", "Audio Sink");
    ("0x110c", "A/V Remote Control Target");
    ("0x110e", "A/V Remote Control");
    ("0x110f", "Video Conferencing");
    ("0x1112", "Headset - Audio Gateway (AG)");
    ("0x1115", "Personal Area Network (PANU)");
    ("0x1116", "Network Access Point (NAP)");
    ("0x1117", "Group Network (GN)");
    ("0x111e", "Handsfree");
    ("0x111f", "Handsfree Audio Gateway");
    ("0x1124", "Human Interface Device (HID)");
    ("0x1126", "HID Keyboard");
    ("0x1127", "HID Mouse");
    ("0x112d", "SIM Access");
    ("0x112f", "Phonebook Access (PBAP)");
    ("0x1130", "Phonebook Access PSE");
    ("0x1132", "Message Access Server");
    ("0x1203", "Generic Audio")
  ].

(** [uuid if isinstance(uuid, str) else hex(uuid) if isinstance(uuid, int)
    else str(uuid)]; a [bool] is an [int]. *)
Definition uuid_str (uuid : pyval) : string :=
  match uuid with
  | PStr s => s
  | PInt z => HexString.of_Z z
  | PBool b => HexString.of_Z (if b then 1 else 0)
  | _ => py_str uuid
  end.

Definition get_service_class_name (uuid : pyval) : string :=
  default (uuid_str uuid) (service_classes !! uuid_str uuid).

(** [if protocols:] of the report, then the loop over
    [protocols.items()]: a flag that is [True] shows as its name, a
    [False] one not at all, anything else as name=value. *)
Definition proto_strs (protocols : pydict) : list string :=
  omap (fun '(key, value) =>
          match value with
          | PBool true => Some key
          | PBool false => None
          | _ => Some (key +:+ "=" +:+ py_str value)
          end) protocols.

(** The body of the loop over the services in [list_sdp_services]. *)
Definition service_block (idx : nat) (service : gmap string pyval)
  : IO unit :=
  _ ← print (nl +:+ "Service #" +:+ pretty idx);
  _ ← print (py_repeat "-" 80);
  let name := default (PStr "<Unnamed Service>") (service !! "name") in
  _ ← print ("  Name:        " +:+ py_str name);
  let description := default (PStr "") (service !! "description") in
  _ ← when (py_truthy description)
        (print ("  Description: " +:+ py_str description));
  let provider := default (PStr "") (service !! "provider") in
  _ ← when (py_truthy provider)
        (print ("  Provider:    " +:+ py_str provider));
  let service_id := default (PStr "") (service !! "service-id") in
  _ ← when (py_truthy service_id)
        (print ("  Service ID:  " +:+ py_str service_id));
  let service_classes := default (PList []) (service !! "service-classes") in
  _ ← when (py_truthy service_classes)
        (_ ← print_no_end "  Classes:     ";
         scs ← iterate service_classes;
         let class_names :=
           map (fun sc => get_service_class_name (PStr (py_str sc))) scs in
         print (py_join ", " class_names));
  let profiles := default (PList []) (service !! "profiles") in
  _ ← when (py_truthy profiles)
        (print ("  Profiles:    " +:+ py_str profiles));
  let proto_desc := default PNone (service !! "protocol") in
  _ ← when (py_truthy proto_desc)
        (let protocols := parse_protocol_descriptor proto_desc in
         match protocols with
         | [] => mret tt
         | _ =>
             _ ← print_no_end "  Protocols:   ";
             print (py_join ", " (proto_strs protocols))
         end);
  let host := default (PStr "") (service !! "host") in
  let port := default (PStr "") (service !! "port") in
  _ ← when (py_truthy host) (print ("  Host:        " +:+ py_str host));
  when (py_truthy port) (print ("  Port:        " +:+ py_str port)).

Definition query_error_notice (e : exn) : string :=
  match exc_type e with
  | BluetoothError =>
      "[!] Bluetooth error while querying services: " +:+ exc_text e
  | _ => "[!] Error while querying SDP services: " +:+ exc_text e
  end.

Definition list_sdp_services (device_address device_name : string)
  : IO unit :=
  _ ← print (nl +:+ "[*] Querying SDP services on '" +:+ device_name
             +:+ "' (" +:+ device_address +:+ ")...");
  _ ← print ("[*] This may take a moment..." +:+ nl);
  try_except_Exception
    (services ← call (bluetooth.find_service device_address);
     match services with
     | [] => print "[!] No SDP services found on this device."
     | _ =>
         _ ← print ("[+] Found " +:+ pretty (length services)
                    +:+ " service(s):" +:+ nl);
         _ ← print (py_repeat "=" 80);
         _ ← for_each (py_enumerate1 services)
               (fun '(idx, service) => service_block idx service);
         _ ← print (nl +:+ py_repeat "=" 80);
         print ("[+] Total services listed: " +:+ pretty (length services)
                +:+ nl)
     end)
    (fun e => print (query_error_notice e)).


Definition main : IO unit :=
  _ ← print_banner;
  devices ← discover_devices 8;
  match devices with
  | [] =>
      _ ← print "[!] No devices found. Please ensure:";
      _ ← print "    - Bluetooth is enabled on this computer";
      _ ← print "    - Target devices are in pairing/discoverable mode";
      _ ← print "    - Target devices are within range";
      sys_exit 1
  | _ =>
      _ ← display_devices devices;
      selected_device ← returned_by (select_device devices);
      match selected_device with
      | None => _ ← print "[*] Exiting..."; sys_exit 0
      | Some (device_address, device_name) =>
          let device_name := name_or_unknown device_name in
          _ ← print (nl +:+ "[+] Selected: " +:+ device_name
                     +:+ " (" +:+ device_address +:+ ")");
          _ ← list_sdp_services device_address device_name;
          print "[*] Scan complete!"
      end
  end.

(** [if __name__ == "__main__":] the process and its exit status. *)
Definition script (w : world) : Z * world :=
  match main w with
  | (Returned _, w') => (0, w')
  | (Raised (SystemExit n), w') => (n, w')
  | (Raised KeyboardInterrupt, w') =>
      (0, snd (print (nl +:+ nl +:+ "[!] Interrupted by user. Exiting...") w'))
  | (Raised (Exc e), w') =>
      (1, snd (print (nl +:+ "[!] Fatal error: " +:+ exc_text e) w'))
  end.
End with_bluetooth.
End bluetooth_scanner.

(** ** Bleak, as [bluetooth_scanner_bleak.py] uses it

    [BleakScanner.discover(timeout=..., return_adv=True)] answers with a
    [dict] from address to (device, advertisement data); its items are
    taken in insertion order, the order of discovery.  Bleak declares
    [rssi] an [int]; [None] below is an advertisement object without that
    attribute, the case [hasattr] tests. *)

Module BleakScanner.
Record BLEDevice := { address : string; name : option string }.
Record AdvertisementData := { rssi : option Z }.
Class api := {
  discover : Z -> outcome (list (string * (BLEDevice * AdvertisementData)))
}.
End BleakScanner.

(** [l.sort(key=key, reverse=True)] for [int] keys: descending, and items
    with equal keys keep their order.  Written as an insertion sort; the
    result of a stable sort does not depend on the algorithm (see
    [py_sort_reverse_unique]). *)
Fixpoint insert_desc {A} (key : A -> Z) (x : A) (l : list A) : list A :=
  match l with
  | [] => [x]
  | y :: l' => if key x <? key y then y :: insert_desc key x l' else x :: l
  end.

Definition py_sort_reverse {A} (key : A -> Z) (l : list A) : list A :=
  foldr (insert_desc key) [] l.

(** [BleakClient(address, timeout=...)] used as [async with ... as client]:
    entering the block connects and answers with the GATT services of the
    device ([client.services]) or raises; leaving it, by the end of the
    block, by [return] or by an exception, disconnects, which may raise
    too.  Bleak is not part of the repository. *)
Module BleakClient.
Record BleakGATTCharacteristic := {
  char_uuid : string;
  char_handle : Z;
  properties : list string;
  char_description : string
}.
Record BleakGATTService := {
  uuid : string;
  handle : Z;
  description : string;
  characteristics : list BleakGATTCharacteristic
}.
Class api := {
  (* __aenter__ of BleakClient(address, timeout=15.0), then .services *)
  connect : string -> outcome (list BleakGATTService);
  (* __aexit__ *)
  disconnect : string -> outcome unit
}.
End BleakClient.

(** The class the script names [asyncio.TimeoutError]. *)
Definition asyncio_TimeoutError : exc_class :=
  OtherException "asyncio.TimeoutError".

Definition is_asyncio_TimeoutError (e : exn) : bool :=
  match exc_type e with
  | OtherException name => String.eqb name "asyncio.TimeoutError"
  | _ => false
  end.

(** [async with manager as x: body]: what the body ends with stands,
    unless leaving the block raises. *)
Definition async_with {A B} (enter : outcome A) (leave : outcome unit)
    (body : A -> IO B) : IO B :=
  x ← call enter;
  fun w =>
    match body x w, leave with
    | (r, w'), Returned _ => (r, w')
    | (_, w'), Raised r' => (Raised r', w')
    end.

Module bluetooth_scanner_bleak.
(** (address, name, rssi) *)
Definition device : Type := string * string * Z.

Section with_bleak.
Context `{!BleakScanner.api}.

Definition device_tuple
    (item : string * (BleakScanner.BLEDevice * BleakScanner.AdvertisementData))
  : device :=
  let '(addr, (dev, adv_data)) := item in
  let name := name_or_unknown (BleakScanner.name dev) in
  let rssi := default 0 (BleakScanner.rssi adv_data) in
  (BleakScanner.address dev, name, rssi).

Definition discover_devices (duration : Z) : IO (list device) :=
  _ ← print ("[*] Scanning for Bluetooth devices (duration: "
             +:+ pretty duration +:+ "s)...");
  _ ← print ("[*] Please wait..." +:+ nl);
  try_except_Exception
    (devices ← call (BleakScanner.discover duration);
     let device_list := map device_tuple devices in
     mret (py_sort_reverse snd device_list))
    (fun e =>
       _ ← print ("[!] Error during device discovery: " +:+ exc_text e);
       mret []).

Definition rssi_str (rssi : Z) : string :=
  if rssi =? 0 then "N/A" else pretty rssi +:+ " dBm".

Definition display_row (idx : nat) (d : device) : string :=
  let '(addr, name, rssi) := d in
  py_ljust 4 (pretty idx) +:+ " " +:+ py_ljust 30 name +:+ " "
  +:+ py_ljust 20 addr +:+ " " +:+ py_ljust 6 (rssi_str rssi).

Definition display_devices (devices : list device) : IO unit :=
  match devices with
  | [] => print "[!] No devices found."
  | _ =>
      _ ← print ("[+] Found " +:+ pretty (length devices)
                 +:+ " device(s):" +:+ nl);
      _ ← print (py_ljust 4 "#" +:+ " " +:+ py_ljust 30 "Name" +:+ " "
                 +:+ py_ljust 20 "Address" +:+ " " +:+ py_ljust 6 "RSSI");
      _ ← print (py_repeat "-" 65);
      _ ← for_each (py_enumerate1 devices)
            (fun '(idx, d) => print (display_row idx d));
      print ""
  end.

Definition select_prompt : string :=
  "[?] Enter device number to inspect (or 'q' to quit): ".

Definition select_device (devices : list device) (w : world)
  : selection device :=
  select_device_with select_prompt devices w.

Context `{!BleakClient.api}.

Definition print_banner : IO unit :=
  _ ← print (py_repeat "=" 60);
  _ ← print "  Bluetooth Device Scanner (Bleak version)";
  _ ← print (py_repeat "=" 60);
  _ ← print "";
  _ ← print "[!] Note: macOS has limited classic Bluetooth support.";
  _ ← print "[!] This scanner will show BLE devices.";
  print ("[!] For full SDP scanning, use Linux with PyBluez." +:+ nl).

(** The body of the loop over [service.characteristics]. *)
Definition characteristic_block (char : BleakClient.BleakGATTCharacteristic)
  : IO unit :=
  _ ← print ("    - UUID: " +:+ BleakClient.char_uuid char);
  _ ← print ("      Handle: " +:+ pretty (BleakClient.char_handle char));
  _ ← print ("      Properties: "
             +:+ py_join ", " (BleakClient.properties char));
  _ ← when (negb (String.eqb (BleakClient.char_description char) ""))
        (print ("      Description: " +:+ BleakClient.char_description char));
  print "".

(** The body of the loop over the services in [inspect_device]. *)
Definition gatt_service_block (idx : nat)
    (service : BleakClient.BleakGATTService) : IO unit :=
  _ ← print (nl +:+ "Service #" +:+ pretty idx);
  _ ← print (py_repeat "-" 80);
  _ ← print ("  UUID:        " +:+ BleakClient.uuid service);
  _ ← print ("  Handle:      " +:+ pretty (BleakClient.handle service));
  _ ← print ("  Description: " +:+ BleakClient.description service);
  match BleakClient.characteristics service with
  | [] => mret tt
  | chars =>
      _ ← print ("  Characteristics (" +:+ pretty (length chars) +:+ "):");
      for_each chars characteristic_block
  end.

Definition inspect_error_notices (e : exn) : list string :=
  if is_asyncio_TimeoutError e then
    [ line ("[!] Connection timeout. Device may not support connections "
            +:+ "or is out of range.") ]
  else
    [ line ("[!] Error while inspecting device: " +:+ exc_text e);
      line ("[!] Note: Some devices don't allow connections from "
            +:+ "unpaired clients.") ].

Definition inspect_device (device_address device_name : string) : IO unit :=
  _ ← print (nl +:+ "[*] Inspecting device '" +:+ device_name
             +:+ "' (" +:+ device_address +:+ ")...");
  _ ← print ("[*] This may take a moment..." +:+ nl);
  try_except_Exception
    (async_with (BleakClient.connect device_address)
       (BleakClient.disconnect device_address)
       (fun services =>
          _ ← print ("[+] Connected to " +:+ device_name +:+ nl);
          _ ← print (py_repeat "=" 80);
          match services with
          | [] => print "[!] No GATT services found on this device."
          | _ =>
              _ ← print ("[+] Found " +:+ pretty (length services)
                         +:+ " GATT service(s):" +:+ nl);
              _ ← for_each (py_enumerate1 services)
                    (fun '(idx, service) => gatt_service_block idx service);
              _ ← print (py_repeat "=" 80);
              print ("[+] Total services listed: "
                     +:+ pretty (length services) +:+ nl)
          end))
    (fun e =>
       if is_asyncio_TimeoutError e then
         print ("[!] Connection timeout. Device may not support connections "
                +:+ "or is out of range.")
       else
         _ ← print ("[!] Error while inspecting device: " +:+ exc_text e);
         print ("[!] Note: Some devices don't allow connections from "
                +:+ "unpaired clients.")).

Definition main : IO unit :=
  _ ← print_banner;
  devices ← discover_devices 8;
  match devices with
  | [] =>
      _ ← print "[!] No devices found. Please ensure:";
      _ ← print "    - Bluetooth is enabled on this computer";
      _ ← print "    - Target devices are powered on and in range";
      sys_exit 1
  | _ =>
      _ ← display_devices devices;
      selected_device ← returned_by (select_device devices);
      match selected_device with
      | None => _ ← print "[*] Exiting..."; sys_exit 0
      | Some (device_address, device_name, rssi) =>
          _ ← print (nl +:+ "[+] Selected: " +:+ device_name
                     +:+ " (" +:+ device_address +:+ ")");
          _ ← inspect_device device_address device_name;
          print "[*] Scan complete!"
      end
  end.

(** [if __name__ == "__main__":] with [asyncio.run(main())]. *)
Definition script (w : world) : Z * world :=
  match main w with
  | (Returned _, w') => (0, w')
  | (Raised (SystemExit n), w') => (n, w')
  | (Raised KeyboardInterrupt, w') =>
      (0, snd (print (nl +:+ nl +:+ "[!] Interrupted by user. Exiting...") w'))
  | (Raised (Exc e), w') =>
      (1, snd (print (nl +:+ "[!] Fatal error: " +:+ exc_text e) w'))
  end.
End with_bleak.
End bluetooth_scanner_bleak.

(** ** [test_bluetooth.py]

    [BleakScanner.discover(timeout=5.0)], without [return_adv], answers
    with the list of the devices found. *)
Module test_bluetooth.
Class scanner := {
  (* BleakScanner.discover(timeout=5.0) *)
  discover : outcome (list BleakScanner.BLEDevice)
}.

Section with_scanner.
Context `{!scanner}.

Definition quick_scan : IO unit :=
  _ ← print "Starting a quick 5-second Bluetooth scan...";
  _ ← print ("Make sure you have granted Bluetooth permissions to your "
             +:+ "Terminal app!");
  _ ← print "";
  devices ← call discover;
  match devices with
  | [] =>
      _ ← print "No devices found. This could mean:";
      _ ← print "  1. No Bluetooth devices are nearby";
      _ ← print "  2. Terminal doesn't have Bluetooth permission";
      _ ← print "     Go to: System Settings > Privacy & Security > Bluetooth";
      print "     And enable access for your Terminal app"
  | _ =>
      _ ← print ("Found " +:+ pretty (length devices) +:+ " device(s):" +:+ nl);
      _ ← for_each (py_enumerate1 devices)
            (fun '(i, device) =>
               let name := name_or_unknown (BleakScanner.name device) in
               print (pretty i +:+ ". " +:+ name
                      +:+ " (" +:+ BleakScanner.address device +:+ ")"));
      _ ← print (nl +:+ "Success! Bleak is working correctly on your Mac.");
      print "You can now use: python3 bluetooth_scanner_bleak.py"
  end.
End with_scanner.
End test_bluetooth.

(** ** Vocabulary of the statements *)

(** The items of a descriptor: of a [list] or a [tuple]. *)
Definition desc_items (proto_desc : pyval) : option (list pyval) :=
  match proto_desc with
  | PList items | PTuple items => Some items
  | _ => None
  end.

(** The descriptor is a non-empty list or tuple whose first item equals
    the identifier [uuid]. *)
Definition names_protocol (uuid : string) (proto_desc : pyval) : bool :=
  match desc_items proto_desc with
  | Some (proto_uuid :: _) => py_eq_str proto_uuid uuid
  | _ => false
  end.

(** The parameter a descriptor assigns to [Channel], if it does: the
    second item of a descriptor that names RFCOMM. *)
Definition rfcomm_param `{!bluetooth.module} (proto_desc : pyval)
  : option pyval :=
  if names_protocol bluetooth.RFCOMM_UUID proto_desc
  then desc_items proto_desc ≫= (fun items => items !! 1%nat)
  else None.

Definition recognized `{!bluetooth.module} (proto_desc : pyval) : bool :=
  names_protocol bluetooth.L2CAP_UUID proto_desc
  || names_protocol bluetooth.RFCOMM_UUID proto_desc
  || names_protocol bluetooth.OBEX_UUID proto_desc
  || names_protocol bluetooth.TCP_UUID proto_desc
  || names_protocol bluetooth.UDP_UUID proto_desc.

(** The element [d] of the catalog is the one at the 1-based index that
    the last line read spells: [rest] is the input left unread. *)
Definition chosen_by {A} (devices : list A) (inp rest : list input_event)
    (d : A) : Prop :=
  ∃ (before : list input_event) (l : string) (n : Z),
    inp = before ++ Line l :: rest
    ∧ py_int (py_strip l) = Some n
    ∧ 1 ≤ n ≤ Z.of_nat (length devices)
    ∧ devices !! Z.to_nat (n - 1) = Some d.

(** What the selector may end with: no selection, an element of the
    catalog chosen by the input, or, with the input used up, the
    [EOFError] of [input()]. *)
Definition selection_sound {A} (devices : list A) (inp : list input_event)
    (sel : selection A) : Prop :=
  match sel_outcome sel with
  | Returned None => True
  | Returned (Some d) =>
      d ∈ devices ∧ chosen_by devices inp (stdin (sel_world sel)) d
  | Raised r => r = Exc EOF_when_reading ∧ stdin (sel_world sel) = []
  end.

(** An input event that ends the selector: Ctrl-C, the quit token, or an
    index of the catalog. *)
Definition decisive {A} (devices : list A) (ev : input_event) : Prop :=
  match ev with
  | Interrupt => True
  | Line l =>
      py_lower (py_strip l) = "q"
      ∨ ∃ n, py_int (py_strip l) = Some n
             ∧ 1 ≤ n ≤ Z.of_nat (length devices)
  end.

(** The notice a line gets that is neither the quit token nor an index of
    the catalog. *)
Definition notice_for {A} (devices : list A) (l : string) : string :=
  match py_int (py_strip l) with
  | None => invalid_notice
  | Some _ => range_notice (length devices)
  end.

(** The process after the texts [lines] were written. *)
Definition printed (lines : list string) (w : world) : world :=
  World (stdin w) (stdout w ++ lines).

(** What [print_banner] and the first two lines of [discover_devices] of
    [bluetooth_scanner.py] write. *)
Definition banner_text : list string :=
  [ line (py_repeat "=" 60);
    line "  Bluetooth Device Scanner & SDP Service Lister";
    line (py_repeat "=" 60);
    line "" ].

Definition scanning_text (duration : Z) : list string :=
  [ line ("[*] Scanning for Bluetooth devices (duration: "
          +:+ pretty duration +:+ "s)...");
    line ("[*] Please wait..." +:+ nl) ].

(** The checklist [main] of [bluetooth_scanner.py] prints when no device
    was found. *)
Definition no_devices_checklist : list string :=
  [ line "[!] No devices found. Please ensure:";
    line "    - Bluetooth is enabled on this computer";
    line "    - Target devices are in pairing/discoverable mode";
    line "    - Target devices are within range" ].

(** The notice for a discovery call that raised an [Exception]. *)
Definition discovery_notices {A} (answer : outcome A) : list string :=
  match answer with
  | Raised (Exc e) =>
      [line ("[!] Error during device discovery: " +:+ exc_text e)]
  | _ => []
  end.


(** A service record with a name and a host. *)
Definition sample_service : gmap string pyval :=
  {[ "name" := PStr "Serial"; "host" := PStr "00:11:22:33:44:55" ]}.

(** Descending order of the sort keys. *)
Definition key_desc {A} (key : A → Z) (a b : A) : Prop := key b ≤ key a.

(** The items of [l] whose key is [k], in the order they have in [l]. *)
Definition with_key {A} (key : A → Z) (k : Z) (l : list A) : list A :=
  filter (fun a => key a = k) l.

(** The BLE scenario of the spec: readings -70 and -40, and a third
    advertisement without a reading, found in this order. *)
Definition ble_found
  : list (string * (BleakScanner.BLEDevice * BleakScanner.AdvertisementData)) :=
  [ ("AA", ({| BleakScanner.address := "AA"; BleakScanner.name := Some "Far" |},
            {| BleakScanner.rssi := Some (-70) |}));
    ("BB", ({| BleakScanner.address := "BB"; BleakScanner.name := Some "Near" |},
            {| BleakScanner.rssi := Some (-40) |}));
    ("CC", ({| BleakScanner.address := "CC"; BleakScanner.name := None |},
            {| BleakScanner.rssi := None |})) ].

Definition bleak_sample : BleakScanner.api :=
  {| BleakScanner.discover := fun _ => Returned ble_found |}.

(** How often a key occurs in a [dict]. *)
Definition key_count (k : string) (d : pydict) : nat :=
  length (filter (fun kv => kv.1 = k) d).

(** PyBluez's identifiers (its [btcommon.py]), with the answers of the two
    calls left open. *)
Definition pybluez (discovered : outcome (list device))
    (services : string -> outcome (list (gmap string pyval)))
  : bluetooth.module :=
  {| bluetooth.L2CAP_UUID := "0100";
     bluetooth.RFCOMM_UUID := "0003";
     bluetooth.OBEX_UUID := "0008";
     bluetooth.TCP_UUID := "0004";
     bluetooth.UDP_UUID := "0002";
     bluetooth.discover_devices := fun _ => discovered;
     bluetooth.find_service := services |}.

(** The three devices of the spec's scenario A. *)
Definition three_devices : list device :=
  [ ("00:11:22:33:44:55", Some "Speaker");
    ("66:77:88:99:AA:BB", None);
    ("CC:DD:EE:FF:00:11", Some "Phone") ].

(** What the selector writes for the events it reads before the one that
    ends it: the prompt and one notice for every line. *)
Definition reprompts {A} (prompt : string) (devices : list A)
    (before : list input_event) : list string :=
  concat (map (fun ev =>
                 match ev with
                 | Line l => [prompt; notice_for devices l]
                 | Interrupt => []
                 end) before).

(** What a decisive event makes the selector return, and what the
    selector writes after the prompt for it. *)
Definition answer {A} (devices : list A) (ev : input_event) : option A :=
  match ev with
  | Interrupt => None
  | Line l =>
      if String.eqb (py_lower (py_strip l)) "q" then None
      else py_int (py_strip l) ≫= (fun n => devices !! Z.to_nat (n - 1))
  end.


(** Every character of [s] passes the test [P]. *)
Fixpoint string_forall (P : ascii → bool) (s : string) : bool :=
  match s with
  | "" => true
  | String c s' => P c && string_forall P s'
  end.

Definition is_digit (c : ascii) : bool :=
  match digit_val c with
  | Some _ => true
  | None => false
  end.

(** A step that reads no input, only adds to what was written, and is
    left by a return or by an [Exception], never by [KeyboardInterrupt]
    or [SystemExit]. *)
Definition tame {A} (m : IO A) : Prop :=
  ∀ w, ∃ lines,
    snd (m w) = printed lines w
    ∧ ∀ r, fst (m w) = Raised r → ∃ e, r = Exc e.

(** A tame step that always returns. *)
Definition returns {A} (m : IO A) : Prop :=
  ∀ w, ∃ a lines, m w = (Returned a, printed lines w).

(** The answer of the stack is a value or an [Exception]. *)
Definition no_signal {A} (answer : outcome A) : Prop :=
  ∀ r, answer = Raised r → ∃ e, r = Exc e.

(** A service record whose class list cannot be walked: an [int]. *)
Definition broken_service : gmap string pyval :=
  {[ "name" := PStr "Odd"; "service-classes" := PInt 4353 ]}.

(** The class list of a service record, as the report reads it. *)
Definition classes_of (service : gmap string pyval) : pyval :=
  default (PList []) (service !! "service-classes").




(** The parameter a descriptor assigns to [PSM], if it does: the second
    item of a descriptor that names L2CAP. *)
Definition l2cap_param `{!bluetooth.module} (proto_desc : pyval)
  : option pyval :=
  if names_protocol bluetooth.L2CAP_UUID proto_desc
  then desc_items proto_desc ≫= (fun items => items !! 1%nat)
  else None.

(** The names [parse_protocol_descriptor] can put into its result. *)
Definition flag_names : list string := ["L2CAP"; "RFCOMM"; "OBEX"; "TCP"; "UDP"].

Definition protocol_keys : list string :=
  ["L2CAP"; "PSM"; "RFCOMM"; "Channel"; "OBEX"; "TCP"; "UDP"; "parse_error"].

(** The text starts with "0x", as [hex] writes a number that is not
    negative and as every key of the service-class table does. *)
Definition has_0x_prefix (s : string) : bool := String.prefix "0x" s.

(** What [print_banner] of [bluetooth_scanner_bleak.py] writes. *)
Definition bleak_banner_text : list string :=
  [ line (py_repeat "=" 60);
    line "  Bluetooth Device Scanner (Bleak version)";
    line (py_repeat "=" 60);
    line "";
    line "[!] Note: macOS has limited classic Bluetooth support.";
    line "[!] This scanner will show BLE devices.";
    line ("[!] For full SDP scanning, use Linux with PyBluez." +:+ nl) ].

(** The checklist [main] of [bluetooth_scanner_bleak.py] prints when no
    device was found. *)
Definition bleak_no_devices_checklist : list string :=
  [ line "[!] No devices found. Please ensure:";
    line "    - Bluetooth is enabled on this computer";
    line "    - Target devices are powered on and in range" ].

(** The three heading lines of the BLE device table. *)
Definition bleak_table_heading (n : nat) : list string :=
  [ line ("[+] Found " +:+ pretty n +:+ " device(s):" +:+ nl);
    line (py_ljust 4 "#" +:+ " " +:+ py_ljust 30 "Name" +:+ " "
          +:+ py_ljust 20 "Address" +:+ " " +:+ py_ljust 6 "RSSI");
    line (py_repeat "-" 65) ].

(** The two lines [inspect_device] starts with. *)
Definition inspecting_text (device_address device_name : string)
  : list string :=
  [ line (nl +:+ "[*] Inspecting device '" +:+ device_name
          +:+ "' (" +:+ device_address +:+ ")...");
    line ("[*] This may take a moment..." +:+ nl) ].

(** The lines of one characteristic: four, and one more for a
    description that is not empty. *)
Definition characteristic_text (char : BleakClient.BleakGATTCharacteristic)
  : list string :=
  [ line ("    - UUID: " +:+ BleakClient.char_uuid char);
    line ("      Handle: " +:+ pretty (BleakClient.char_handle char));
    line ("      Properties: " +:+ py_join ", " (BleakClient.properties char)) ]
  ++ (if String.eqb (BleakClient.char_description char) "" then []
      else [line ("      Description: " +:+ BleakClient.char_description char)])
  ++ [line ""].

(** The lines of one service of the GATT report. *)
Definition gatt_service_text (idx : nat)
    (service : BleakClient.BleakGATTService) : list string :=
  [ line (nl +:+ "Service #" +:+ pretty idx);
    line (py_repeat "-" 80);
    line ("  UUID:        " +:+ BleakClient.uuid service);
    line ("  Handle:      " +:+ pretty (BleakClient.handle service));
    line ("  Description: " +:+ BleakClient.description service) ]
  ++ match BleakClient.characteristics service with
     | [] => []
     | chars =>
         line ("  Characteristics (" +:+ pretty (length chars) +:+ "):")
         :: concat (map characteristic_text chars)
     end.

(** What [inspect_device] writes between connecting and disconnecting. *)
Definition gatt_report (device_name : string)
    (services : list BleakClient.BleakGATTService) : list string :=
  [ line ("[+] Connected to " +:+ device_name +:+ nl);
    line (py_repeat "=" 80) ]
  ++ match services with
     | [] => [line "[!] No GATT services found on this device."]
     | _ =>
         [ line ("[+] Found " +:+ pretty (length services)
                 +:+ " GATT service(s):" +:+ nl) ]
         ++ concat (map (fun '(idx, service) => gatt_service_text idx service)
                      (py_enumerate1 services))
         ++ [ line (py_repeat "=" 80);
              line ("[+] Total services listed: "
                    +:+ pretty (length services) +:+ nl) ]
     end.

(** A connection attempt that times out, and one that is refused. *)
Definition connect_timeout : exn := Exn asyncio_TimeoutError "".
Definition connect_refused : exn :=
  Exn (OtherException "BleakError") "Device not found".

(** A heart-rate service with one characteristic, one service without. *)
Definition sample_gatt : list BleakClient.BleakGATTService :=
  [ {| BleakClient.uuid := "0000180d-0000-1000-8000-00805f9b34fb";
       BleakClient.handle := 12;
       BleakClient.description := "Heart Rate";
       BleakClient.characteristics :=
         [ {| BleakClient.char_uuid := "00002a37-0000-1000-8000-00805f9b34fb";
              BleakClient.char_handle := 13;
              BleakClient.properties := ["notify"; "read"];
              BleakClient.char_description := "Heart Rate Measurement" |} ] |};
    {| BleakClient.uuid := "00001801-0000-1000-8000-00805f9b34fb";
       BleakClient.handle := 1;
       BleakClient.description := "Generic Attribute Profile";
       BleakClient.characteristics := [] |} ].

(** A client whose connection attempt and disconnection answer the same
    for every address. *)
Definition bleak_client (connected : outcome (list BleakClient.BleakGATTService))
    (disconnected : outcome unit) : BleakClient.api :=
  {| BleakClient.connect := fun _ => connected;
     BleakClient.disconnect := fun _ => disconnected |}.

(** A scanner that answers every scan the same way. *)
Definition bleak_scanner
    (discovered : outcome (list (string * (BleakScanner.BLEDevice
                                           * BleakScanner.AdvertisementData))))
  : BleakScanner.api :=
  {| BleakScanner.discover := fun _ => discovered |}.

(** The device list [discover_devices] of the BLE script makes of what
    the scanner found. *)
Definition bleak_device_list
    (found : list (string * (BleakScanner.BLEDevice
                             * BleakScanner.AdvertisementData)))
  : list bluetooth_scanner_bleak.device :=
  py_sort_reverse snd (map bluetooth_scanner_bleak.device_tuple found).

(** The three lines [quick_scan] starts with. *)
Definition quick_scan_opening : list string :=
  [ line "Starting a quick 5-second Bluetooth scan...";
    line ("Make sure you have granted Bluetooth permissions to your "
          +:+ "Terminal app!");
    line "" ].

(** What [quick_scan] tells when it found nothing. *)
Definition quick_scan_help : list string :=
  [ line "No devices found. This could mean:";
    line "  1. No Bluetooth devices are nearby";
    line "  2. Terminal doesn't have Bluetooth permission";
    line "     Go to: System Settings > Privacy & Security > Bluetooth";
    line "     And enable access for your Terminal app" ].

(** The two lines that end a scan that found devices. *)
Definition quick_scan_success : list string :=
  [ line (nl +:+ "Success! Bleak is working correctly on your Mac.");
    line "You can now use: python3 bluetooth_scanner_bleak.py" ].

(** The line of the device [device], numbered [i]. *)
Definition quick_scan_row (i : nat) (device : BleakScanner.BLEDevice)
  : string :=
  line (pretty i +:+ ". " +:+ name_or_unknown (BleakScanner.name device)
        +:+ " (" +:+ BleakScanner.address device +:+ ")").

(** Two devices, the second without a name. *)
Definition two_ble_devices : list BleakScanner.BLEDevice :=
  [ {| BleakScanner.address := "AA"; BleakScanner.name := Some "Band" |};
    {| BleakScanner.address := "BB"; BleakScanner.name := None |} ].

(** * Properties *)

(** ** Dictionaries *)

Lemma dict_get_set k k' v d :
  dict_get k (dict_set k' v d) = if String.eqb k' k then Some v else dict_get k d.
Proof.
  induction d as [|[k0 v0] d IH]; simpl.
  - reflexivity.
  - destruct (String.eqb_spec k0 k') as [->|Hne]; simpl.
    + destruct (String.eqb k' k); reflexivity.
    + rewrite IH. destruct (String.eqb_spec k0 k) as [->|Hne'].
      * destruct (String.eqb_spec k' k) as [->|_]; [congruence|reflexivity].
      * reflexivity.
Qed.

Lemma dict_get_set_eq k v d : dict_get k (dict_set k v d) = Some v.
Proof. rewrite dict_get_set, String.eqb_refl. reflexivity. Qed.

Lemma dict_get_set_ne k k' v d :
  k' ≠ k → dict_get k (dict_set k' v d) = dict_get k d.
Proof.
  intros Hne. rewrite dict_get_set.
  destruct (String.eqb_spec k' k); [congruence|reflexivity].
Qed.

Lemma key_count_cons k k0 v0 d :
  key_count k ((k0, v0) :: d)
  = ((if String.eqb k0 k then 1 else 0) + key_count k d)%nat.
Proof.
  unfold key_count. destruct (String.eqb_spec k0 k) as [->|Hne].
  - rewrite filter_cons_True by reflexivity. reflexivity.
  - rewrite filter_cons_False by (simpl; congruence). reflexivity.
Qed.

Lemma key_count_set_absent k v d :
  key_count k d = 0%nat → key_count k (dict_set k v d) = 1%nat.
Proof.
  induction d as [|[k0 v0] d IH]; cbn [dict_set].
  - intros _. rewrite key_count_cons, String.eqb_refl. reflexivity.
  - rewrite key_count_cons. destruct (String.eqb_spec k0 k) as [->|Hne].
    + discriminate.
    + intros H0. rewrite key_count_cons.
      destruct (String.eqb_spec k0 k); [congruence|auto].
Qed.

Lemma key_count_set_present k v d :
  key_count k d = 1%nat → key_count k (dict_set k v d) = 1%nat.
Proof.
  induction d as [|[k0 v0] d IH]; cbn [dict_set].
  - discriminate.
  - rewrite key_count_cons. destruct (String.eqb_spec k0 k) as [->|Hne].
    + intros H1. rewrite key_count_cons, String.eqb_refl. exact H1.
    + intros H1. rewrite key_count_cons.
      destruct (String.eqb_spec k0 k); [congruence|auto].
Qed.

Lemma key_count_set_other k k' v d :
  k' ≠ k → key_count k (dict_set k' v d) = key_count k d.
Proof.
  intros Hne. induction d as [|[k0 v0] d IH]; cbn [dict_set].
  - rewrite key_count_cons.
    destruct (String.eqb_spec k' k); [congruence|reflexivity].
  - destruct (String.eqb_spec k0 k') as [->|Hne0].
    + rewrite !key_count_cons.
      destruct (String.eqb_spec k' k); [congruence|reflexivity].
    + rewrite !key_count_cons, IH. reflexivity.
Qed.

Lemma key_count_0_of_get_None k d :
  dict_get k d = None → key_count k d = 0%nat.
Proof.
  induction d as [|[k0 v0] d IH]; cbn [dict_get].
  - reflexivity.
  - rewrite key_count_cons. destruct (String.eqb k0 k); [discriminate|auto].
Qed.

Lemma key_count_le_1_set k k' v d :
  (key_count k d ≤ 1)%nat → (key_count k (dict_set k' v d) ≤ 1)%nat.
Proof.
  intros Hle. destruct (decide (k' = k)) as [->|Hne].
  - destruct (key_count k d) as [|[|n]] eqn:E; [| |lia].
    + rewrite key_count_set_absent by exact E. lia.
    + rewrite key_count_set_present by exact E. lia.
  - rewrite key_count_set_other by exact Hne. exact Hle.
Qed.

(** ** The service-class table *)

Example get_service_class_name_of_int :
  bluetooth_scanner.get_service_class_name (PInt 4353)
  = "Serial Port Profile (SPP)"
  ∧ bluetooth_scanner.get_service_class_name (PInt 65535) = "0xffff"
  ∧ bluetooth_scanner.get_service_class_name (PBool true) = "0x1"
  ∧ bluetooth_scanner.get_service_class_name PNone = "None"
  ∧ bluetooth_scanner.get_service_class_name (PStr "1101") = "1101".
Proof. repeat split; vm_compute; reflexivity. Qed.

Example service_classes_size : size bluetooth_scanner.service_classes = 22%nat.
Proof. vm_compute. reflexivity. Qed.


(** ** The protocol-descriptor walk *)

Section proto_step_facts.
Context `{!bluetooth.module}.

Lemma proto_step_unrecognized protocols proto_desc :
  recognized proto_desc = false →
  bluetooth_scanner.proto_step protocols proto_desc = protocols.
Proof.
  unfold recognized, names_protocol, bluetooth_scanner.proto_step.
  destruct proto_desc as [| | | |[|u items]|[|u items]|]; simpl; try done.
  all: intros Hr; repeat (apply orb_false_elim in Hr as [Hr ?]).
  all: by repeat match goal with H : _ = false |- _ => rewrite H end.
Qed.

Lemma foldl_proto_step_unrecognized protocols items :
  Forall (fun d => recognized d = false) items →
  foldl bluetooth_scanner.proto_step protocols items = protocols.
Proof.
  intros Hall. revert protocols.
  induction Hall as [|d items Hd _ IH]; intros protocols; simpl.
  - reflexivity.
  - rewrite proto_step_unrecognized by exact Hd. apply IH.
Qed.

(** A turn only ever assigns to the seven flag names. *)
Lemma proto_step_get_other k protocols proto_desc :
  k ∉ ["L2CAP"; "PSM"; "RFCOMM"; "Channel"; "OBEX"; "TCP"; "UDP"] →
  dict_get k (bluetooth_scanner.proto_step protocols proto_desc)
  = dict_get k protocols.
Proof.
  intros Hk. unfold bluetooth_scanner.proto_step.
  assert (∀ k', k' ∈ ["L2CAP"; "PSM"; "RFCOMM"; "Channel"; "OBEX"; "TCP"; "UDP"]
                → k' ≠ k) as Hne by (intros k' Hin ->; contradiction).
  destruct proto_desc as [| | | |[|u items]|[|u items]|]; try reflexivity.
  all: repeat (case_match; try reflexivity).
  all: rewrite ?dict_get_set_ne; try reflexivity.
  all: apply Hne; set_solver.
Qed.

(** A descriptor that is no RFCOMM descriptor with a parameter leaves
    [Channel] alone. *)
Lemma proto_step_keeps_channel protocols proto_desc :
  rfcomm_param proto_desc = None →
  dict_get "Channel" (bluetooth_scanner.proto_step protocols proto_desc)
  = dict_get "Channel" protocols.
Proof.
  unfold rfcomm_param, names_protocol, bluetooth_scanner.proto_step.
  destruct proto_desc as [| | | |[|u items]|[|u items]|]; try reflexivity.
  all: cbn [desc_items mbind option_bind].
  all: intros Hparam; repeat (case_match; try reflexivity).
  all: rewrite ?dict_get_set_ne by discriminate; try reflexivity.
  all: congruence.
Qed.

Lemma foldl_proto_step_keeps_channel protocols items :
  Forall (fun d => rfcomm_param d = None) items →
  dict_get "Channel" (foldl bluetooth_scanner.proto_step protocols items)
  = dict_get "Channel" protocols.
Proof.
  intros Hall. revert protocols.
  induction Hall as [|d items Hd _ IH]; intros protocols; simpl.
  - reflexivity.
  - rewrite IH. apply proto_step_keeps_channel, Hd.
Qed.

(** The [RFCOMM] flag, once set, stays set. *)
Lemma proto_step_keeps_rfcomm_flag protocols proto_desc :
  dict_get "RFCOMM" protocols = Some (PBool true) →
  dict_get "RFCOMM" (bluetooth_scanner.proto_step protocols proto_desc)
  = Some (PBool true).
Proof.
  intros Hflag. unfold bluetooth_scanner.proto_step.
  destruct proto_desc as [| | | |[|u items]|[|u items]|]; try assumption.
  all: repeat (case_match; try assumption).
  all: rewrite ?dict_get_set_ne by discriminate; try assumption.
  all: apply dict_get_set_eq.
Qed.

Lemma foldl_proto_step_keeps_rfcomm_flag protocols items :
  dict_get "RFCOMM" protocols = Some (PBool true) →
  dict_get "RFCOMM" (foldl bluetooth_scanner.proto_step protocols items)
  = Some (PBool true).
Proof.
  revert protocols. induction items as [|d items IH]; intros; simpl.
  - assumption.
  - apply IH, proto_step_keeps_rfcomm_flag. assumption.
Qed.

(** The turn for an RFCOMM descriptor that carries a parameter. *)
Lemma proto_step_rfcomm protocols proto_desc param more :
  bluetooth.RFCOMM_UUID ≠ bluetooth.L2CAP_UUID →
  desc_items proto_desc
  = Some (PStr bluetooth.RFCOMM_UUID :: param :: more) →
  bluetooth_scanner.proto_step protocols proto_desc
  = dict_set "Channel" param (dict_set "RFCOMM" (PBool true) protocols).
Proof.
  intros Hne Hitems. unfold bluetooth_scanner.proto_step.
  destruct proto_desc; simpl in Hitems; try discriminate.
  all: injection Hitems as ->; simpl.
  all: destruct (String.eqb_spec bluetooth.RFCOMM_UUID bluetooth.L2CAP_UUID);
    [contradiction|].
  all: rewrite String.eqb_refl; reflexivity.
Qed.

Lemma foldl_proto_step_parse_error_free protocols items :
  dict_get "parse_error" (foldl bluetooth_scanner.proto_step protocols items)
  = dict_get "parse_error" protocols.
Proof.
  revert protocols. induction items as [|d items IH]; intros; simpl.
  - reflexivity.
  - rewrite IH. apply proto_step_get_other.
    rewrite !not_elem_of_cons. repeat split; try discriminate.
    apply not_elem_of_nil.
Qed.

Lemma proto_step_key_count k protocols proto_desc :
  (key_count k protocols ≤ 1)%nat →
  (key_count k (bluetooth_scanner.proto_step protocols proto_desc) ≤ 1)%nat.
Proof.
  intros Hle. unfold bluetooth_scanner.proto_step.
  destruct proto_desc as [| | | |[|u items]|[|u items]|]; try assumption.
  all: repeat (case_match; try assumption).
  all: repeat apply key_count_le_1_set; assumption.
Qed.

Lemma foldl_proto_step_key_count k protocols items :
  (key_count k protocols ≤ 1)%nat →
  (key_count k (foldl bluetooth_scanner.proto_step protocols items) ≤ 1)%nat.
Proof.
  revert protocols. induction items as [|d items IH]; intros; simpl.
  - assumption.
  - apply IH, proto_step_key_count. assumption.
Qed.
End proto_step_facts.

(** C8, as the code has it: a descriptor list with an RFCOMM descriptor
    that carries the parameter 5, and after it no further RFCOMM
    descriptor with a parameter, yields a flag set with [Channel] equal to
    5 and [RFCOMM] true, whatever other descriptors the list has; a
    descriptor list none of whose identifiers is one of the five known
    ones yields the empty flag set, with no [parse_error] entry. *)
Theorem C8_parse_protocol_descriptor_flags :
  ∀ bt : bluetooth.module,
    (∀ v pre proto_desc post failure more,
       bluetooth.RFCOMM_UUID ≠ bluetooth.L2CAP_UUID →
       py_iter v = (pre ++ proto_desc :: post, failure) →
       desc_items proto_desc
       = Some (PStr bluetooth.RFCOMM_UUID :: PInt 5 :: more) →
       Forall (fun d => rfcomm_param d = None) post →
       dict_get "Channel" (bluetooth_scanner.parse_protocol_descriptor v)
       = Some (PInt 5)
       ∧ dict_get "RFCOMM" (bluetooth_scanner.parse_protocol_descriptor v)
         = Some (PBool true))
    ∧ (∀ items,
         Forall (fun d => recognized d = false) items →
         bluetooth_scanner.parse_protocol_descriptor (PList items) = []).
Proof.
  intros bt. split.
  - intros v pre proto_desc post failure more Hne Hiter Hitems Hpost.
    unfold bluetooth_scanner.parse_protocol_descriptor. rewrite Hiter.
    rewrite foldl_app. cbn [foldl].
    rewrite (proto_step_rfcomm _ _ _ _ Hne Hitems).
    set (seen := dict_set "Channel" (PInt 5) (dict_set "RFCOMM" (PBool true)
                   (foldl bluetooth_scanner.proto_step [] pre))).
    assert (dict_get "Channel" (foldl bluetooth_scanner.proto_step seen post)
            = Some (PInt 5)) as Hchannel.
    { rewrite foldl_proto_step_keeps_channel by exact Hpost.
      apply dict_get_set_eq. }
    assert (dict_get "RFCOMM" (foldl bluetooth_scanner.proto_step seen post)
            = Some (PBool true)) as Hflag.
    { apply foldl_proto_step_keeps_rfcomm_flag. unfold seen.
      rewrite dict_get_set_ne by discriminate. apply dict_get_set_eq. }
    destruct failure as [e|]; [|split; assumption].
    rewrite !dict_get_set_ne by discriminate. split; assumption.
  - intros items Hall.
    unfold bluetooth_scanner.parse_protocol_descriptor. cbn [py_iter].
    apply foldl_proto_step_unrecognized. exact Hall.
Qed.

(** The theorem at PyBluez's identifiers: [[("0003", 5), ("0003",)]] gives
    [Channel] 5, a descriptor with the unknown identifier "1234" gives the
    empty flag set. *)
Lemma C8_parse_protocol_descriptor_flags_witness :
  let bt := pybluez (Returned []) (fun _ => Returned []) in
  (dict_get "Channel"
     (bluetooth_scanner.parse_protocol_descriptor
        (PList [PTuple [PStr "0003"; PInt 5]; PTuple [PStr "0003"]]))
   = Some (PInt 5)
   ∧ dict_get "RFCOMM"
       (bluetooth_scanner.parse_protocol_descriptor
          (PList [PTuple [PStr "0003"; PInt 5]; PTuple [PStr "0003"]]))
     = Some (PBool true))
  ∧ bluetooth_scanner.parse_protocol_descriptor
      (PList [PTuple [PStr "1234"; PInt 1]; PInt 3]) = [].
Proof.
  intros bt.
  destruct (C8_parse_protocol_descriptor_flags bt) as [Hchannel Hempty].
  split.
  - apply (Hchannel _ [] (PTuple [PStr "0003"; PInt 5])
             [PTuple [PStr "0003"]] None []).
    + discriminate.
    + reflexivity.
    + reflexivity.
    + constructor; [reflexivity|constructor].
  - apply Hempty. constructor; [reflexivity|].
    constructor; [reflexivity|constructor].
Defined.

(** The list [[("0003", 5), ("0003", 7)]] contains the RFCOMM descriptor
    with parameter 5, and the flag set has [Channel] 7 and no entry
    equal to 5: the later descriptor assigned [Channel] again. *)
Lemma C8_later_rfcomm_descriptor_overwrites_channel :
  let bt := pybluez (Returned []) (fun _ => Returned []) in
  let descriptors :=
    [PTuple [PStr bluetooth.RFCOMM_UUID; PInt 5];
     PTuple [PStr bluetooth.RFCOMM_UUID; PInt 7]] in
  PTuple [PStr bluetooth.RFCOMM_UUID; PInt 5] ∈ descriptors
  ∧ bluetooth_scanner.parse_protocol_descriptor (PList descriptors)
    = [("RFCOMM", PBool true); ("Channel", PInt 7)]
  ∧ dict_get "Channel"
      (bluetooth_scanner.parse_protocol_descriptor (PList descriptors))
    ≠ Some (PInt 5).
Proof.
  intros bt descriptors. split; [|split].
  - apply elem_of_cons. left. reflexivity.
  - reflexivity.
  - discriminate.
Qed.

Example parse_protocol_descriptor_examples :
  let bt := pybluez (Returned []) (fun _ => Returned []) in
  bluetooth_scanner.parse_protocol_descriptor
    (PList [PList [PStr "0100"; PInt 3]; PList [PStr "0003"; PInt 5];
            PList [PStr "0008"]])
  = [("L2CAP", PBool true); ("PSM", PInt 3); ("RFCOMM", PBool true);
     ("Channel", PInt 5); ("OBEX", PBool true)]
  ∧ bluetooth_scanner.parse_protocol_descriptor
      (PList [PList [PStr "0003"; PInt 5]; PList [PStr "0003"; PInt 7]])
    = [("RFCOMM", PBool true); ("Channel", PInt 7)]
  ∧ bluetooth_scanner.parse_protocol_descriptor (PStr "RFCOMM") = []
  ∧ bluetooth_scanner.parse_protocol_descriptor (PInt 7)
    = [("parse_error", PStr "'int' object is not iterable")].
Proof. repeat split; reflexivity. Qed.

(** C9: when the walk over the descriptor list raises, the function still
    returns a flag set: the flags of the descriptors seen before the
    failure, and one [parse_error] entry whose value is the text of the
    exception.  The result type has no exceptional case: nothing reaches
    the caller. *)
Theorem C9_parse_error_captured :
  ∀ (bt : bluetooth.module) (v : pyval) (items : list pyval) (e : exn),
    py_iter v = (items, Some e) →
    let seen := foldl bluetooth_scanner.proto_step [] items in
    let protocols := bluetooth_scanner.parse_protocol_descriptor v in
    protocols = dict_set "parse_error" (PStr (exc_text e)) seen
    ∧ dict_get "parse_error" protocols = Some (PStr (exc_text e))
    ∧ key_count "parse_error" protocols = 1%nat
    ∧ ∀ k, k ≠ "parse_error" → dict_get k protocols = dict_get k seen.
Proof.
  intros bt v items e Hiter seen protocols.
  assert (protocols = dict_set "parse_error" (PStr (exc_text e)) seen) as ->.
  { unfold protocols, bluetooth_scanner.parse_protocol_descriptor.
    rewrite Hiter. reflexivity. }
  split; [reflexivity|]. split; [apply dict_get_set_eq|]. split.
  - apply key_count_set_absent, key_count_0_of_get_None.
    unfold seen. rewrite foldl_proto_step_parse_error_free. reflexivity.
  - intros k Hk. apply dict_get_set_ne. congruence.
Qed.

(** The theorem at an iterator that yields one RFCOMM descriptor and then
    fails, and at a value that cannot be iterated at all. *)
Lemma C9_parse_error_captured_witness :
  let bt := pybluez (Returned []) (fun _ => Returned []) in
  bluetooth_scanner.parse_protocol_descriptor
    (PIter "<generator object records>" [PList [PStr "0003"; PInt 5]]
       (Some (Exn (OtherException "RuntimeError") "link lost")))
  = [("RFCOMM", PBool true); ("Channel", PInt 5);
     ("parse_error", PStr "link lost")]
  ∧ dict_get "parse_error" (bluetooth_scanner.parse_protocol_descriptor PNone)
    = Some (PStr "'NoneType' object is not iterable").
Proof.
  intros bt. split.
  - apply (C9_parse_error_captured bt
             (PIter "<generator object records>" [PList [PStr "0003"; PInt 5]]
                (Some (Exn (OtherException "RuntimeError") "link lost")))
             [PList [PStr "0003"; PInt 5]]
             (Exn (OtherException "RuntimeError") "link lost")).
    reflexivity.
  - apply (C9_parse_error_captured bt PNone []
             (Exn TypeError "'NoneType' object is not iterable")).
    reflexivity.
Defined.

(** ** The selector *)

Section select_loop_facts.
Context {A : Type} (prompt : string) (devices : list A).

Lemma select_loop_catalog inp out :
  sel_catalog (select_loop prompt devices inp out) = devices.
Proof.
  revert out. induction inp as [|[l|] rest IH]; intros out; cbn [select_loop].
  - reflexivity.
  - repeat case_match; try reflexivity; apply IH.
  - reflexivity.
Qed.

Lemma chosen_by_later ev inp rest d :
  chosen_by devices inp rest d → chosen_by devices (ev :: inp) rest d.
Proof.
  intros (before & l & n & -> & Hrest). exists (ev :: before), l, n.
  split; [reflexivity|exact Hrest].
Qed.

Lemma selection_sound_later ev inp sel :
  selection_sound devices inp sel → selection_sound devices (ev :: inp) sel.
Proof.
  unfold selection_sound. destruct (sel_outcome sel) as [[d|]|r]; try done.
  intros [Hin Hch]. split; [exact Hin|]. apply chosen_by_later, Hch.
Qed.

Lemma select_loop_sound inp out :
  selection_sound devices inp (select_loop prompt devices inp out).
Proof.
  revert out. induction inp as [|[l|] rest IH]; intros out; cbn [select_loop].
  - split; reflexivity.
  - destruct (String.eqb (py_lower (py_strip l)) "q"); [exact I|].
    destruct (py_int (py_strip l)) as [n|] eqn:Hint;
      [|apply selection_sound_later, IH].
    destruct (1 <=? n) eqn:Hlo; cbn [andb];
      [|apply selection_sound_later, IH].
    destruct (n <=? Z.of_nat (length devices)) eqn:Hhi;
      [|apply selection_sound_later, IH].
    apply Z.leb_le in Hlo, Hhi.
    destruct (devices !! Z.to_nat (n - 1)) as [d|] eqn:Hd.
    + split; [apply list_elem_of_lookup; eauto|].
      exists [], l, n. cbn [sel_world stdin].
      split; [reflexivity|]. split; [exact Hint|]. split; [lia|exact Hd].
    + apply lookup_ge_None in Hd. lia.
  - exact I.
Qed.

(** Every run starts by writing the prompt. *)
Lemma select_loop_prompts inp out :
  ∃ more,
    stdout (sel_world (select_loop prompt devices inp out))
    = out ++ prompt :: more.
Proof.
  revert out. induction inp as [|[l|] rest IH]; intros out; cbn [select_loop].
  - exists []. reflexivity.
  - assert (∀ notice, ∃ more,
              stdout (sel_world (select_loop prompt devices rest
                                   (out ++ [prompt; notice])))
              = out ++ prompt :: more) as Hagain.
    { intros notice. destruct (IH (out ++ [prompt; notice])) as [more ->].
      exists (notice :: prompt :: more). rewrite <- app_assoc. reflexivity. }
    repeat case_match; try apply Hagain; exists []; reflexivity.
  - exists [cancelled_notice]. reflexivity.
Qed.

(** The selector returns as soon as the input has a decisive event; it is
    left by [EOFError] only when the input has none. *)
Lemma select_loop_returns inp out :
  Exists (decisive devices) inp →
  ∃ r, sel_outcome (select_loop prompt devices inp out) = Returned r.
Proof.
  intros Hex. revert out.
  induction inp as [|[l|] rest IH]; intros out; cbn [select_loop].
  - inversion Hex.
  - destruct (String.eqb_spec (py_lower (py_strip l)) "q") as [Hq|Hq];
      [eexists; reflexivity|].
    assert (¬ decisive devices (Line l) → Exists (decisive devices) rest)
      as Hrest.
    { intros Hnot. inversion Hex; subst; [contradiction|assumption]. }
    destruct (py_int (py_strip l)) as [n|] eqn:Hint.
    + destruct (1 <=? n) eqn:Hlo; cbn [andb].
      * destruct (n <=? Z.of_nat (length devices)) eqn:Hhi.
        -- apply Z.leb_le in Hlo, Hhi.
           destruct (devices !! Z.to_nat (n - 1)) eqn:Hd;
             [eexists; reflexivity|].
           apply lookup_ge_None in Hd. lia.
        -- apply IH, Hrest. intros [?|(m & Hm & Hrange)]; [contradiction|].
           rewrite Hint in Hm. injection Hm as <-.
           apply Z.leb_gt in Hhi. lia.
      * apply IH, Hrest. intros [?|(m & Hm & Hrange)]; [contradiction|].
        rewrite Hint in Hm. injection Hm as <-.
        apply Z.leb_gt in Hlo. lia.
    + apply IH, Hrest. intros [?|(m & Hm & _)]; [contradiction|].
      rewrite Hint in Hm. discriminate.
  - eexists. reflexivity.
Qed.

Lemma select_loop_quit l rest out :
  py_lower (py_strip l) = "q" →
  select_loop prompt devices (Line l :: rest) out
  = Selection (Returned None) devices (World rest (out ++ [prompt])).
Proof. intros Hq. cbn [select_loop]. rewrite Hq. reflexivity. Qed.

Lemma select_loop_malformed l rest out :
  py_lower (py_strip l) ≠ "q" →
  (py_int (py_strip l) = None
   ∨ ∃ n, py_int (py_strip l) = Some n
          ∧ (n < 1 ∨ Z.of_nat (length devices) < n)) →
  select_loop prompt devices (Line l :: rest) out
  = select_loop prompt devices rest (out ++ [prompt; notice_for devices l]).
Proof.
  intros Hq Hbad. cbn [select_loop]. unfold notice_for.
  destruct (String.eqb_spec (py_lower (py_strip l)) "q") as [|_];
    [contradiction|].
  destruct Hbad as [-> | (n & -> & Hn)]; [reflexivity|].
  destruct (1 <=? n) eqn:Hlo; cbn [andb]; [|reflexivity].
  destruct (n <=? Z.of_nat (length devices)) eqn:Hhi; [|reflexivity].
  apply Z.leb_le in Hlo, Hhi. lia.
Qed.

Lemma select_loop_pick l n d rest out :
  py_lower (py_strip l) ≠ "q" →
  py_int (py_strip l) = Some n →
  devices !! Z.to_nat (n - 1) = Some d →
  1 ≤ n →
  select_loop prompt devices (Line l :: rest) out
  = Selection (Returned (Some d)) devices (World rest (out ++ [prompt])).
Proof.
  intros Hq Hint Hd Hlo. cbn [select_loop].
  destruct (String.eqb_spec (py_lower (py_strip l)) "q") as [|_];
    [contradiction|].
  assert (Hlt := lookup_lt_Some _ _ _ Hd).
  rewrite Hint, Hd.
  rewrite (proj2 (Z.leb_le 1 n)) by lia.
  rewrite (proj2 (Z.leb_le n _)) by lia.
  reflexivity.
Qed.
End select_loop_facts.

(** C2: in both scripts, for every catalog and every input,
    [select_device] ends in one of three ways: it returns [None]; it
    returns an element of the catalog, namely the one at position [n - 1]
    for the [n] with [1 <= n <= len(devices)] that the last line read
    spells; or the input is used up and the [EOFError] of [input()] leaves
    the function.  It never returns anything else, and the index is never
    out of range. *)
Theorem C2_select_device_returns_catalog_element :
  (∀ (devices : list device) (w : world),
     selection_sound devices (stdin w)
       (bluetooth_scanner.select_device devices w))
  ∧ (∀ (devices : list bluetooth_scanner_bleak.device) (w : world),
       selection_sound devices (stdin w)
         (bluetooth_scanner_bleak.select_device devices w)).
Proof. split; intros devices w; apply select_loop_sound. Qed.

(** Scenario A of the spec: "2" selects the unnamed device; "5" and then
    "q" end with no selection, after one range notice. *)
Example select_device_scenario_A :
  bluetooth_scanner.select_device three_devices (World [Line "2"] [])
  = Selection (Returned (Some ("66:77:88:99:AA:BB", None))) three_devices
      (World [] [bluetooth_scanner.select_prompt])
  ∧ bluetooth_scanner.select_device three_devices
      (World [Line "5"; Line "q"] [])
    = Selection (Returned None) three_devices
        (World [] [bluetooth_scanner.select_prompt; range_notice 3;
                   bluetooth_scanner.select_prompt]).
Proof. split; reflexivity. Qed.

Example select_device_interrupt_and_eof :
  bluetooth_scanner.select_device three_devices (World [Interrupt; Line "1"] [])
  = Selection (Returned None) three_devices
      (World [Line "1"] [bluetooth_scanner.select_prompt; cancelled_notice])
  ∧ sel_outcome (bluetooth_scanner.select_device three_devices
                   (World [Line "x"] []))
    = Raised (Exc EOF_when_reading).
Proof. split; reflexivity. Qed.

(** C3: a line whose stripped, lower-cased content is "q" makes
    [select_device] return [None] at once, in both scripts: the prompt is
    the only thing written, no notice, and the rest of the input is left
    unread. *)
Theorem C3_quit_token_returns_no_selection :
  ∀ l : string,
    py_lower (py_strip l) = "q" →
    (∀ (devices : list device) rest out,
       bluetooth_scanner.select_device devices (World (Line l :: rest) out)
       = Selection (Returned None) devices
           (World rest (out ++ [bluetooth_scanner.select_prompt])))
    ∧ (∀ (devices : list bluetooth_scanner_bleak.device) rest out,
         bluetooth_scanner_bleak.select_device devices
           (World (Line l :: rest) out)
         = Selection (Returned None) devices
             (World rest (out ++ [bluetooth_scanner_bleak.select_prompt]))).
Proof.
  intros l Hq. split; intros devices rest out; apply select_loop_quit, Hq.
Qed.

(** The three inputs the spec names: " Q ", "q" and "Q". *)
Lemma C3_quit_token_returns_no_selection_witness :
  sel_outcome (bluetooth_scanner.select_device three_devices
                 (World [Line " Q "; Line "1"] [])) = Returned None
  ∧ sel_outcome (bluetooth_scanner.select_device three_devices
                   (World [Line "q"] [])) = Returned None
  ∧ sel_outcome (bluetooth_scanner.select_device three_devices
                   (World [Line "Q"] [])) = Returned None.
Proof.
  split; [|split].
  - rewrite (proj1 (C3_quit_token_returns_no_selection " Q " eq_refl)).
    reflexivity.
  - rewrite (proj1 (C3_quit_token_returns_no_selection "q" eq_refl)).
    reflexivity.
  - rewrite (proj1 (C3_quit_token_returns_no_selection "Q" eq_refl)).
    reflexivity.
Defined.

(** C4: a line that is not the quit token and is not an index of the
    catalog (no number at all, or a number below 1, hence zero or
    negative, or above the length) does not end [select_device]: the run
    goes on with the next input exactly as a fresh run would, after the
    prompt and one notice were written (the invalid-input notice when
    the line is no number, the range notice with the bounds otherwise), and
    the prompt is written again.  The catalog is the same list when the
    function is left, whatever the input was. *)
Theorem C4_malformed_input_reprompts :
  ∀ (devices : list device) (l : string) rest out,
    py_lower (py_strip l) ≠ "q" →
    (py_int (py_strip l) = None
     ∨ ∃ n, py_int (py_strip l) = Some n
            ∧ (n = 0 ∨ n < 0 ∨ Z.of_nat (length devices) < n)) →
    let run := bluetooth_scanner.select_device devices
                 (World (Line l :: rest) out) in
    let notice := notice_for devices l in
    (notice = invalid_notice ∨ notice = range_notice (length devices))
    ∧ run = bluetooth_scanner.select_device devices
              (World rest (out ++ [bluetooth_scanner.select_prompt; notice]))
    ∧ (∃ more,
         stdout (sel_world run)
         = out ++ [bluetooth_scanner.select_prompt; notice;
                   bluetooth_scanner.select_prompt] ++ more)
    ∧ (∀ w, sel_catalog (bluetooth_scanner.select_device devices w) = devices).
Proof.
  intros devices l rest out Hq Hbad run notice.
  assert (run = bluetooth_scanner.select_device devices
            (World rest (out ++ [bluetooth_scanner.select_prompt; notice])))
    as Hrun.
  { apply select_loop_malformed; [exact Hq|].
    destruct Hbad as [Hnone | (n & Hn & Hrange)]; [left; exact Hnone|].
    right. exists n. split; [exact Hn|lia]. }
  split; [|split; [exact Hrun|split]].
  - unfold notice, notice_for. destruct (py_int (py_strip l)); auto.
  - rewrite Hrun.
    destruct (select_loop_prompts bluetooth_scanner.select_prompt devices rest
                (out ++ [bluetooth_scanner.select_prompt; notice]))
      as [more Hmore].
    exists more. unfold bluetooth_scanner.select_device, select_device_with.
    cbn [stdin stdout]. rewrite Hmore, <- app_assoc. reflexivity.
  - intros w. apply select_loop_catalog.
Qed.

(** The four kinds of malformed line on a catalog of three devices: text,
    zero, a negative number, a number above the length. *)
Lemma C4_malformed_input_reprompts_witness :
  Forall (fun l =>
            bluetooth_scanner.select_device three_devices
              (World [Line l; Line "3"] [])
            = bluetooth_scanner.select_device three_devices
                (World [Line "3"]
                   [bluetooth_scanner.select_prompt;
                    notice_for three_devices l]))
    ["abc"; "0"; "-1"; "4"].
Proof.
  constructor; [|constructor; [|constructor; [|constructor; [|constructor]]]].
  - apply (C4_malformed_input_reprompts three_devices "abc" [Line "3"] []).
    + discriminate.
    + left. reflexivity.
  - apply (C4_malformed_input_reprompts three_devices "0" [Line "3"] []).
    + discriminate.
    + right. exists 0. split; [reflexivity|lia].
  - apply (C4_malformed_input_reprompts three_devices "-1" [Line "3"] []).
    + discriminate.
    + right. exists (-1). split; [reflexivity|lia].
  - apply (C4_malformed_input_reprompts three_devices "4" [Line "3"] []).
    + discriminate.
    + right. exists 4. split; [reflexivity|simpl; lia].
Defined.

(** ** Running the process *)

Lemma printed_printed a b w : printed b (printed a w) = printed (a ++ b) w.
Proof. unfold printed. cbn [stdin stdout]. rewrite app_assoc. reflexivity. Qed.

Lemma printed_nil w : printed [] w = w.
Proof. destruct w. unfold printed. cbn [stdin stdout]. by rewrite app_nil_r. Qed.

Lemma print_run s w : print s w = (Returned tt, printed [line s] w).
Proof. reflexivity. Qed.

Lemma bind_run {A B} (m : IO A) (f : A → IO B) w a w' :
  m w = (Returned a, w') → (m ≫= f) w = f a w'.
Proof. intros Hm. unfold mbind, IO_bind. rewrite Hm. reflexivity. Qed.

Lemma bind_raised {A B} (m : IO A) (f : A → IO B) w r w' :
  m w = (Raised r, w') → (m ≫= f) w = (Raised r, w').
Proof. intros Hm. unfold mbind, IO_bind. rewrite Hm. reflexivity. Qed.

Lemma bind_print {B} s (f : unit → IO B) w :
  (print s ≫= f) w = f tt (printed [line s] w).
Proof. reflexivity. Qed.

(** A loop whose body writes one text per item writes them in order and
    ends normally. *)
Lemma for_each_prints {A} (l : list A) (body : A → IO unit) (text : A → string) w :
  (∀ x w', body x w' = (Returned tt, printed [text x] w')) →
  for_each l body w = (Returned tt, printed (map text l) w).
Proof.
  intros Hbody. revert w. induction l as [|x l IH]; intros w; cbn [for_each].
  - unfold mret, IO_ret. rewrite printed_nil. reflexivity.
  - rewrite (bind_run _ _ _ _ _ (Hbody x w)), IH, printed_printed.
    reflexivity.
Qed.

Section run_facts.
Context `{!bluetooth.module}.

Lemma print_banner_run w :
  bluetooth_scanner.print_banner w = (Returned tt, printed banner_text w).
Proof.
  unfold bluetooth_scanner.print_banner. rewrite !bind_print, print_run.
  rewrite !printed_printed. reflexivity.
Qed.

Lemma discover_devices_run w :
  bluetooth_scanner.discover_devices 8 w
  = match bluetooth.discover_devices 8 with
    | Returned devices => (Returned devices, printed (scanning_text 8) w)
    | Raised (Exc e) =>
        (Returned [],
         printed (scanning_text 8
                  ++ discovery_notices (bluetooth.discover_devices 8)) w)
    | Raised r => (Raised r, printed (scanning_text 8) w)
    end.
Proof.
  unfold bluetooth_scanner.discover_devices. rewrite !bind_print.
  rewrite printed_printed. unfold try_except_Exception, call.
  destruct (bluetooth.discover_devices 8) as [devices|[e| |n]]; try reflexivity.
  rewrite bind_print, printed_printed. reflexivity.
Qed.

Lemma display_devices_returns devices w :
  ∃ lines,
    bluetooth_scanner.display_devices devices w
    = (Returned tt, printed lines w).
Proof.
  unfold bluetooth_scanner.display_devices. destruct devices as [|d devices].
  - eexists. apply print_run.
  - rewrite !bind_print, !printed_printed.
    erewrite bind_run; cycle 1.
    { apply (for_each_prints _ _
               (fun '(idx, (addr, name)) =>
                  line (py_ljust 4 (pretty idx) +:+ " "
                        +:+ py_ljust 30 (name_or_unknown name) +:+ " "
                        +:+ py_ljust 20 addr))).
      intros [idx [addr name]] w'. reflexivity. }
    rewrite print_run, !printed_printed. eexists. reflexivity.
Qed.

Lemma list_sdp_services_backend_error device_address device_name e w :
  bluetooth.find_service device_address = Raised (Exc e) →
  bluetooth_scanner.list_sdp_services device_address device_name w
  = (Returned tt,
     printed [ line (nl +:+ "[*] Querying SDP services on '" +:+ device_name
                     +:+ "' (" +:+ device_address +:+ ")...");
               line ("[*] This may take a moment..." +:+ nl);
               line (bluetooth_scanner.query_error_notice e) ] w).
Proof.
  intros Hfind. unfold bluetooth_scanner.list_sdp_services.
  rewrite !bind_print, printed_printed.
  unfold try_except_Exception.
  erewrite bind_raised by (unfold call; rewrite Hfind; reflexivity).
  cbv beta iota. rewrite print_run, printed_printed. reflexivity.
Qed.
End run_facts.

(** C5: when the discovery call of the stack answers with no device, or
    raises an [Exception], [discover_devices] returns the empty list (in
    the second case after the discovery-error notice: the exception is
    caught there), and the process writes the banner, the two scan lines,
    that notice if any, and the checklist, and exits with status 1.  The
    selector is not run: its prompt is not written and standard input is
    left as it was. *)
Theorem C5_no_devices_exits_with_status_1 :
  ∀ (bt : bluetooth.module) (w : world),
    (bluetooth.discover_devices 8 = Returned []
     ∨ ∃ e, bluetooth.discover_devices 8 = Raised (Exc e)) →
    let notices := discovery_notices (bluetooth.discover_devices 8) in
    let written :=
      banner_text ++ scanning_text 8 ++ notices ++ no_devices_checklist in
    (∀ w0, bluetooth_scanner.discover_devices 8 w0
           = (Returned [], printed (scanning_text 8 ++ notices) w0))
    ∧ bluetooth_scanner.script w
      = (1, World (stdin w) (stdout w ++ written))
    ∧ bluetooth_scanner.select_prompt ∉ written.
Proof.
  intros bt w Hnone notices written.
  assert (∀ w0, bluetooth_scanner.discover_devices 8 w0
                = (Returned [], printed (scanning_text 8 ++ notices) w0))
    as Hdiscover.
  { intros w0. rewrite discover_devices_run. unfold notices.
    destruct Hnone as [-> | [e ->]]; [|reflexivity].
    cbn [discovery_notices]. rewrite app_nil_r. reflexivity. }
  split; [exact Hdiscover|]. split.
  - unfold bluetooth_scanner.script, bluetooth_scanner.main.
    rewrite (bind_run _ _ _ _ _ (print_banner_run w)).
    rewrite (bind_run _ _ _ _ _ (Hdiscover _)).
    rewrite !bind_print, !printed_printed. unfold sys_exit, raise.
    unfold written, no_devices_checklist, printed.
    rewrite <- !app_assoc. reflexivity.
  - unfold written, notices.
    rewrite !elem_of_app. intros [Hin|[Hin|[Hin|Hin]]].
    + vm_compute in Hin.
      repeat (apply elem_of_cons in Hin as [Hin|Hin]; [discriminate|]).
      by apply elem_of_nil in Hin.
    + vm_compute in Hin.
      repeat (apply elem_of_cons in Hin as [Hin|Hin]; [discriminate|]).
      by apply elem_of_nil in Hin.
    + destruct (bluetooth.discover_devices 8) as [?|[e| |?]];
        cbn [discovery_notices] in Hin; try by apply elem_of_nil in Hin.
      apply elem_of_cons in Hin as [Hin|Hin]; [discriminate|].
      by apply elem_of_nil in Hin.
    + vm_compute in Hin.
      repeat (apply elem_of_cons in Hin as [Hin|Hin]; [discriminate|]).
      by apply elem_of_nil in Hin.
Qed.

(** The stack raises [BluetoothError] during discovery, with a line
    waiting on standard input: status 1, the line still unread. *)
Lemma C5_no_devices_exits_with_status_1_witness :
  let bt := pybluez (Raised (Exc (Exn BluetoothError "no adapter")))
                    (fun _ => Returned []) in
  bluetooth_scanner.script (World [Line "1"] [])
  = (1, World [Line "1"]
          (banner_text ++ scanning_text 8
           ++ [line "[!] Error during device discovery: no adapter"]
           ++ no_devices_checklist)).
Proof.
  intros bt.
  apply (C5_no_devices_exits_with_status_1 bt (World [Line "1"] [])).
  right. exists (Exn BluetoothError "no adapter"). reflexivity.
Defined.

Example no_devices_found_exits_with_status_1 :
  let bt := pybluez (Returned []) (fun _ => Returned []) in
  bluetooth_scanner.script (World [Line "1"] [])
  = (1, World [Line "1"]
          (banner_text ++ scanning_text 8 ++ no_devices_checklist)).
Proof. reflexivity. Qed.

(** C6: a device was selected and the service query for its address
    raises an [Exception] of the stack.  [list_sdp_services] catches it
    itself: it returns normally after its two opening lines and the error
    notice.  [main] then prints the completion line and the process exits
    with status 0. *)
Theorem C6_enumeration_error_is_not_fatal :
  ∀ (bt : bluetooth.module) (w : world) (devices : list device)
    (device_address : string) (device_name : option string)
    (w_selected : world) (e : exn),
    bluetooth.discover_devices 8 = Returned devices →
    devices ≠ [] →
    bluetooth_scanner.select_device devices
      (snd (bluetooth_scanner.display_devices devices
              (printed (banner_text ++ scanning_text 8) w)))
    = Selection (Returned (Some (device_address, device_name))) devices
        w_selected →
    bluetooth.find_service device_address = Raised (Exc e) →
    let shown_name := name_or_unknown device_name in
    let report :=
      [ line (nl +:+ "[*] Querying SDP services on '" +:+ shown_name
              +:+ "' (" +:+ device_address +:+ ")...");
        line ("[*] This may take a moment..." +:+ nl);
        line (bluetooth_scanner.query_error_notice e) ] in
    (∀ w0, bluetooth_scanner.list_sdp_services device_address shown_name w0
           = (Returned tt, printed report w0))
    ∧ bluetooth_scanner.script w
      = (0, printed
              ([ line (nl +:+ "[+] Selected: " +:+ shown_name
                       +:+ " (" +:+ device_address +:+ ")") ]
               ++ report ++ [ line "[*] Scan complete!" ])
              w_selected).
Proof.
  intros bt w devices device_address device_name w_selected e
    Hdiscover Hdevices Hselect Hfind shown_name report.
  assert (∀ w0, bluetooth_scanner.list_sdp_services device_address shown_name w0
                = (Returned tt, printed report w0)) as Hlist.
  { intros w0. apply list_sdp_services_backend_error, Hfind. }
  split; [exact Hlist|].
  unfold bluetooth_scanner.script, bluetooth_scanner.main.
  rewrite (bind_run _ _ _ _ _ (print_banner_run w)).
  erewrite bind_run; cycle 1.
  { rewrite discover_devices_run, Hdiscover. reflexivity. }
  rewrite printed_printed.
  destruct devices as [|d devices]; [contradiction|].
  destruct (display_devices_returns (d :: devices)
              (printed (banner_text ++ scanning_text 8) w)) as [lines Hshown].
  rewrite Hshown in Hselect. cbn [snd] in Hselect.
  rewrite (bind_run _ _ _ _ _ Hshown).
  erewrite bind_run; cycle 1.
  { unfold returned_by. rewrite Hselect. reflexivity. }
  cbn [sel_world]. fold shown_name.
  rewrite bind_print.
  rewrite (bind_run _ _ _ _ _ (Hlist _)).
  rewrite print_run, !printed_printed. reflexivity.
Qed.

(** Three devices are found, the user enters 2, and the service query
    raises [BluetoothError]: the process ends with the error notice, the
    completion line and status 0. *)
Lemma C6_enumeration_error_is_not_fatal_witness :
  let bt := pybluez (Returned three_devices)
              (fun _ => Raised (Exc (Exn BluetoothError "host is down"))) in
  fst (bluetooth_scanner.script (World [Line "2"] [])) = 0
  ∧ ∃ before,
      stdout (snd (bluetooth_scanner.script (World [Line "2"] [])))
      = before
        ++ [ line "[!] Bluetooth error while querying services: host is down";
             line "[*] Scan complete!" ].
Proof.
  intros bt.
  pose (w_shown := snd (bluetooth_scanner.display_devices three_devices
                          (printed (banner_text ++ scanning_text 8)
                             (World [Line "2"] [])))).
  pose (w_selected :=
          sel_world (bluetooth_scanner.select_device three_devices w_shown)).
  assert (bluetooth_scanner.select_device three_devices w_shown
          = Selection (Returned (Some ("66:77:88:99:AA:BB", None)))
              three_devices w_selected) as Hselect by reflexivity.
  destruct (C6_enumeration_error_is_not_fatal bt (World [Line "2"] [])
              three_devices "66:77:88:99:AA:BB" None w_selected
              (Exn BluetoothError "host is down")
              eq_refl ltac:(discriminate) Hselect eq_refl) as [_ Hscript].
  rewrite Hscript. split; [reflexivity|].
  eexists. unfold printed. cbn [snd stdout].
  rewrite (app_assoc _ [_; _; _] [_]).
  change [?a; ?b; ?c] with ([a; b] ++ [c]).
  rewrite !app_assoc, <- (app_assoc _ [_] [_]). reflexivity.
Defined.

(** ** The service report *)










Section service_block_facts.
Context `{!bluetooth.module}.


End service_block_facts.


Example service_block_empty_name :
  let bt := pybluez (Returned []) (fun _ => Returned []) in
  bluetooth_scanner.service_block 2 {[ "name" := PStr "" ]} (World [] [])
  = (Returned tt,
     World [] [ line (nl +:+ "Service #2"); line (py_repeat "-" 80);
                line "  Name:        " ])
  ∧ bluetooth_scanner.service_block 2 {[ "name" := PNone ]} (World [] [])
    = (Returned tt,
       World [] [ line (nl +:+ "Service #2"); line (py_repeat "-" 80);
                  line "  Name:        None" ]).
Proof. split; vm_compute; reflexivity. Qed.


(** ** Sorting by signal strength *)

Section sort_facts.
Context {A : Type} (key : A → Z).

Lemma insert_desc_Permutation x l : insert_desc key x l ≡ₚ x :: l.
Proof.
  induction l as [|y l IH]; cbn [insert_desc].
  - reflexivity.
  - destruct (key x <? key y); [|reflexivity].
    rewrite IH. apply Permutation_swap.
Qed.

Lemma py_sort_reverse_Permutation l : py_sort_reverse key l ≡ₚ l.
Proof.
  induction l as [|x l IH]; cbn [py_sort_reverse foldr].
  - reflexivity.
  - rewrite insert_desc_Permutation. fold (py_sort_reverse key l).
    rewrite IH. reflexivity.
Qed.

Lemma insert_desc_sorted x l :
  StronglySorted (key_desc key) l →
  StronglySorted (key_desc key) (insert_desc key x l).
Proof.
  induction 1 as [|y l Hsorted IH Hy]; cbn [insert_desc].
  - repeat constructor.
  - destruct (key x <? key y) eqn:Hlt.
    + apply Z.ltb_lt in Hlt. constructor; [exact IH|].
      rewrite insert_desc_Permutation. constructor; [|exact Hy].
      unfold key_desc. lia.
    + apply Z.ltb_ge in Hlt. constructor.
      * constructor; assumption.
      * constructor; [exact Hlt|].
        eapply Forall_impl; [exact Hy|]. unfold key_desc. intros; lia.
Qed.

Lemma py_sort_reverse_sorted l :
  StronglySorted (key_desc key) (py_sort_reverse key l).
Proof.
  induction l as [|x l IH]; cbn [py_sort_reverse foldr].
  - constructor.
  - apply insert_desc_sorted, IH.
Qed.

Lemma with_key_cons k x l :
  with_key key k (x :: l)
  = if decide (key x = k) then x :: with_key key k l else with_key key k l.
Proof.
  unfold with_key. destruct (decide (key x = k)) as [Hk|Hk].
  - apply filter_cons_True, Hk.
  - apply filter_cons_False, Hk.
Qed.

Lemma insert_desc_with_key k x l :
  with_key key k (insert_desc key x l) = with_key key k (x :: l).
Proof.
  induction l as [|y l IH]; cbn [insert_desc].
  - reflexivity.
  - destruct (key x <? key y) eqn:Hlt; [|reflexivity].
    apply Z.ltb_lt in Hlt.
    rewrite (with_key_cons k y), IH, !with_key_cons.
    repeat case_decide; try reflexivity; lia.
Qed.

(** Items with equal keys keep the order they had. *)
Lemma py_sort_reverse_stable k l :
  with_key key k (py_sort_reverse key l) = with_key key k l.
Proof.
  induction l as [|x l IH]; cbn [py_sort_reverse foldr].
  - reflexivity.
  - rewrite insert_desc_with_key. fold (py_sort_reverse key l).
    rewrite !with_key_cons, IH. reflexivity.
Qed.

Lemma with_key_elem k x l : x ∈ with_key key k l ↔ key x = k ∧ x ∈ l.
Proof. unfold with_key. apply (list_elem_of_filter (fun a => key a = k)). Qed.

(** Two descending lists with the same items under every key, in the same
    order, are the same list: the result of a stable sort is determined. *)
Lemma sorted_stable_unique l1 l2 :
  StronglySorted (key_desc key) l1 →
  StronglySorted (key_desc key) l2 →
  (∀ k, with_key key k l1 = with_key key k l2) →
  l1 = l2.
Proof.
  intros Hs1. revert l2.
  induction Hs1 as [|x l1 Hs1 IH Hx]; intros l2 Hs2 Hsame.
  - destruct l2 as [|y l2]; [reflexivity|].
    specialize (Hsame (key y)). rewrite with_key_cons in Hsame.
    rewrite decide_True in Hsame by reflexivity. discriminate.
  - destruct Hs2 as [|y l2 Hs2 Hy].
    { specialize (Hsame (key x)). rewrite with_key_cons in Hsame.
      rewrite decide_True in Hsame by reflexivity. discriminate. }
    assert (key y ≤ key x) as Hyx.
    { assert (y ∈ with_key key (key y) (x :: l1)) as Hin.
      { rewrite Hsame, with_key_cons, decide_True by reflexivity.
        apply elem_of_cons. left. reflexivity. }
      apply with_key_elem in Hin as [_ Hin].
      apply elem_of_cons in Hin as [->|Hin]; [lia|].
      rewrite Forall_forall in Hx. apply Hx, Hin. }
    assert (key x ≤ key y) as Hxy.
    { assert (x ∈ with_key key (key x) (y :: l2)) as Hin.
      { rewrite <- Hsame, with_key_cons, decide_True by reflexivity.
        apply elem_of_cons. left. reflexivity. }
      apply with_key_elem in Hin as [_ Hin].
      apply elem_of_cons in Hin as [->|Hin]; [lia|].
      rewrite Forall_forall in Hy. apply Hy, Hin. }
    assert (x = y) as <-.
    { specialize (Hsame (key x)). rewrite !with_key_cons in Hsame.
      rewrite decide_True in Hsame by reflexivity.
      rewrite decide_True in Hsame by lia. congruence. }
    f_equal. apply IH; [exact Hs2|].
    intros k. specialize (Hsame k). rewrite !with_key_cons in Hsame.
    destruct (decide (key x = k)); congruence.
Qed.

(** Whatever algorithm [list.sort] runs, a result that is a descending,
    order-keeping rearrangement of [l] is [py_sort_reverse key l]. *)
Lemma py_sort_reverse_unique l l' :
  StronglySorted (key_desc key) l' →
  (∀ k, with_key key k l' = with_key key k l) →
  l' = py_sort_reverse key l.
Proof.
  intros Hsorted Hstable.
  apply sorted_stable_unique; [exact Hsorted|apply py_sort_reverse_sorted|].
  intros k. rewrite py_sort_reverse_stable. apply Hstable.
Qed.
End sort_facts.

Lemma bleak_discover_devices_run `{!BleakScanner.api} duration found w :
  BleakScanner.discover duration = Returned found →
  bluetooth_scanner_bleak.discover_devices duration w
  = (Returned (py_sort_reverse snd
                 (map bluetooth_scanner_bleak.device_tuple found)),
     printed (scanning_text duration) w).
Proof.
  intros Hfound. unfold bluetooth_scanner_bleak.discover_devices.
  rewrite !bind_print, printed_printed.
  unfold try_except_Exception, call, mbind, IO_bind. rewrite Hfound.
  reflexivity.
Qed.

(** C1, as the code has it: in the BLE script [discover_devices] returns
    the discovered devices in descending order of signal strength, devices
    with equal strength in their order of discovery, where a device whose
    advertisement has no reading counts with strength 0.  (With negative
    dBm readings it therefore comes first, not last.) *)
Theorem C1_discover_devices_sorted_descending :
  ∀ (bs : BleakScanner.api) (duration : Z)
    (found : list (string * (BleakScanner.BLEDevice
                             * BleakScanner.AdvertisementData)))
    (w : world),
    BleakScanner.discover duration = Returned found →
    ∃ device_list : list bluetooth_scanner_bleak.device,
      bluetooth_scanner_bleak.discover_devices duration w
      = (Returned device_list, printed (scanning_text duration) w)
      ∧ device_list ≡ₚ map bluetooth_scanner_bleak.device_tuple found
      ∧ StronglySorted (key_desc snd) device_list
      ∧ (∀ r, with_key snd r device_list
              = with_key snd r (map bluetooth_scanner_bleak.device_tuple found))
      ∧ (∀ addr dev adv,
           snd (bluetooth_scanner_bleak.device_tuple (addr, (dev, adv)))
           = match BleakScanner.rssi adv with
             | Some reading => reading
             | None => 0
             end).
Proof.
  intros bs duration found w Hfound.
  exists (py_sort_reverse snd (map bluetooth_scanner_bleak.device_tuple found)).
  split; [apply bleak_discover_devices_run, Hfound|].
  split; [apply py_sort_reverse_Permutation|].
  split; [apply py_sort_reverse_sorted|].
  split; [intros r; apply py_sort_reverse_stable|].
  intros addr dev adv. cbn. destruct (BleakScanner.rssi adv); reflexivity.
Qed.

(** The readings [-70, -40, absent], found in this order, come out as
    [absent (0), -40, -70]. *)
Lemma C1_discover_devices_sorted_descending_witness :
  ∃ device_list,
    @bluetooth_scanner_bleak.discover_devices bleak_sample 8 (World [] [])
    = (Returned device_list, printed (scanning_text 8) (World [] []))
    ∧ device_list
      = [("CC", "<Unknown>", 0); ("BB", "Near", -40); ("AA", "Far", -70)].
Proof.
  destruct (C1_discover_devices_sorted_descending bleak_sample 8 ble_found
              (World [] []) eq_refl) as (device_list & Hrun & _).
  exists device_list. split; [exact Hrun|].
  assert (Returned device_list
          = fst (@bluetooth_scanner_bleak.discover_devices bleak_sample 8
                   (World [] []))) as Hfst by (rewrite Hrun; reflexivity).
  vm_compute in Hfst. injection Hfst as ->. reflexivity.
Defined.

(** For the readings [-70, -40, absent] the order returned, and shown, is
    not [-40, -70, absent]: the device without a reading is the first. *)
Lemma C1_absent_reading_is_not_weakest :
  fst (@bluetooth_scanner_bleak.discover_devices bleak_sample 8 (World [] []))
  = Returned [("CC", "<Unknown>", 0); ("BB", "Near", -40); ("AA", "Far", -70)]
  ∧ ¬ ∃ device_list,
        fst (@bluetooth_scanner_bleak.discover_devices bleak_sample 8
               (World [] []))
        = Returned device_list
        ∧ map (fun d => d.1.1) device_list = ["BB"; "AA"; "CC"].
Proof.
  split; [reflexivity|].
  intros (device_list & Hrun & Horder).
  vm_compute in Hrun. injection Hrun as <-. discriminate Horder.
Qed.

Example bleak_display_order :
  stdout (snd (@bluetooth_scanner_bleak.display_devices
                 [("CC", "<Unknown>", 0); ("BB", "Near", -40);
                  ("AA", "Far", -70)] (World [] [])))
  = [ line ("[+] Found 3 device(s):" +:+ nl);
      line "#    Name                           Address              RSSI  ";
      line (py_repeat "-" 65);
      line "1    <Unknown>                      CC                   N/A   ";
      line "2    Near                           BB                   -40 dBm";
      line "3    Far                            AA                   -70 dBm";
      line "" ].
Proof. vm_compute. reflexivity. Qed.

Example py_sort_reverse_ties_keep_order :
  py_sort_reverse snd [("a", -50); ("b", -40); ("c", -50); ("d", -40)]
  = [("b", -40); ("d", -40); ("a", -50); ("c", -50)].
Proof. reflexivity. Qed.

(** ** Python text: examples *)

Example py_int_examples :
  py_int " 12 " = Some 12 ∧ py_int "-3" = Some (-3) ∧ py_int "+07" = Some 7
  ∧ py_int "1_000" = Some 1000 ∧ py_int "1__0" = None ∧ py_int "_1" = None
  ∧ py_int "1_" = None ∧ py_int "" = None ∧ py_int "abc" = None
  ∧ py_int "- 5" = None ∧ py_int "2.0" = None ∧ py_int "0x10" = None.
Proof. repeat split; reflexivity. Qed.

Example py_strip_examples :
  py_strip " Q " = "Q" ∧ py_strip "  a b  " = "a b" ∧ py_strip "   " = ""
  ∧ py_lower "Q" = "q" ∧ py_ljust 4 "#" = "#   " ∧ py_ljust 2 "abc" = "abc".
Proof. repeat split; reflexivity. Qed.

Example py_str_examples :
  py_str (PList [PTuple [PStr "1108"; PInt 256]]) = "[('1108', 256)]"
  ∧ py_str (PTuple [PInt (-1)]) = "(-1,)"
  ∧ py_str (PStr "it's") = "it's"
  ∧ py_str PNone = "None".
Proof. repeat split; vm_compute; reflexivity. Qed.

(** * Further properties of the two scripts *)

(** ** The selector, completely *)

Section selector_runs.
Context {A : Type} (prompt : string) (devices : list A).

Lemma not_decisive_line l :
  ¬ decisive devices (Line l) →
  py_lower (py_strip l) ≠ "q"
  ∧ (py_int (py_strip l) = None
     ∨ ∃ n, py_int (py_strip l) = Some n
            ∧ (n < 1 ∨ Z.of_nat (length devices) < n)).
Proof.
  intros Hnot. split.
  - intros Hq. apply Hnot. left. exact Hq.
  - destruct (py_int (py_strip l)) as [n|] eqn:Hint; [|left; reflexivity].
    right. exists n. split; [reflexivity|].
    destruct (decide (1 ≤ n ≤ Z.of_nat (length devices))) as [Hin|Hout];
      [|lia].
    exfalso. apply Hnot. right. exists n. split; assumption.
Qed.

Lemma select_loop_skips before inp out :
  Forall (fun ev => ¬ decisive devices ev) before →
  select_loop prompt devices (before ++ inp) out
  = select_loop prompt devices inp (out ++ reprompts prompt devices before).
Proof.
  intros Hall. revert out.
  induction Hall as [|ev before Hev _ IH]; intros out.
  - unfold reprompts. cbn. rewrite app_nil_r. reflexivity.
  - destruct ev as [l|]; [|exfalso; apply Hev; exact I].
    apply not_decisive_line in Hev as [Hq Hbad].
    cbn [app]. rewrite (select_loop_malformed _ _ _ _ _ Hq Hbad), IH.
    unfold reprompts. cbn [map concat]. rewrite <- app_assoc. reflexivity.
Qed.



Lemma select_loop_eof inp out :
  Forall (fun ev => ¬ decisive devices ev) inp →
  select_loop prompt devices inp out
  = Selection (Raised (Exc EOF_when_reading)) devices
      (World [] (out ++ reprompts prompt devices inp ++ [prompt])).
Proof.
  intros Hall. rewrite <- (app_nil_r inp) at 1.
  rewrite (select_loop_skips _ _ _ Hall). cbn [select_loop].
  rewrite <- app_assoc. reflexivity.
Qed.
End selector_runs.



(** X2: when no input event is Ctrl-C, the quit token or an index of the
    catalog, [select_device] does not return: after a prompt and a notice
    for every line and one more prompt, the [EOFError] of [input()] leaves
    it, in both scripts. *)
Theorem select_device_input_exhausted :
  ∀ (inp : list input_event) (out : list string),
    (∀ (devices : list device),
       Forall (fun ev => ¬ decisive devices ev) inp →
       bluetooth_scanner.select_device devices (World inp out)
       = Selection (Raised (Exc EOF_when_reading)) devices
           (World []
              (out ++ reprompts bluetooth_scanner.select_prompt devices inp
               ++ [bluetooth_scanner.select_prompt])))
    ∧ (∀ (devices : list bluetooth_scanner_bleak.device),
         Forall (fun ev => ¬ decisive devices ev) inp →
         bluetooth_scanner_bleak.select_device devices (World inp out)
         = Selection (Raised (Exc EOF_when_reading)) devices
             (World []
                (out ++ reprompts bluetooth_scanner_bleak.select_prompt
                          devices inp
                 ++ [bluetooth_scanner_bleak.select_prompt]))).
Proof.
  intros inp out. split; intros devices Hall; apply select_loop_eof, Hall.
Qed.

Lemma select_device_input_exhausted_witness :
  bluetooth_scanner.select_device three_devices (World [Line "0"] [])
  = Selection (Raised (Exc EOF_when_reading)) three_devices
      (World [] [ bluetooth_scanner.select_prompt; range_notice 3;
                  bluetooth_scanner.select_prompt ]).
Proof.
  apply (proj1 (select_device_input_exhausted [Line "0"] []) three_devices).
  constructor; [|constructor].
  intros [Hq|(n & Hn & Hrange)]; [discriminate|].
  injection Hn as <-. lia.
Defined.

(** ** Numbers as text: [str(n)] read back by [int] *)

Lemma digit_val_pretty_N_char (m : N) :
  (m < 10)%N → digit_val (pretty_N_char m) = Some (Z.of_N m).
Proof.
  intros Hm.
  assert (m = 0 ∨ m = 1 ∨ m = 2 ∨ m = 3 ∨ m = 4 ∨ m = 5 ∨ m = 6 ∨ m = 7
          ∨ m = 8 ∨ m = 9)%N as Hcases by lia.
  repeat (destruct Hcases as [->|Hcases]; [reflexivity|]).
  subst m. reflexivity.
Qed.

Lemma pretty_N_go_forall (P : ascii → bool) (x : N) (s : string) :
  (∀ m, (m < 10)%N → P (pretty_N_char m) = true) →
  string_forall P (pretty_N_go x s) = string_forall P s.
Proof.
  intros HP. revert s.
  induction (N.lt_wf_0 x) as [x _ IH]; intros s.
  destruct (decide (x = 0)%N) as [->|Hx]; [by rewrite pretty_N_go_0|].
  rewrite pretty_N_go_step by lia.
  rewrite IH by (apply N.div_lt; lia).
  cbn [string_forall]. rewrite HP by (apply N.mod_lt; lia). reflexivity.
Qed.

Lemma pretty_N_forall (P : ascii → bool) (x : N) :
  (∀ m, (m < 10)%N → P (pretty_N_char m) = true) →
  string_forall P (pretty x) = true.
Proof.
  intros HP. unfold pretty, pretty_N. case_decide.
  - specialize (HP 0%N ltac:(lia)). cbn in HP |- *. rewrite HP. reflexivity.
  - rewrite pretty_N_go_forall by exact HP. reflexivity.
Qed.

Lemma pretty_N_digits (x : N) : string_forall is_digit (pretty x) = true.
Proof.
  apply pretty_N_forall. intros m Hm. unfold is_digit.
  rewrite digit_val_pretty_N_char by exact Hm. reflexivity.
Qed.

Lemma pretty_N_not_empty (x : N) : pretty x ≠ "".
Proof.
  unfold pretty, pretty_N. case_decide; [discriminate|].
  rewrite pretty_N_go_step by lia.
  assert (∀ y c s, pretty_N_go y (String c s) ≠ "") as Hgo; [|apply Hgo].
  intros y. induction (N.lt_wf_0 y) as [y _ IH]; intros c s.
  destruct (decide (y = 0)%N) as [->|Hy]; [by rewrite pretty_N_go_0|].
  rewrite pretty_N_go_step by lia. apply IH, N.div_lt; lia.
Qed.

(** The digits of [x] put before [s] are read back as [x]; [d] is their
    number. *)
Lemma parse_digits_pretty_N_go (x : N) :
  ∃ d : N,
    (∀ s, String.length (pretty_N_go x s) = (N.to_nat d + String.length s)%nat)
    ∧ ∀ s b acc cnt,
        parse_digits b (pretty_N_go x s) acc cnt
        = parse_digits (b || (0 <? x)%N) s
            (acc * 10 ^ Z.of_N d + Z.of_N x) (cnt + d)%N.
Proof.
  induction (N.lt_wf_0 x) as [x _ IH].
  destruct (decide (x = 0)%N) as [->|Hx].
  - exists 0%N. split; [intros s; by rewrite pretty_N_go_0|].
    intros s b acc cnt. rewrite pretty_N_go_0, orb_false_r, N.add_0_r.
    f_equal. rewrite Z.pow_0_r. lia.
  - destruct (IH (x `div` 10)%N) as (d & Hlen & Hparse).
    { apply N.div_lt; lia. }
    exists (d + 1)%N.
    assert (Z.of_N x = 10 * Z.of_N (x `div` 10) + Z.of_N (x `mod` 10)) as Hx10.
    { rewrite (N.div_mod x 10) at 1 by lia. lia. }
    assert (10 ^ Z.of_N (d + 1) = 10 * 10 ^ Z.of_N d) as Hpow.
    { rewrite N2Z.inj_add, Z.pow_add_r, Z.pow_1_r by lia. lia. }
    split.
    + intros s. rewrite pretty_N_go_step, Hlen by lia. cbn [String.length].
      lia.
    + intros s b acc cnt. rewrite pretty_N_go_step by lia.
      rewrite Hparse. cbn [parse_digits].
      rewrite digit_val_pretty_N_char by (apply N.mod_lt; lia).
      replace (0 <? x)%N with true by (symmetry; apply N.ltb_lt; lia).
      rewrite orb_true_r. f_equal; [|lia].
      rewrite Hpow, Hx10. lia.
Qed.

Lemma py_rstrip_no_space (s : string) :
  string_forall (fun c => negb (py_isspace c)) s = true → py_rstrip s = s.
Proof.
  induction s as [|c s IH]; cbn [string_forall py_rstrip]; [done|].
  intros [Hc Hs]%andb_true_iff. rewrite (IH Hs).
  apply negb_true_iff in Hc. rewrite Hc. destruct s; reflexivity.
Qed.

Lemma py_strip_no_space (s : string) :
  string_forall (fun c => negb (py_isspace c)) s = true → py_strip s = s.
Proof.
  intros Hs. unfold py_strip.
  assert (py_lstrip s = s) as ->; [|apply py_rstrip_no_space, Hs].
  destruct s as [|c s]; [reflexivity|]. cbn in *.
  apply andb_true_iff in Hs as [Hc _]. apply negb_true_iff in Hc.
  rewrite Hc. reflexivity.
Qed.

Lemma string_forall_impl (P Q : ascii → bool) (s : string) :
  (∀ c, P c = true → Q c = true) →
  string_forall P s = true → string_forall Q s = true.
Proof.
  intros HPQ. induction s as [|c s IH]; cbn [string_forall]; [done|].
  intros [Hc Hs]%andb_true_iff. rewrite (HPQ c Hc), (IH Hs). reflexivity.
Qed.

Lemma is_digit_code (c : ascii) :
  is_digit c = true → (48 ≤ code c ≤ 57)%N.
Proof.
  unfold is_digit, digit_val.
  destruct ((48 <=? code c)%N && (code c <=? 57)%N) eqn:E; [|discriminate].
  apply andb_true_iff in E as [?%N.leb_le ?%N.leb_le]. lia.
Qed.

Lemma is_digit_not_space (c : ascii) :
  is_digit c = true → negb (py_isspace c) = true.
Proof.
  intros Hc%is_digit_code. unfold py_isspace. apply negb_true_iff.
  repeat (apply orb_false_iff; split); try apply andb_false_iff;
    rewrite ?N.leb_gt, ?N.eqb_neq; lia.
Qed.

Lemma py_lower_digits (s : string) :
  string_forall is_digit s = true → py_lower s = s.
Proof.
  induction s as [|c s IH]; cbn [string_forall py_lower]; [done|].
  intros [Hc Hs]%andb_true_iff. rewrite (IH Hs). f_equal.
  apply is_digit_code in Hc. unfold py_lower_char.
  replace ((65 <=? code c)%N) with false by (symmetry; apply N.leb_gt; lia).
  replace ((192 <=? code c)%N) with false by (symmetry; apply N.leb_gt; lia).
  reflexivity.
Qed.

Lemma no_sign_before_digit (c : ascii) (t : string) :
  is_digit c = true →
  match String c t with
  | String "-" b => (true, b)
  | String "+" b => (false, b)
  | _ => (false, String c t)
  end = (false, String c t).
Proof.
  destruct c as [[] [] [] [] [] [] [] []]; try reflexivity; discriminate.
Qed.

(** [int(str(n)) == n] for a natural number of at most 4300 digits. *)
Lemma py_int_pretty_N (x : N) :
  (N.of_nat (String.length (pretty x)) ≤ max_str_digits)%N →
  py_int (pretty x) = Some (Z.of_N x).
Proof.
  intros Hbound.
  assert (∃ c t, pretty x = String c t ∧ is_digit c = true) as (c & t & Hct & Hc).
  { pose proof (pretty_N_digits x) as Hdigits.
    pose proof (pretty_N_not_empty x) as Hne.
    destruct (pretty x) as [|c t]; [done|]. exists c, t. split; [done|].
    cbn in Hdigits. by apply andb_true_iff in Hdigits as [? _]. }
  unfold py_int.
  rewrite py_strip_no_space
    by (eapply string_forall_impl;
        [apply is_digit_not_space|apply pretty_N_digits]).
  rewrite Hct, (no_sign_before_digit c t Hc), <- Hct.
  destruct (parse_digits_pretty_N_go x) as (d & Hlen & Hparse).
  revert Hbound. unfold pretty, pretty_N. case_decide as Hx; intros Hbound.
  - subst x. reflexivity.
  - rewrite Hlen in Hbound. cbn [String.length] in Hbound.
    rewrite Hparse. cbn [parse_digits].
    replace (0 <? x)%N with true by (symmetry; apply N.ltb_lt; lia).
    cbn [orb].
    replace (max_str_digits <? 0 + d)%N with false
      by (symmetry; apply N.ltb_ge; lia).
    reflexivity.
Qed.

Lemma py_int_pretty_nat (n : nat) :
  (N.of_nat (String.length (pretty n)) ≤ max_str_digits)%N →
  py_int (py_strip (pretty n)) = Some (Z.of_nat n)
  ∧ py_lower (py_strip (pretty n)) ≠ "q".
Proof.
  intros Hbound. unfold pretty, pretty_nat in *.
  rewrite py_strip_no_space
    by (eapply string_forall_impl;
        [apply is_digit_not_space|apply pretty_N_digits]).
  split.
  - rewrite py_int_pretty_N by exact Hbound. f_equal. lia.
  - rewrite py_lower_digits by apply pretty_N_digits.
    intros Hq. pose proof (pretty_N_digits (N.of_nat n)) as Hd.
    rewrite Hq in Hd. discriminate.
Qed.

(** ** The device table *)

Lemma py_enumerate1_lookup {A} (l : list A) (i : nat) :
  py_enumerate1 l !! i = (fun x => (S i, x)) <$> l !! i.
Proof.
  unfold py_enumerate1. rewrite lookup_zip_with.
  destruct (l !! i) as [x|] eqn:Hx.
  - rewrite lookup_seq_lt by (eapply lookup_lt_Some; eassumption).
    reflexivity.
  - apply lookup_ge_None in Hx. rewrite lookup_seq_ge by lia. reflexivity.
Qed.

Lemma py_enumerate1_length {A} (l : list A) :
  length (py_enumerate1 l) = length l.
Proof.
  unfold py_enumerate1. rewrite length_zip_with, length_seq. lia.
Qed.

Lemma display_devices_lines (devices : list device) (w : world) :
  devices ≠ [] →
  bluetooth_scanner.display_devices devices w
  = (Returned tt,
     printed
       ([ line ("[+] Found " +:+ pretty (length devices) +:+ " device(s):"
                +:+ nl);
          line (py_ljust 4 "#" +:+ " " +:+ py_ljust 30 "Name" +:+ " "
                +:+ py_ljust 20 "Address");
          line (py_repeat "-" 60) ]
        ++ map (fun '(idx, (addr, name)) =>
                  line (py_ljust 4 (pretty idx) +:+ " "
                        +:+ py_ljust 30 (name_or_unknown name) +:+ " "
                        +:+ py_ljust 20 addr))
             (py_enumerate1 devices)
        ++ [line ""]) w).
Proof.
  intros Hne. unfold bluetooth_scanner.display_devices.
  destruct devices as [|d devices]; [contradiction|].
  rewrite !bind_print, !printed_printed.
  erewrite bind_run; cycle 1.
  { apply (for_each_prints _ _
             (fun '(idx, (addr, name)) =>
                line (py_ljust 4 (pretty idx) +:+ " "
                      +:+ py_ljust 30 (name_or_unknown name) +:+ " "
                      +:+ py_ljust 20 addr))).
    intros [idx [addr name]] w'. reflexivity. }
  rewrite print_run, !printed_printed, <- !app_assoc. reflexivity.
Qed.

Lemma display_devices_row (devices : list device) (heading : list string)
    (i : nat) (addr : string) (name : option string) :
  length heading = 3%nat →
  devices !! i = Some (addr, name) →
  (heading
   ++ map (fun '(idx, (addr, name)) =>
             line (py_ljust 4 (pretty idx) +:+ " "
                   +:+ py_ljust 30 (name_or_unknown name) +:+ " "
                   +:+ py_ljust 20 addr))
        (py_enumerate1 devices)
   ++ [line ""]) !! (3 + i)%nat
  = Some (line (py_ljust 4 (pretty (S i)) +:+ " "
                +:+ py_ljust 30 (name_or_unknown name) +:+ " "
                +:+ py_ljust 20 addr)).
Proof.
  intros Hheading Hi.
  rewrite lookup_app_r by lia.
  replace (3 + i - length heading)%nat with i by lia.
  rewrite lookup_app_l
    by (rewrite length_map, py_enumerate1_length;
        eapply lookup_lt_Some; eassumption).
  rewrite list_lookup_fmap, py_enumerate1_lookup.
  unfold device in *. rewrite Hi. reflexivity.
Qed.

(** X3: [display_devices] of [bluetooth_scanner.py] never fails and reads
    no input.  For an empty list it writes the single line
    "[!] No devices found."; otherwise it writes three heading lines, one
    row per device and an empty line, and the row of the device at
    position [i] carries the number [i + 1], its name ("<Unknown>" for a
    missing or empty name) and its address. *)
Theorem display_devices_layout :
  ∀ (devices : list device) (w : world),
  ∃ lines : list string,
    bluetooth_scanner.display_devices devices w
    = (Returned tt, World (stdin w) (stdout w ++ lines))
    ∧ length lines
      = match devices with [] => 1 | _ => length devices + 4 end%nat
    ∧ (devices = [] → lines = [line "[!] No devices found."])
    ∧ ∀ i addr name,
        devices !! i = Some (addr, name) →
        lines !! (3 + i)%nat
        = Some (line (py_ljust 4 (pretty (S i)) +:+ " "
                      +:+ py_ljust 30 (name_or_unknown name) +:+ " "
                      +:+ py_ljust 20 addr)).
Proof.
  intros devices w. destruct devices as [|d devices].
  - exists [line "[!] No devices found."].
    split; [reflexivity|]. split; [reflexivity|]. split; [reflexivity|].
    intros i addr name Hi. discriminate.
  - eexists. split; [apply display_devices_lines; discriminate|].
    split; [|split; [discriminate|]].
    + cbn [length app]. rewrite length_app, length_map, py_enumerate1_length.
      cbn [length]. unfold device. lia.
    + intros i addr name Hi.
      apply display_devices_row; [reflexivity|exact Hi].
Qed.

(** X4: the number shown in a device's row, typed at the prompt, selects
    that device (for numbers of at most 4300 digits, the most [int]
    accepts): [select_device] returns the element whose row
    [display_devices] numbered so, after the prompt alone. *)
Theorem displayed_number_selects_device :
  ∀ (devices : list device) (i : nat) (addr : string) (name : option string)
    (rest : list input_event) (out : list string) (w : world),
    devices !! i = Some (addr, name) →
    (N.of_nat (String.length (pretty (S i))) ≤ max_str_digits)%N →
    (∃ lines,
       bluetooth_scanner.display_devices devices w
       = (Returned tt, World (stdin w) (stdout w ++ lines))
       ∧ lines !! (3 + i)%nat
         = Some (line (py_ljust 4 (pretty (S i)) +:+ " "
                       +:+ py_ljust 30 (name_or_unknown name) +:+ " "
                       +:+ py_ljust 20 addr)))
    ∧ bluetooth_scanner.select_device devices
        (World (Line (pretty (S i)) :: rest) out)
      = Selection (Returned (Some (addr, name))) devices
          (World rest (out ++ [bluetooth_scanner.select_prompt])).
Proof.
  intros devices i addr name rest out w Hi Hdigits. split.
  - destruct devices as [|d devices]; [discriminate Hi|].
    eexists. split; [apply display_devices_lines; discriminate|].
    apply display_devices_row; [reflexivity|exact Hi].
  - destruct (py_int_pretty_nat (S i) Hdigits) as [Hint Hq].
    apply (select_loop_pick _ _ _ (Z.of_nat (S i)) (addr, name));
      [exact Hq|exact Hint| |lia].
    replace (Z.to_nat (Z.of_nat (S i) - 1)) with i by lia. exact Hi.
Qed.

Lemma displayed_number_selects_device_witness :
  bluetooth_scanner.select_device three_devices (World [Line "3"; Line "q"] [])
  = Selection (Returned (Some ("CC:DD:EE:FF:00:11", Some "Phone")))
      three_devices (World [Line "q"] [bluetooth_scanner.select_prompt]).
Proof.
  apply (displayed_number_selects_device three_devices 2
           "CC:DD:EE:FF:00:11" (Some "Phone") [Line "q"] [] (World [] [])).
  - reflexivity.
  - vm_compute. discriminate.
Defined.

(** ** Steps that only print *)

Lemma returns_tame {A} (m : IO A) : returns m → tame m.
Proof.
  intros Hm w. destruct (Hm w) as (a & lines & Hrun). exists lines.
  rewrite Hrun. split; [reflexivity|]. intros r [=].
Qed.

Lemma returns_ret {A} (a : A) : returns (mret a).
Proof. intros w. exists a, []. by rewrite printed_nil. Qed.

Lemma returns_write s : returns (write s).
Proof. intros w. exists tt, [s]. reflexivity. Qed.

Lemma returns_print s : returns (print s).
Proof. apply returns_write. Qed.

Lemma returns_print_no_end s : returns (print_no_end s).
Proof. apply returns_write. Qed.

Lemma returns_bind {A B} (m : IO A) (f : A → IO B) :
  returns m → (∀ a, returns (f a)) → returns (m ≫= f).
Proof.
  intros Hm Hf w. destruct (Hm w) as (a & lines1 & H1).
  destruct (Hf a (printed lines1 w)) as (b & lines2 & H2).
  exists b, (lines1 ++ lines2).
  rewrite (bind_run _ _ _ _ _ H1), H2, printed_printed. reflexivity.
Qed.

Lemma returns_when b m : returns m → returns (when b m).
Proof. intros Hm. destruct b; [exact Hm|apply returns_ret]. Qed.

Lemma returns_for_each {A} (l : list A) (body : A → IO unit) :
  (∀ x, returns (body x)) → returns (for_each l body).
Proof.
  intros Hbody. induction l as [|x l IH]; cbn [for_each].
  - apply returns_ret.
  - apply returns_bind; [apply Hbody|intros _; exact IH].
Qed.

Lemma tame_raise_Exc {A} (e : exn) : tame (@raise A (Exc e)).
Proof.
  intros w. exists []. cbn. rewrite printed_nil. split; [reflexivity|].
  intros r [= <-]. eauto.
Qed.

Lemma tame_bind {A B} (m : IO A) (f : A → IO B) :
  tame m → (∀ a, tame (f a)) → tame (m ≫= f).
Proof.
  intros Hm Hf w. destruct (Hm w) as (lines1 & H1 & Hr1).
  unfold mbind, IO_bind. destruct (m w) as [[a|r] w1]; cbn [fst snd] in *.
  - destruct (Hf a w1) as (lines2 & H2 & Hr2). exists (lines1 ++ lines2).
    rewrite <- printed_printed, <- H1. split; [exact H2|exact Hr2].
  - exists lines1. split; [exact H1|].
    intros r0 [= <-]. apply Hr1. reflexivity.
Qed.

Lemma tame_when b m : tame m → tame (when b m).
Proof. intros Hm. destruct b; [exact Hm|apply returns_tame, returns_ret]. Qed.

Lemma tame_iterate v : tame (iterate v).
Proof.
  unfold iterate. destruct (py_iter v) as [xs [e|]].
  - apply tame_raise_Exc.
  - apply returns_tame, returns_ret.
Qed.

Lemma tame_for_each {A} (l : list A) (body : A → IO unit) :
  (∀ x, tame (body x)) → tame (for_each l body).
Proof.
  intros Hbody. induction l as [|x l IH]; cbn [for_each].
  - apply returns_tame, returns_ret.
  - apply tame_bind; [apply Hbody|intros _; exact IH].
Qed.

Lemma tame_call {A} (answer : outcome A) : no_signal answer → tame (call answer).
Proof.
  intros Hanswer w. exists []. cbn. rewrite printed_nil.
  split; [reflexivity|]. apply Hanswer.
Qed.

(** [try: ... except Exception: ...] around a tame body, with a handler
    that returns, always returns. *)
Lemma returns_try_except {A} (body : IO A) (handler : exn → IO A) :
  tame body → (∀ e, returns (handler e)) →
  returns (try_except_Exception body handler).
Proof.
  intros Hbody Hhandler w. unfold try_except_Exception.
  destruct (Hbody w) as (lines1 & H1 & Hr1).
  destruct (body w) as [[a|r] w1]; cbn [fst snd] in *; subst w1.
  - exists a, lines1. reflexivity.
  - destruct (Hr1 r eq_refl) as [e ->].
    destruct (Hhandler e (printed lines1 w)) as (a & lines2 & H2).
    exists a, (lines1 ++ lines2). rewrite H2, printed_printed. reflexivity.
Qed.

Ltac tame_steps :=
  repeat first
    [ apply returns_tame, returns_print
    | apply returns_tame, returns_print_no_end
    | apply returns_tame, returns_ret
    | apply tame_iterate | apply tame_when
    | apply tame_bind; [|intros ?] ].


Section report_never_fails.
Context `{!bluetooth.module}.

Lemma tame_service_block idx service :
  tame (bluetooth_scanner.service_block idx service).
Proof.
  unfold bluetooth_scanner.service_block. cbv zeta. tame_steps.
  destruct (bluetooth_scanner.parse_protocol_descriptor _); tame_steps.
Qed.

Lemma returns_list_sdp_services device_address device_name :
  no_signal (bluetooth.find_service device_address) →
  returns (bluetooth_scanner.list_sdp_services device_address device_name).
Proof.
  intros Hfind. unfold bluetooth_scanner.list_sdp_services.
  apply returns_bind; [apply returns_print|intros _].
  apply returns_bind; [apply returns_print|intros _].
  apply returns_try_except; [|intros e; apply returns_print].
  apply tame_bind; [apply tame_call, Hfind|intros services].
  destruct services as [|service services]; [tame_steps|].
  apply tame_bind; [tame_steps|intros _].
  apply tame_bind; [tame_steps|intros _].
  apply tame_bind; [|intros _; tame_steps].
  apply tame_for_each. intros [idx svc]. apply tame_service_block.
Qed.

Lemma returns_display_devices devices :
  returns (bluetooth_scanner.display_devices devices).
Proof.
  intros w. destruct devices as [|d devices].
  - exists tt, [line "[!] No devices found."]. reflexivity.
  - eexists tt, _. apply display_devices_lines. discriminate.
Qed.
End report_never_fails.

(** X5: [list_sdp_services] never lets an [Exception] out and reads no
    input: when the service query answers with a list of records, however
    malformed, or raises an [Exception], the function returns normally and
    has only added to the output. *)
Theorem list_sdp_services_always_returns :
  ∀ (bt : bluetooth.module) (device_address device_name : string) (w : world),
    no_signal (bluetooth.find_service device_address) →
    ∃ lines : list string,
      bluetooth_scanner.list_sdp_services device_address device_name w
      = (Returned tt, World (stdin w) (stdout w ++ lines)).
Proof.
  intros bt device_address device_name w Hfind.
  destruct (returns_list_sdp_services device_address device_name Hfind w)
    as ([] & lines & Hrun).
  exists lines. exact Hrun.
Qed.

(** A record whose class list is the [int] 0x1101: the walk over it
    raises [TypeError] in the middle of the "Classes" line, and the report
    ends there with the error notice. *)
Lemma list_sdp_services_always_returns_witness :
  let bt := pybluez (Returned [])
              (fun _ => Returned [broken_service; sample_service]) in
  ∃ lines,
    bluetooth_scanner.list_sdp_services "AA" "Odd" (World [Line "1"] [])
    = (Returned tt, World [Line "1"] lines)
    ∧ last lines
      = Some (line ("[!] Error while querying SDP services: "
                    +:+ "'int' object is not iterable")).
Proof.
  intros bt.
  destruct (list_sdp_services_always_returns bt "AA" "Odd" (World [Line "1"] []))
    as (lines & Hrun).
  { intros r [=]. }
  exists lines. split; [exact Hrun|].
  assert (World [Line "1"] lines
          = snd (bluetooth_scanner.list_sdp_services "AA" "Odd"
                   (World [Line "1"] []))) as Hsnd by (rewrite Hrun; reflexivity).
  vm_compute in Hsnd. injection Hsnd as ->. reflexivity.
Defined.

(** ** The exit status of [bluetooth_scanner.py] *)

Section classic_script.
Context `{!bluetooth.module}.

(** With devices found, [main] gets to the selector after the banner, the
    scan lines and the table. *)
Lemma main_devices_found (devices : list device) (w : world) :
  bluetooth.discover_devices 8 = Returned devices →
  devices ≠ [] →
  ∃ lines,
    bluetooth_scanner.main w
    = (returned_by (bluetooth_scanner.select_device devices)
       ≫= fun selected_device =>
            match selected_device with
            | None => _ ← print "[*] Exiting..."; sys_exit 0
            | Some (device_address, device_name) =>
                let device_name := name_or_unknown device_name in
                _ ← print (nl +:+ "[+] Selected: " +:+ device_name
                           +:+ " (" +:+ device_address +:+ ")");
                _ ← bluetooth_scanner.list_sdp_services
                      device_address device_name;
                print "[*] Scan complete!"
            end) (printed lines w).
Proof.
  intros Hdiscover Hne. unfold bluetooth_scanner.main.
  rewrite (bind_run _ _ _ _ _ (print_banner_run w)).
  erewrite bind_run; cycle 1.
  { rewrite discover_devices_run, Hdiscover. reflexivity. }
  rewrite printed_printed.
  destruct devices as [|d devices]; [contradiction|].
  destruct (returns_display_devices (d :: devices)
              (printed (banner_text ++ scanning_text 8) w))
    as ([] & lines & Hshown).
  rewrite (bind_run _ _ _ _ _ Hshown), printed_printed.
  eexists. reflexivity.
Qed.

Lemma last_printed (lines : list string) (text : string) (w : world) :
  last (stdout (printed (lines ++ [text]) w)) = Some text.
Proof.
  unfold printed. cbn [stdout]. rewrite app_assoc. apply last_snoc.
Qed.
End classic_script.

(** X6: devices were found, the input has an event that ends the
    selector (Ctrl-C, the quit token or an index), and the service query
    answers with records or an [Exception]: the process exits with
    status 0, and the last line it writes is "[*] Exiting..." or
    "[*] Scan complete!". *)
Theorem script_exits_0_after_selection :
  ∀ (bt : bluetooth.module) (w : world) (devices : list device),
    bluetooth.discover_devices 8 = Returned devices →
    devices ≠ [] →
    Exists (decisive devices) (stdin w) →
    (∀ address, no_signal (bluetooth.find_service address)) →
    fst (bluetooth_scanner.script w) = 0
    ∧ (last (stdout (snd (bluetooth_scanner.script w)))
       = Some (line "[*] Exiting...")
       ∨ last (stdout (snd (bluetooth_scanner.script w)))
         = Some (line "[*] Scan complete!")).
Proof.
  intros bt w devices Hdiscover Hne Hdecisive Hfind.
  destruct (main_devices_found devices w Hdiscover Hne) as (lines & Hmain).
  unfold bluetooth_scanner.script. rewrite Hmain. clear Hmain.
  destruct (select_loop_returns bluetooth_scanner.select_prompt devices
              (stdin w) (stdout w ++ lines) Hdecisive) as (r & Hr).
  set (sel := bluetooth_scanner.select_device devices (printed lines w)).
  assert (returned_by (bluetooth_scanner.select_device devices)
            (printed lines w) = (Returned r, sel_world sel)) as Hsel.
  { unfold returned_by. fold sel. f_equal. exact Hr. }
  rewrite (bind_run _ _ _ _ _ Hsel).
  destruct r as [[device_address device_name]|].
  - cbv zeta. rewrite bind_print.
    destruct (returns_list_sdp_services device_address
                (name_or_unknown device_name) (Hfind device_address)
                (printed [line (nl +:+ "[+] Selected: "
                                +:+ name_or_unknown device_name
                                +:+ " (" +:+ device_address +:+ ")")]
                   (sel_world sel))) as ([] & report & Hreport).
    rewrite (bind_run _ _ _ _ _ Hreport), print_run, !printed_printed.
    cbn [fst snd]. split; [reflexivity|]. right.
    rewrite app_assoc. apply last_printed.
  - rewrite bind_print. cbn [fst snd sys_exit raise].
    split; [reflexivity|]. left. apply (last_printed []).
Qed.

Lemma script_exits_0_after_selection_witness :
  let bt := pybluez (Returned three_devices)
              (fun _ => Returned [broken_service]) in
  fst (bluetooth_scanner.script (World [Line "7"; Line "1"] [])) = 0
  ∧ fst (bluetooth_scanner.script (World [Line "Q"] [])) = 0.
Proof.
  intros bt. split.
  - apply (script_exits_0_after_selection bt (World [Line "7"; Line "1"] [])
             three_devices eq_refl).
    + discriminate.
    + apply Exists_cons_tl, Exists_cons_hd. right. exists 1.
      split; [reflexivity|cbn; lia].
    + intros address r [=].
  - apply (script_exits_0_after_selection bt (World [Line "Q"] [])
             three_devices eq_refl).
    + discriminate.
    + apply Exists_cons_hd. left. reflexivity.
    + intros address r [=].
Defined.

(** X7: devices were found but standard input ends before any event
    ends the selector: the [EOFError] of [input()] reaches the top
    level, the process writes the fatal-error notice last and exits with
    status 1, all input read. *)
Theorem script_exits_1_on_end_of_input :
  ∀ (bt : bluetooth.module) (w : world) (devices : list device),
    bluetooth.discover_devices 8 = Returned devices →
    devices ≠ [] →
    Forall (fun ev => ¬ decisive devices ev) (stdin w) →
    fst (bluetooth_scanner.script w) = 1
    ∧ stdin (snd (bluetooth_scanner.script w)) = []
    ∧ last (stdout (snd (bluetooth_scanner.script w)))
      = Some (line (nl +:+ "[!] Fatal error: EOF when reading a line")).
Proof.
  intros bt w devices Hdiscover Hne Hnone.
  destruct (main_devices_found devices w Hdiscover Hne) as (lines & Hmain).
  unfold bluetooth_scanner.script. rewrite Hmain. clear Hmain.
  erewrite bind_raised; cycle 1.
  { unfold returned_by, bluetooth_scanner.select_device, select_device_with.
    cbn [stdin stdout printed].
    rewrite (select_loop_eof _ _ _ _ Hnone). reflexivity. }
  cbn [fst snd sel_world]. split; [reflexivity|]. split; [reflexivity|].
  unfold print, write. cbn [snd stdout]. apply last_snoc.
Qed.

Lemma script_exits_1_on_end_of_input_witness :
  let bt := pybluez (Returned three_devices) (fun _ => Returned []) in
  fst (bluetooth_scanner.script (World [Line "4"; Line ""] [])) = 1.
Proof.
  intros bt.
  apply (script_exits_1_on_end_of_input bt (World [Line "4"; Line ""] [])
           three_devices eq_refl).
  - discriminate.
  - constructor; [|constructor; [|constructor]].
    + intros [Hq|(n & Hn & Hrange)]; [discriminate|].
      injection Hn as <-. cbn in Hrange. lia.
    + intros [Hq|(n & Hn & _)]; discriminate.
Defined.

(** X8: Ctrl-C while the stack is busy is not caught by the
    [except Exception] around the call: a [KeyboardInterrupt] out of the
    discovery call, or out of the service query for the selected device,
    reaches the top level, which writes the interruption notice last and
    exits with status 0; "[*] Scan complete!" is not written. *)
Theorem script_interrupted_during_stack_call :
  ∀ (bt : bluetooth.module) (w : world),
    (bluetooth.discover_devices 8 = Raised KeyboardInterrupt →
     bluetooth_scanner.script w
     = (0, World (stdin w)
             (stdout w ++ banner_text ++ scanning_text 8
              ++ [line (nl +:+ nl +:+ "[!] Interrupted by user. Exiting...")])))
    ∧ (∀ devices device_address device_name w_selected,
         bluetooth.discover_devices 8 = Returned devices →
         devices ≠ [] →
         bluetooth_scanner.select_device devices
           (snd (bluetooth_scanner.display_devices devices
                   (printed (banner_text ++ scanning_text 8) w)))
         = Selection (Returned (Some (device_address, device_name))) devices
             w_selected →
         bluetooth.find_service device_address = Raised KeyboardInterrupt →
         bluetooth_scanner.script w
         = (0, printed
                 [ line (nl +:+ "[+] Selected: "
                         +:+ name_or_unknown device_name
                         +:+ " (" +:+ device_address +:+ ")");
                   line (nl +:+ "[*] Querying SDP services on '"
                         +:+ name_or_unknown device_name
                         +:+ "' (" +:+ device_address +:+ ")...");
                   line ("[*] This may take a moment..." +:+ nl);
                   line (nl +:+ nl +:+ "[!] Interrupted by user. Exiting...") ]
                 w_selected)).
Proof.
  intros bt w. split.
  - intros Hdiscover.
    unfold bluetooth_scanner.script, bluetooth_scanner.main.
    rewrite (bind_run _ _ _ _ _ (print_banner_run w)).
    erewrite bind_raised; cycle 1.
    { rewrite discover_devices_run, Hdiscover. reflexivity. }
    rewrite print_run, !printed_printed. unfold printed. cbn [snd stdin stdout].
    rewrite <- ?app_assoc. reflexivity.
  - intros devices device_address device_name w_selected
      Hdiscover Hne Hselect Hfind.
    unfold bluetooth_scanner.script, bluetooth_scanner.main.
    rewrite (bind_run _ _ _ _ _ (print_banner_run w)).
    erewrite bind_run; cycle 1.
    { rewrite discover_devices_run, Hdiscover. reflexivity. }
    rewrite printed_printed.
    destruct devices as [|d devices]; [contradiction|].
    destruct (returns_display_devices (d :: devices)
                (printed (banner_text ++ scanning_text 8) w))
      as ([] & lines & Hshown).
    rewrite Hshown in Hselect. cbn [snd] in Hselect.
    rewrite (bind_run _ _ _ _ _ Hshown).
    erewrite bind_run; cycle 1.
    { unfold returned_by. rewrite Hselect. reflexivity. }
    cbn [sel_world]. cbv zeta. rewrite bind_print.
    erewrite bind_raised; cycle 1.
    { unfold bluetooth_scanner.list_sdp_services.
      rewrite !bind_print, !printed_printed.
      unfold try_except_Exception.
      erewrite bind_raised by (unfold call; rewrite Hfind; reflexivity).
      reflexivity. }
    rewrite print_run, !printed_printed. reflexivity.
Qed.

Lemma script_interrupted_during_stack_call_witness :
  (let bt := pybluez (Raised KeyboardInterrupt) (fun _ => Returned []) in
   bluetooth_scanner.script (World [Line "1"] [])
   = (0, World [Line "1"]
           (banner_text ++ scanning_text 8
            ++ [line (nl +:+ nl +:+ "[!] Interrupted by user. Exiting...")])))
  ∧ (let bt := pybluez (Returned three_devices)
                 (fun _ => Raised KeyboardInterrupt) in
     fst (bluetooth_scanner.script (World [Line "1"] [])) = 0
     ∧ last (stdout (snd (bluetooth_scanner.script (World [Line "1"] []))))
       = Some (line (nl +:+ nl +:+ "[!] Interrupted by user. Exiting..."))).
Proof.
  split.
  - intros bt.
    apply (proj1 (script_interrupted_during_stack_call bt
                    (World [Line "1"] []))).
    reflexivity.
  - intros bt.
    pose (w_selected :=
            sel_world
              (bluetooth_scanner.select_device three_devices
                 (snd (bluetooth_scanner.display_devices three_devices
                         (printed (banner_text ++ scanning_text 8)
                            (World [Line "1"] [])))))).
    rewrite (proj2 (script_interrupted_during_stack_call bt
                      (World [Line "1"] []))
               three_devices "00:11:22:33:44:55" (Some "Speaker") w_selected
               eq_refl ltac:(discriminate) eq_refl eq_refl).
    split; [reflexivity|]. cbn [snd]. apply (last_printed [_; _; _]).
Defined.

(** ** The shape of the service report *)


Lemma bind_returns {A B} (m : IO A) (f : A → IO B) w :
  returns m → ∃ a lines, (m ≫= f) w = f a (printed lines w).
Proof.
  intros Hm. destruct (Hm w) as (a & lines & Hrun). exists a, lines.
  apply bind_run, Hrun.
Qed.





Section report_shape.
Context `{!bluetooth.module}.



(** A record whose class list is truthy and cannot be walked to its end:
    the block raises in the middle of the "Classes" line. *)
Lemma service_block_unwalkable idx service items e w :
  py_truthy (classes_of service) = true →
  py_iter (classes_of service) = (items, Some e) →
  ∃ blk, bluetooth_scanner.service_block idx service w
         = (Raised (Exc e), printed (blk ++ ["  Classes:     "]) w).
Proof.
  intros Htruthy Hiter. unfold bluetooth_scanner.service_block. cbv zeta.
  rewrite !bind_print, !printed_printed.
  repeat match goal with
  | |- context [(when ?b (print ?s) ≫= ?f) ?w0] =>
      destruct (bind_returns (when b (print s)) f w0
                  (returns_when _ _ (returns_print _))) as ([] & ? & ->);
      rewrite printed_printed
  end.
  fold (classes_of service). rewrite Htruthy. cbn [when].
  eexists. unfold mbind at 1, IO_bind at 1.
  unfold mbind at 1, IO_bind at 1. unfold print_no_end at 1, write at 1.
  unfold mbind at 1, IO_bind at 1. unfold iterate at 1. rewrite Hiter.
  unfold raise. cbn [stdin stdout printed].
  unfold printed. cbn [stdin stdout]. rewrite <- app_assoc. reflexivity.
Qed.
End report_shape.


Lemma when_print_run b s w :
  when b (print s) w = (Returned tt, printed (if b then [line s] else []) w).
Proof. destruct b; [reflexivity|]. cbn. by rewrite printed_nil. Qed.

Section report_abort.
Context `{!bluetooth.module}.

End report_abort.




(** ** More on the protocol-descriptor walk *)

Section proto_walk.
Context `{!bluetooth.module}.

Lemma names_protocol_items uuid proto_desc :
  names_protocol uuid proto_desc = true →
  ∃ more, desc_items proto_desc = Some (PStr uuid :: more).
Proof.
  unfold names_protocol.
  destruct (desc_items proto_desc) as [[|u more]|]; try discriminate.
  destruct u; try discriminate. cbn [py_eq_str].
  intros ->%String.eqb_eq. eauto.
Qed.

Lemma proto_step_l2cap protocols proto_desc param more :
  desc_items proto_desc = Some (PStr bluetooth.L2CAP_UUID :: param :: more) →
  bluetooth_scanner.proto_step protocols proto_desc
  = dict_set "PSM" param (dict_set "L2CAP" (PBool true) protocols).
Proof.
  intros Hitems. unfold bluetooth_scanner.proto_step.
  destruct proto_desc; simpl in Hitems; try discriminate.
  all: injection Hitems as ->; simpl.
  all: rewrite String.eqb_refl; reflexivity.
Qed.

Lemma proto_step_keeps_psm protocols proto_desc :
  l2cap_param proto_desc = None →
  dict_get "PSM" (bluetooth_scanner.proto_step protocols proto_desc)
  = dict_get "PSM" protocols.
Proof.
  unfold l2cap_param, names_protocol, bluetooth_scanner.proto_step.
  destruct proto_desc as [| | | |[|u items]|[|u items]|]; try reflexivity.
  all: cbn [desc_items mbind option_bind].
  all: intros Hparam; repeat (case_match; try reflexivity).
  all: rewrite ?dict_get_set_ne by discriminate; try reflexivity.
  all: congruence.
Qed.

Lemma last_omap_cons {A B} (f : A → option B) (x : A) (l : list A) :
  last (omap f (x :: l))
  = match last (omap f l) with
    | Some y => Some y
    | None => f x
    end.
Proof.
  change (omap f (x :: l))
    with (match f x with Some y => y :: omap f l | None => omap f l end).
  destruct (f x) as [y|]; [|by destruct (last (omap f l))].
  rewrite last_cons. reflexivity.
Qed.

Lemma foldl_proto_step_psm protocols items :
  dict_get "PSM" (foldl bluetooth_scanner.proto_step protocols items)
  = match last (omap l2cap_param items) with
    | Some p => Some p
    | None => dict_get "PSM" protocols
    end.
Proof.
  revert protocols. induction items as [|d items IH]; intros protocols.
  - reflexivity.
  - cbn [foldl]. rewrite IH, last_omap_cons.
    destruct (last (omap l2cap_param items)) as [p|]; [reflexivity|].
    destruct (l2cap_param d) as [p|] eqn:Hparam;
      [|apply proto_step_keeps_psm, Hparam].
    unfold l2cap_param in Hparam.
    destruct (names_protocol bluetooth.L2CAP_UUID d) eqn:Hnames;
      [|discriminate].
    apply names_protocol_items in Hnames as [more Hitems].
    rewrite Hitems in Hparam. cbn in Hparam.
    destruct more as [|param more]; [discriminate|]. injection Hparam as ->.
    rewrite (proto_step_l2cap _ _ _ _ Hitems). apply dict_get_set_eq.
Qed.

Lemma foldl_proto_step_channel protocols items :
  bluetooth.RFCOMM_UUID ≠ bluetooth.L2CAP_UUID →
  dict_get "Channel" (foldl bluetooth_scanner.proto_step protocols items)
  = match last (omap rfcomm_param items) with
    | Some p => Some p
    | None => dict_get "Channel" protocols
    end.
Proof.
  intros Hne. revert protocols.
  induction items as [|d items IH]; intros protocols.
  - reflexivity.
  - cbn [foldl]. rewrite IH, last_omap_cons.
    destruct (last (omap rfcomm_param items)) as [p|]; [reflexivity|].
    destruct (rfcomm_param d) as [p|] eqn:Hparam;
      [|apply proto_step_keeps_channel, Hparam].
    unfold rfcomm_param in Hparam.
    destruct (names_protocol bluetooth.RFCOMM_UUID d) eqn:Hnames;
      [|discriminate].
    apply names_protocol_items in Hnames as [more Hitems].
    rewrite Hitems in Hparam. cbn in Hparam.
    destruct more as [|param more]; [discriminate|]. injection Hparam as ->.
    rewrite (proto_step_rfcomm _ _ _ _ Hne Hitems). apply dict_get_set_eq.
Qed.

(** The flags a turn sets are [True]. *)
Lemma proto_step_flags_true protocols proto_desc :
  (∀ k val, k ∈ flag_names → dict_get k protocols = Some val →
            val = PBool true) →
  ∀ k val, k ∈ flag_names →
    dict_get k (bluetooth_scanner.proto_step protocols proto_desc) = Some val →
    val = PBool true.
Proof.
  intros Hflags k val Hk. unfold bluetooth_scanner.proto_step.
  assert (k ≠ "PSM" ∧ k ≠ "Channel") as [Hpsm Hchannel].
  { unfold flag_names in Hk. rewrite !elem_of_cons, elem_of_nil in Hk.
    split; intros ->;
      destruct Hk as [?|[?|[?|[?|[?|[]]]]]]; discriminate. }
  destruct proto_desc as [| | | |[|u items]|[|u items]|]; try apply Hflags, Hk.
  all: repeat (case_match; try apply Hflags, Hk).
  all: rewrite ?(dict_get_set_ne k "PSM"), ?(dict_get_set_ne k "Channel")
         by congruence.
  all: rewrite dict_get_set; case_match;
         [intros [= <-]; reflexivity|apply Hflags, Hk].
Qed.

Lemma foldl_proto_step_flags_true protocols items :
  (∀ k val, k ∈ flag_names → dict_get k protocols = Some val →
            val = PBool true) →
  ∀ k val, k ∈ flag_names →
    dict_get k (foldl bluetooth_scanner.proto_step protocols items) = Some val →
    val = PBool true.
Proof.
  revert protocols. induction items as [|d items IH]; intros protocols Hflags.
  - exact Hflags.
  - cbn [foldl]. apply IH, proto_step_flags_true, Hflags.
Qed.

Lemma foldl_proto_step_get_other k protocols items :
  k ∉ ["L2CAP"; "PSM"; "RFCOMM"; "Channel"; "OBEX"; "TCP"; "UDP"] →
  dict_get k (foldl bluetooth_scanner.proto_step protocols items)
  = dict_get k protocols.
Proof.
  intros Hk. revert protocols.
  induction items as [|d items IH]; intros protocols; cbn [foldl].
  - reflexivity.
  - rewrite IH. apply proto_step_get_other, Hk.
Qed.

Lemma foldl_proto_step_filter protocols items :
  foldl bluetooth_scanner.proto_step protocols
    (filter (fun d => recognized d = true) items)
  = foldl bluetooth_scanner.proto_step protocols items.
Proof.
  revert protocols. induction items as [|d items IH]; intros protocols.
  - reflexivity.
  - destruct (recognized d) eqn:Hd.
    + rewrite filter_cons_True by exact Hd. cbn [foldl]. apply IH.
    + rewrite filter_cons_False by (rewrite Hd; discriminate).
      cbn [foldl]. rewrite (proto_step_unrecognized _ _ Hd). apply IH.
Qed.
End proto_walk.

(** X11: whatever it is given, [parse_protocol_descriptor] returns a
    dict whose keys are among [L2CAP, PSM, RFCOMM, Channel, OBEX, TCP, UDP,
    parse_error], each at most once, and in which each of the five protocol
    flags that is present is [True]. *)
Theorem parse_protocol_descriptor_result_keys :
  ∀ (bt : bluetooth.module) (v : pyval),
    let protocols := bluetooth_scanner.parse_protocol_descriptor v in
    (∀ k val, dict_get k protocols = Some val → k ∈ protocol_keys)
    ∧ (∀ k, (key_count k protocols ≤ 1)%nat)
    ∧ (∀ k val, k ∈ flag_names → dict_get k protocols = Some val →
                val = PBool true).
Proof.
  intros bt v protocols. unfold protocols,
    bluetooth_scanner.parse_protocol_descriptor.
  destruct (py_iter v) as [items failure]. split; [|split].
  - intros k val Hget.
    destruct (decide (k ∈ protocol_keys)) as [Hin|Hout]; [exact Hin|].
    exfalso. unfold protocol_keys in Hout.
    rewrite !not_elem_of_cons in Hout.
    destruct Hout as (? & ? & ? & ? & ? & ? & ? & Hpe & _).
    assert (dict_get k (foldl bluetooth_scanner.proto_step [] items) = None)
      as Hnone.
    { rewrite foldl_proto_step_get_other; [reflexivity|].
      rewrite !not_elem_of_cons. repeat split; try assumption.
      apply not_elem_of_nil. }
    destruct failure as [e|]; [|congruence].
    rewrite dict_get_set_ne in Hget by congruence. congruence.
  - intros k.
    assert (key_count k (foldl bluetooth_scanner.proto_step [] items) ≤ 1)%nat
      as Hle by (apply foldl_proto_step_key_count; cbn; lia).
    destruct failure as [e|]; [apply key_count_le_1_set|]; exact Hle.
  - intros k val Hk Hget.
    apply (foldl_proto_step_flags_true [] items) with (k := k);
      [intros ? ? _ [=]|exact Hk|].
    destruct failure as [e|]; [|exact Hget].
    rewrite dict_get_set_ne in Hget; [exact Hget|].
    intros <-. unfold flag_names in Hk.
    rewrite !elem_of_cons, elem_of_nil in Hk.
    destruct Hk as [?|[?|[?|[?|[?|[]]]]]]; discriminate.
Qed.

(** X12: the result of [parse_protocol_descriptor] depends only on the
    descriptors it recognizes (non-empty lists or tuples headed by one of
    the five identifiers), in their order, and on how the walk ends:
    everything else in the list is skipped without a trace. *)
Theorem parse_protocol_descriptor_skips_unrecognized :
  ∀ (bt : bluetooth.module) (v v' : pyval),
    filter (fun d => recognized d = true) (fst (py_iter v))
    = filter (fun d => recognized d = true) (fst (py_iter v')) →
    (exc_text <$> snd (py_iter v)) = (exc_text <$> snd (py_iter v')) →
    bluetooth_scanner.parse_protocol_descriptor v
    = bluetooth_scanner.parse_protocol_descriptor v'.
Proof.
  intros bt v v' Hitems Hend.
  unfold bluetooth_scanner.parse_protocol_descriptor.
  destruct (py_iter v) as [items failure].
  destruct (py_iter v') as [items' failure']. cbn [fst snd] in *.
  rewrite <- (foldl_proto_step_filter [] items), Hitems,
    foldl_proto_step_filter.
  destruct failure as [e|], failure' as [e'|]; try discriminate;
    [|reflexivity].
  injection Hend as ->. reflexivity.
Qed.

Lemma parse_protocol_descriptor_skips_unrecognized_witness :
  let bt := pybluez (Returned []) (fun _ => Returned []) in
  bluetooth_scanner.parse_protocol_descriptor
    (PList [PInt 1; PTuple [PStr "0003"; PInt 5]; PStr "0100"; PList [];
            PTuple [PStr "beef"; PInt 9]])
  = bluetooth_scanner.parse_protocol_descriptor
      (PTuple [PTuple [PStr "0003"; PInt 5]]).
Proof.
  intros bt.
  apply (parse_protocol_descriptor_skips_unrecognized bt); reflexivity.
Defined.

(** X13: [PSM] and [Channel] hold the parameter of the last L2CAP,
    respectively RFCOMM, descriptor that carries one (given that the two
    identifiers differ); without such a descriptor the key is absent. *)
Theorem parse_protocol_descriptor_last_parameter_wins :
  ∀ (bt : bluetooth.module) (v : pyval),
    bluetooth.RFCOMM_UUID ≠ bluetooth.L2CAP_UUID →
    dict_get "PSM" (bluetooth_scanner.parse_protocol_descriptor v)
    = last (omap l2cap_param (fst (py_iter v)))
    ∧ dict_get "Channel" (bluetooth_scanner.parse_protocol_descriptor v)
      = last (omap rfcomm_param (fst (py_iter v))).
Proof.
  intros bt v Hne. unfold bluetooth_scanner.parse_protocol_descriptor.
  destruct (py_iter v) as [items failure]. cbn [fst].
  assert (dict_get "PSM" (foldl bluetooth_scanner.proto_step [] items)
          = last (omap l2cap_param items)) as Hpsm.
  { rewrite foldl_proto_step_psm.
    by destruct (last (omap l2cap_param items)). }
  assert (dict_get "Channel" (foldl bluetooth_scanner.proto_step [] items)
          = last (omap rfcomm_param items)) as Hchannel.
  { rewrite foldl_proto_step_channel by exact Hne.
    by destruct (last (omap rfcomm_param items)). }
  destruct failure as [e|]; [|split; assumption].
  rewrite !dict_get_set_ne by discriminate. split; assumption.
Qed.

Lemma parse_protocol_descriptor_last_parameter_wins_witness :
  let bt := pybluez (Returned []) (fun _ => Returned []) in
  dict_get "PSM"
    (bluetooth_scanner.parse_protocol_descriptor
       (PList [PList [PStr "0100"; PInt 1]; PList [PStr "0100"; PInt 25];
               PList [PStr "0100"]]))
  = Some (PInt 25).
Proof.
  intros bt.
  apply (proj1 (parse_protocol_descriptor_last_parameter_wins bt
                  (PList [PList [PStr "0100"; PInt 1];
                          PList [PStr "0100"; PInt 25];
                          PList [PStr "0100"]])
                  ltac:(discriminate))).
Defined.

(** ** More on the service-class table *)

(** Every key of the table starts with "0x", and no label does: no label
    is itself a key. *)
Lemma service_classes_entry (k label : string) :
  bluetooth_scanner.service_classes !! k = Some label →
  has_0x_prefix k = true ∧ has_0x_prefix label = false.
Proof.
  unfold bluetooth_scanner.service_classes. intros Hk.
  apply elem_of_list_to_map_2 in Hk.
  repeat (apply elem_of_cons in Hk as [[= -> ->]|Hk];
          [split; reflexivity|]).
  by apply elem_of_nil in Hk.
Qed.

Lemma service_classes_needs_0x (s : string) :
  has_0x_prefix s = false → bluetooth_scanner.service_classes !! s = None.
Proof.
  intros Hs. destruct (bluetooth_scanner.service_classes !! s) as [label|] eqn:Hk;
    [|reflexivity].
  apply service_classes_entry in Hk as [Hk _]. congruence.
Qed.



(** X14: the service-class table is consulted with the text as it is: a
    class identifier whose text does not start with "0x" (a bare "1101",
    a 128-bit UUID, an upper-case "0X1101") is given back unchanged, never
    translated. *)
Theorem get_service_class_name_needs_0x_prefix :
  ∀ uuid : pyval,
    has_0x_prefix (bluetooth_scanner.uuid_str uuid) = false →
    bluetooth_scanner.get_service_class_name uuid
    = bluetooth_scanner.uuid_str uuid.
Proof.
  intros uuid Hprefix. unfold bluetooth_scanner.get_service_class_name.
  rewrite (service_classes_needs_0x _ Hprefix). reflexivity.
Qed.

Lemma get_service_class_name_needs_0x_prefix_witness :
  bluetooth_scanner.get_service_class_name (PStr "1101") = "1101"
  ∧ bluetooth_scanner.get_service_class_name (PStr "0X1101") = "0X1101".
Proof.
  split.
  - apply (get_service_class_name_needs_0x_prefix (PStr "1101")). reflexivity.
  - apply (get_service_class_name_needs_0x_prefix (PStr "0X1101")). reflexivity.
Defined.


(** X16: translating twice changes nothing: what
    [get_service_class_name] returns is never a key of its table. *)
Theorem get_service_class_name_idempotent :
  ∀ uuid : pyval,
    bluetooth_scanner.get_service_class_name
      (PStr (bluetooth_scanner.get_service_class_name uuid))
    = bluetooth_scanner.get_service_class_name uuid.
Proof.
  intros uuid. unfold bluetooth_scanner.get_service_class_name at 1.
  cbn [bluetooth_scanner.uuid_str].
  unfold bluetooth_scanner.get_service_class_name.
  destruct (bluetooth_scanner.service_classes !! bluetooth_scanner.uuid_str uuid)
    as [label|] eqn:Hk; cbn [default from_option id].
  - apply service_classes_entry in Hk as [_ Hlabel].
    rewrite (service_classes_needs_0x _ Hlabel). reflexivity.
  - rewrite Hk. reflexivity.
Qed.

(** ** The GATT report of [bluetooth_scanner_bleak.py] *)

Lemma for_each_lines {A} (l : list A) (body : A → IO unit)
    (text : A → list string) w :
  (∀ x w', body x w' = (Returned tt, printed (text x) w')) →
  for_each l body w = (Returned tt, printed (concat (map text l)) w).
Proof.
  intros Hbody. revert w. induction l as [|x l IH]; intros w; cbn [for_each].
  - unfold mret, IO_ret. cbn [map concat]. rewrite printed_nil. reflexivity.
  - rewrite (bind_run _ _ _ _ _ (Hbody x w)), IH, printed_printed.
    reflexivity.
Qed.

Lemma characteristic_block_run char w :
  bluetooth_scanner_bleak.characteristic_block char w
  = (Returned tt, printed (characteristic_text char) w).
Proof.
  unfold bluetooth_scanner_bleak.characteristic_block, characteristic_text.
  rewrite !bind_print.
  rewrite (bind_run _ _ _ _ _ (when_print_run _ _ _)).
  rewrite print_run, !printed_printed.
  destruct (String.eqb _ _); reflexivity.
Qed.

Lemma gatt_service_block_run idx service w :
  bluetooth_scanner_bleak.gatt_service_block idx service w
  = (Returned tt, printed (gatt_service_text idx service) w).
Proof.
  unfold bluetooth_scanner_bleak.gatt_service_block, gatt_service_text.
  rewrite !bind_print, !printed_printed.
  destruct (BleakClient.characteristics service) as [|char chars].
  - rewrite app_nil_r. reflexivity.
  - rewrite bind_print, printed_printed.
    rewrite (for_each_lines _ _ characteristic_text)
      by apply characteristic_block_run.
    rewrite printed_printed, <- app_assoc. reflexivity.
Qed.

Lemma tame_async_with {A B} (enter : outcome A) (leave : outcome unit)
    (body : A → IO B) :
  no_signal enter → no_signal leave → (∀ x, tame (body x)) →
  tame (async_with enter leave body).
Proof.
  intros Henter Hleave Hbody w. unfold async_with, call, mbind, IO_bind.
  destruct enter as [x|r].
  - destruct (Hbody x w) as (lines & Hw & Hr). exists lines.
    destruct (body x w) as [res w']. cbn [fst snd] in *.
    destruct leave as [[]|r']; cbn [fst snd].
    + split; [exact Hw|exact Hr].
    + split; [exact Hw|]. intros r0 [= <-]. apply Hleave. reflexivity.
  - exists []. cbn [fst snd]. rewrite printed_nil. split; [reflexivity|].
    intros r0 [= <-]. apply Henter. reflexivity.
Qed.

Section gatt_report_facts.
Context `{!BleakClient.api}.

(** The block under [async with], run to its end. *)
Lemma inspect_body_run device_name services w :
  (_ ← print ("[+] Connected to " +:+ device_name +:+ nl);
   _ ← print (py_repeat "=" 80);
   match services with
   | [] => print "[!] No GATT services found on this device."
   | _ =>
       _ ← print ("[+] Found " +:+ pretty (length services)
                  +:+ " GATT service(s):" +:+ nl);
       _ ← for_each (py_enumerate1 services)
             (fun '(idx, service) =>
                bluetooth_scanner_bleak.gatt_service_block idx service);
       _ ← print (py_repeat "=" 80);
       print ("[+] Total services listed: "
              +:+ pretty (length services) +:+ nl)
   end) w
  = (Returned tt, printed (gatt_report device_name services) w).
Proof.
  unfold gatt_report. rewrite !bind_print, printed_printed.
  destruct services as [|service services].
  - rewrite print_run, printed_printed. reflexivity.
  - rewrite bind_print, printed_printed.
    erewrite bind_run; cycle 1.
    { apply (for_each_lines _ _
               (fun '(idx, service) => gatt_service_text idx service)).
      intros [idx svc] w'. apply gatt_service_block_run. }
    rewrite bind_print, print_run, !printed_printed.
    rewrite <- !app_assoc. reflexivity.
Qed.

Lemma inspect_handler_run (e : exn) w :
  (if is_asyncio_TimeoutError e then
     print ("[!] Connection timeout. Device may not support connections "
            +:+ "or is out of range.")
   else
     _ ← print ("[!] Error while inspecting device: " +:+ exc_text e);
     print ("[!] Note: Some devices don't allow connections from "
            +:+ "unpaired clients.")) w
  = (Returned tt,
     printed (bluetooth_scanner_bleak.inspect_error_notices e) w).
Proof.
  unfold bluetooth_scanner_bleak.inspect_error_notices.
  destruct (is_asyncio_TimeoutError e).
  - apply print_run.
  - rewrite bind_print, print_run, printed_printed. reflexivity.
Qed.

Lemma inspect_device_connected device_address device_name services w :
  BleakClient.connect device_address = Returned services →
  bluetooth_scanner_bleak.inspect_device device_address device_name w
  = match BleakClient.disconnect device_address with
    | Returned _ =>
        (Returned tt,
         printed (inspecting_text device_address device_name
                  ++ gatt_report device_name services) w)
    | Raised (Exc e) =>
        (Returned tt,
         printed (inspecting_text device_address device_name
                  ++ gatt_report device_name services
                  ++ bluetooth_scanner_bleak.inspect_error_notices e) w)
    | Raised r =>
        (Raised r,
         printed (inspecting_text device_address device_name
                  ++ gatt_report device_name services) w)
    end.
Proof.
  intros Hconnect. unfold bluetooth_scanner_bleak.inspect_device.
  rewrite !bind_print, printed_printed. unfold try_except_Exception.
  rewrite Hconnect. unfold async_with.
  erewrite bind_run by (unfold call; reflexivity).
  cbv beta. rewrite inspect_body_run, printed_printed.
  destruct (BleakClient.disconnect device_address) as [[]|[e| |n]];
    try reflexivity.
  rewrite inspect_handler_run, printed_printed, <- app_assoc. reflexivity.
Qed.

Lemma inspect_device_not_connected device_address device_name r w :
  BleakClient.connect device_address = Raised r →
  bluetooth_scanner_bleak.inspect_device device_address device_name w
  = match r with
    | Exc e =>
        (Returned tt,
         printed (inspecting_text device_address device_name
                  ++ bluetooth_scanner_bleak.inspect_error_notices e) w)
    | _ => (Raised r, printed (inspecting_text device_address device_name) w)
    end.
Proof.
  intros Hconnect. unfold bluetooth_scanner_bleak.inspect_device.
  rewrite !bind_print, printed_printed. unfold try_except_Exception.
  rewrite Hconnect. unfold async_with, call, mbind, IO_bind.
  destruct r as [e| |n]; try reflexivity.
  rewrite inspect_handler_run, printed_printed. reflexivity.
Qed.

End gatt_report_facts.

(** X17: [inspect_device] never lets an [Exception] out and reads no
    input: whether connecting and disconnecting succeed or raise an
    [Exception] (a timeout or any other), the function returns normally
    and has only added to the output, starting with its two opening
    lines. *)
Theorem inspect_device_always_returns :
  ∀ (bc : BleakClient.api) (device_address device_name : string) (w : world),
    no_signal (BleakClient.connect device_address) →
    no_signal (BleakClient.disconnect device_address) →
    ∃ lines : list string,
      bluetooth_scanner_bleak.inspect_device device_address device_name w
      = (Returned tt,
         World (stdin w)
           (stdout w ++ inspecting_text device_address device_name ++ lines)).
Proof.
  intros bc device_address device_name w Hconnect Hdisconnect.
  destruct (BleakClient.connect device_address) as [services|r] eqn:Hc.
  - rewrite (inspect_device_connected _ _ _ _ Hc).
    destruct (BleakClient.disconnect device_address) as [[]|r] eqn:Hd.
    + eexists. reflexivity.
    + destruct (Hdisconnect r eq_refl) as [e ->]. eexists. reflexivity.
  - rewrite (inspect_device_not_connected _ _ _ _ Hc).
    destruct (Hconnect r eq_refl) as [e ->]. eexists. reflexivity.
Qed.

Lemma inspect_device_always_returns_witness :
  let bc := bleak_client (Returned sample_gatt) (Raised (Exc connect_refused)) in
  ∃ lines,
    bluetooth_scanner_bleak.inspect_device "AA" "Band" (World [Line "1"] [])
    = (Returned tt, World [Line "1"] (inspecting_text "AA" "Band" ++ lines)).
Proof.
  intros bc.
  apply (inspect_device_always_returns bc "AA" "Band" (World [Line "1"] [])).
  - intros r [=].
  - intros r [= <-]. eexists. reflexivity.
Defined.

(** X18: when the connection attempt raises, nothing of the report is
    written and no disconnection is attempted: after the two opening
    lines come the timeout notice alone for [asyncio.TimeoutError], and
    for any other [Exception] the error notice with the exception's text
    and the note on unpaired clients. *)
Theorem inspect_device_connection_failure :
  ∀ (bc : BleakClient.api) (device_address device_name : string) (e : exn)
    (w : world),
    BleakClient.connect device_address = Raised (Exc e) →
    bluetooth_scanner_bleak.inspect_device device_address device_name w
    = (Returned tt,
       World (stdin w)
         (stdout w ++ inspecting_text device_address device_name
          ++ if is_asyncio_TimeoutError e then
               [ line ("[!] Connection timeout. Device may not support "
                       +:+ "connections or is out of range.") ]
             else
               [ line ("[!] Error while inspecting device: " +:+ exc_text e);
                 line ("[!] Note: Some devices don't allow connections "
                       +:+ "from unpaired clients.") ])).
Proof.
  intros bc device_address device_name e w Hconnect.
  rewrite (inspect_device_not_connected _ _ _ _ Hconnect).
  unfold bluetooth_scanner_bleak.inspect_error_notices.
  destruct (is_asyncio_TimeoutError e); reflexivity.
Qed.

Lemma inspect_device_connection_failure_witness :
  (let bc := bleak_client (Raised (Exc connect_timeout)) (Returned tt) in
   stdout (snd (bluetooth_scanner_bleak.inspect_device "AA" "Band"
                  (World [] [])))
   = inspecting_text "AA" "Band"
     ++ [ line ("[!] Connection timeout. Device may not support "
                +:+ "connections or is out of range.") ])
  ∧ (let bc := bleak_client (Raised (Exc connect_refused)) (Returned tt) in
     stdout (snd (bluetooth_scanner_bleak.inspect_device "AA" "Band"
                    (World [] [])))
     = inspecting_text "AA" "Band"
       ++ [ line "[!] Error while inspecting device: Device not found";
            line ("[!] Note: Some devices don't allow connections "
                  +:+ "from unpaired clients.") ]).
Proof.
  split; intros bc.
  - rewrite (inspect_device_connection_failure bc "AA" "Band" connect_timeout
               (World [] []) eq_refl).
    reflexivity.
  - rewrite (inspect_device_connection_failure bc "AA" "Band" connect_refused
               (World [] []) eq_refl).
    reflexivity.
Defined.

(** X19: the report of a device that was reached and left cleanly:
    after the opening lines, the connection line and a rule; then, with
    no service, the single no-services line (the [return] inside the
    block); otherwise the count line, one block per service in order,
    the block at position [i] headed "Service #i+1", a rule and the total
    line with the same count.  A block is five lines and, for a service
    with characteristics, their count and four or five lines for each. *)
Theorem inspect_device_report :
  ∀ (bc : BleakClient.api) (device_address device_name : string)
    (services : list BleakClient.BleakGATTService) (w : world),
    BleakClient.connect device_address = Returned services →
    BleakClient.disconnect device_address = Returned tt →
    ∃ blocks : list (list string),
      bluetooth_scanner_bleak.inspect_device device_address device_name w
      = (Returned tt,
         World (stdin w)
           (stdout w ++ inspecting_text device_address device_name
            ++ [ line ("[+] Connected to " +:+ device_name +:+ nl);
                 line (py_repeat "=" 80) ]
            ++ match services with
               | [] => [line "[!] No GATT services found on this device."]
               | _ =>
                   [ line ("[+] Found " +:+ pretty (length services)
                           +:+ " GATT service(s):" +:+ nl) ]
                   ++ concat blocks
                   ++ [ line (py_repeat "=" 80);
                        line ("[+] Total services listed: "
                              +:+ pretty (length blocks) +:+ nl) ]
               end))
      ∧ length blocks = length services
      ∧ ∀ i service,
          services !! i = Some service →
          blocks !! i = Some (gatt_service_text (S i) service)
          ∧ length (gatt_service_text (S i) service)
            = match BleakClient.characteristics service with
              | [] => 5
              | chars =>
                  6 + 4 * length chars
                  + length (filter
                              (fun char =>
                                 BleakClient.char_description char ≠ "")
                              chars)
              end%nat.
Proof.
  intros bc device_address device_name services w Hconnect Hdisconnect.
  exists (map (fun '(idx, service) => gatt_service_text idx service)
            (py_enumerate1 services)).
  rewrite (inspect_device_connected _ _ _ _ Hconnect), Hdisconnect.
  rewrite length_map, py_enumerate1_length.
  split; [reflexivity|]. split; [reflexivity|].
  intros i service Hi. split.
  - rewrite list_lookup_fmap, py_enumerate1_lookup, Hi. reflexivity.
  - unfold gatt_service_text. rewrite length_app.
    destruct (BleakClient.characteristics service) as [|char chars];
      [reflexivity|].
    cbv beta iota zeta. generalize (char :: chars). intros l. cbn [length].
    assert (length (concat (map characteristic_text l))
            = (4 * length l
               + length (filter (fun char =>
                                   BleakClient.char_description char ≠ "") l))%nat)
      as ->; [|lia].
    induction l as [|c l IH]; [reflexivity|].
    cbn [map concat]. rewrite length_app, IH, filter_cons.
    unfold characteristic_text at 1.
    destruct (String.eqb_spec (BleakClient.char_description c) "") as [Hd|Hd];
      case_decide; try congruence; cbn [length app]; lia.
Qed.

Lemma inspect_device_report_witness :
  let bc := bleak_client (Returned sample_gatt) (Returned tt) in
  ∃ blocks,
    stdout (snd (bluetooth_scanner_bleak.inspect_device "AA" "Band"
                   (World [] [])))
    = inspecting_text "AA" "Band"
      ++ [ line ("[+] Connected to Band" +:+ nl); line (py_repeat "=" 80);
           line ("[+] Found 2 GATT service(s):" +:+ nl) ]
      ++ concat blocks
      ++ [ line (py_repeat "=" 80);
           line ("[+] Total services listed: 2" +:+ nl) ]
    ∧ length blocks = 2%nat.
Proof.
  intros bc.
  destruct (inspect_device_report bc "AA" "Band" sample_gatt (World [] [])
              eq_refl eq_refl) as (blocks & Hrun & Hlen & _).
  exists blocks. split; [|exact Hlen].
  rewrite Hrun, Hlen. vm_compute. reflexivity.
Defined.

(** X20: an [Exception] raised while disconnecting is caught like one
    raised while connecting, after the block has run: the complete
    report, including its total line, is followed by the error notices,
    and the function returns normally. *)
Theorem inspect_device_disconnect_failure :
  ∀ (bc : BleakClient.api) (device_address device_name : string)
    (services : list BleakClient.BleakGATTService) (e : exn) (w : world),
    BleakClient.connect device_address = Returned services →
    BleakClient.disconnect device_address = Raised (Exc e) →
    bluetooth_scanner_bleak.inspect_device device_address device_name w
    = (Returned tt,
       World (stdin w)
         (stdout w ++ inspecting_text device_address device_name
          ++ gatt_report device_name services
          ++ bluetooth_scanner_bleak.inspect_error_notices e))
    ∧ (services ≠ [] →
       ∃ before,
         gatt_report device_name services
         = before ++ [ line ("[+] Total services listed: "
                             +:+ pretty (length services) +:+ nl) ]).
Proof.
  intros bc device_address device_name services e w Hconnect Hdisconnect.
  rewrite (inspect_device_connected _ _ _ _ Hconnect), Hdisconnect.
  split; [reflexivity|]. intros Hne. unfold gatt_report.
  destruct services as [|service services]; [contradiction|].
  set (blocks := concat _). set (found := line ("[+] Found " +:+ _)).
  exists ([ line ("[+] Connected to " +:+ device_name +:+ nl);
            line (py_repeat "=" 80) ]
          ++ [found] ++ blocks ++ [line (py_repeat "=" 80)]).
  rewrite <- !app_assoc. reflexivity.
Qed.

Lemma inspect_device_disconnect_failure_witness :
  let bc := bleak_client (Returned sample_gatt) (Raised (Exc connect_refused)) in
  ∃ before,
    stdout (snd (bluetooth_scanner_bleak.inspect_device "AA" "Band"
                   (World [] [])))
    = before
      ++ [ line ("[+] Total services listed: 2" +:+ nl);
           line "[!] Error while inspecting device: Device not found";
           line ("[!] Note: Some devices don't allow connections "
                 +:+ "from unpaired clients.") ].
Proof.
  intros bc.
  destruct (inspect_device_disconnect_failure bc "AA" "Band" sample_gatt
              connect_refused (World [] []) eq_refl eq_refl) as [Hrun _].
  rewrite Hrun. cbn [snd stdout app].
  eexists (_ :: _ :: _ :: _ :: _ :: _ :: _ :: _ :: _ :: _ :: _ :: _ :: _ :: _
           :: _ :: _ :: _ :: _ :: _ :: _ :: _ :: _ :: []).
  reflexivity.
Defined.

(** ** The BLE script: table, selection, exit status *)

Lemma string_app_length (s t : string) :
  String.length (s +:+ t) = (String.length s + String.length t)%nat.
Proof.
  induction s as [|c s IH]; [reflexivity|].
  change (S (String.length (s +:+ t)) = S (String.length s + String.length t)).
  f_equal. exact IH.
Qed.

Lemma string_app_assoc (s t u : string) : (s +:+ t) +:+ u = s +:+ (t +:+ u).
Proof.
  induction s as [|c s IH]; [reflexivity|].
  change (String c ((s +:+ t) +:+ u) = String c (s +:+ (t +:+ u))).
  f_equal. exact IH.
Qed.

Lemma py_repeat_space_length (n : nat) : String.length (py_repeat " " n) = n.
Proof.
  induction n as [|n IH]; [reflexivity|].
  change (S (String.length (py_repeat " " n)) = S n). f_equal. exact IH.
Qed.

(** [:<w] pads to the width and never cuts. *)
Lemma py_ljust_length (width : nat) (s : string) :
  String.length (py_ljust width s) = (width `max` String.length s)%nat.
Proof.
  unfold py_ljust. rewrite string_app_length, py_repeat_space_length. lia.
Qed.

Lemma bleak_display_devices_lines
    (devices : list bluetooth_scanner_bleak.device) (w : world) :
  devices ≠ [] →
  bluetooth_scanner_bleak.display_devices devices w
  = (Returned tt,
     printed
       (bleak_table_heading (length devices)
        ++ map (fun '(idx, d) =>
                  line (bluetooth_scanner_bleak.display_row idx d))
             (py_enumerate1 devices)
        ++ [line ""]) w).
Proof.
  intros Hne. unfold bluetooth_scanner_bleak.display_devices.
  destruct devices as [|d devices]; [contradiction|].
  rewrite !bind_print, !printed_printed.
  erewrite bind_run; cycle 1.
  { apply (for_each_prints _ _
             (fun '(idx, d) =>
                line (bluetooth_scanner_bleak.display_row idx d))).
    intros [idx d'] w'. reflexivity. }
  rewrite print_run, !printed_printed, <- !app_assoc. reflexivity.
Qed.

Lemma returns_bleak_display_devices devices :
  returns (bluetooth_scanner_bleak.display_devices devices).
Proof.
  intros w. destruct devices as [|d devices].
  - exists tt, [line "[!] No devices found."]. reflexivity.
  - eexists tt, _. apply bleak_display_devices_lines. discriminate.
Qed.

(** X21: [display_devices] of the BLE script never fails and reads no
    input.  For an empty list it writes "[!] No devices found." alone;
    otherwise three heading lines, one row per device in the order of the
    list, and an empty line.  The row at position [i] carries the number
    [i + 1]; the name starts at column 5 while the number has at most 4
    digits, and the address at column 36 while, besides, the name has at
    most 30 characters: longer texts are not cut, they push the columns
    to the right.  The last column reads "N/A" exactly for the strength
    0, the value [discover_devices] puts for a missing reading. *)
Theorem bleak_display_devices_layout :
  ∀ (devices : list bluetooth_scanner_bleak.device) (w : world),
  ∃ lines : list string,
    bluetooth_scanner_bleak.display_devices devices w
    = (Returned tt, World (stdin w) (stdout w ++ lines))
    ∧ length lines
      = match devices with [] => 1 | _ => length devices + 4 end%nat
    ∧ (devices = [] → lines = [line "[!] No devices found."])
    ∧ ∀ i addr name rssi,
        devices !! i = Some (addr, name, rssi) →
        ∃ row,
          lines !! (3 + i)%nat = Some (line row)
          ∧ (∃ rest, row = py_ljust 4 (pretty (S i)) +:+ " " +:+ rest)
          ∧ ((String.length (pretty (S i)) ≤ 4)%nat →
             ∃ before rest,
               row = before +:+ name +:+ rest ∧ String.length before = 5%nat)
          ∧ ((String.length (pretty (S i)) ≤ 4)%nat →
             (String.length name ≤ 30)%nat →
             ∃ before rest,
               row = before +:+ addr +:+ rest ∧ String.length before = 36%nat)
          ∧ ∃ before,
              row = before
                    +:+ py_ljust 6 (if decide (rssi = 0) then "N/A"
                                    else pretty rssi +:+ " dBm").
Proof.
  intros devices w. destruct devices as [|d devices].
  - exists [line "[!] No devices found."].
    split; [reflexivity|]. split; [reflexivity|]. split; [reflexivity|].
    intros i addr name rssi Hi. discriminate.
  - eexists. split; [apply bleak_display_devices_lines; discriminate|].
    split; [|split; [discriminate|]].
    + rewrite length_app, length_app, length_map, py_enumerate1_length.
      cbn [length bleak_table_heading]. lia.
    + intros i addr name rssi Hi.
      exists (bluetooth_scanner_bleak.display_row (S i) (addr, name, rssi)).
      split; [|split; [|split; [|split]]].
      * rewrite lookup_app_r by (cbn [length bleak_table_heading]; lia).
        replace (3 + i - length (bleak_table_heading (length (d :: devices))))%nat
          with i by (cbn [length bleak_table_heading]; lia).
        rewrite lookup_app_l
          by (rewrite length_map, py_enumerate1_length;
              eapply lookup_lt_Some; eassumption).
        rewrite list_lookup_fmap, py_enumerate1_lookup.
        unfold bluetooth_scanner_bleak.device in *. rewrite Hi. reflexivity.
      * eexists. reflexivity.
      * intros Hidx. unfold bluetooth_scanner_bleak.display_row.
        exists (py_ljust 4 (pretty (S i)) +:+ " "). eexists.
        split.
        -- rewrite string_app_assoc. unfold py_ljust at 2.
           rewrite (string_app_assoc name). reflexivity.
        -- rewrite string_app_length, py_ljust_length. cbn [String.length]. lia.
      * intros Hidx Hname. unfold bluetooth_scanner_bleak.display_row.
        exists (py_ljust 4 (pretty (S i)) +:+ " " +:+ py_ljust 30 name +:+ " ").
        eexists. split.
        -- rewrite !string_app_assoc. unfold py_ljust at 3.
           rewrite (string_app_assoc addr). reflexivity.
        -- rewrite !string_app_length, !py_ljust_length. cbn [String.length].
           lia.
      * unfold bluetooth_scanner_bleak.display_row,
          bluetooth_scanner_bleak.rssi_str.
        exists (py_ljust 4 (pretty (S i)) +:+ " " +:+ py_ljust 30 name +:+ " "
                +:+ py_ljust 20 addr +:+ " ").
        rewrite !string_app_assoc.
        destruct (Z.eqb_spec rssi 0); case_decide; try congruence; reflexivity.
Qed.

Section bleak_script.
Context `{!BleakScanner.api} `{!BleakClient.api}.

Lemma bleak_print_banner_run w :
  bluetooth_scanner_bleak.print_banner w
  = (Returned tt, printed bleak_banner_text w).
Proof.
  unfold bluetooth_scanner_bleak.print_banner.
  rewrite !bind_print, print_run, !printed_printed. reflexivity.
Qed.

Lemma bleak_discover_devices_raised duration r w :
  BleakScanner.discover duration = Raised r →
  bluetooth_scanner_bleak.discover_devices duration w
  = match r with
    | Exc e =>
        (Returned [],
         printed (scanning_text duration
                  ++ [line ("[!] Error during device discovery: "
                            +:+ exc_text e)]) w)
    | _ => (Raised r, printed (scanning_text duration) w)
    end.
Proof.
  intros Hfound. unfold bluetooth_scanner_bleak.discover_devices.
  rewrite !bind_print, printed_printed.
  unfold try_except_Exception, call, mbind, IO_bind. rewrite Hfound.
  destruct r as [e| |n]; try reflexivity.
  rewrite print_run, printed_printed. reflexivity.
Qed.

Lemma bleak_device_list_not_empty found :
  found ≠ [] → bleak_device_list found ≠ [].
Proof.
  intros Hne Hnil. apply Hne.
  pose proof (py_sort_reverse_Permutation snd
                (map bluetooth_scanner_bleak.device_tuple found)) as Hperm.
  unfold bleak_device_list in Hnil. rewrite Hnil in Hperm.
  apply Permutation_nil_l in Hperm.
  destruct found; [reflexivity|discriminate Hperm].
Qed.

(** With devices found, [main] gets to the selector after the banner, the
    scan lines and the table. *)
Lemma bleak_main_devices_found found (w : world) :
  BleakScanner.discover 8 = Returned found →
  found ≠ [] →
  ∃ lines,
    bluetooth_scanner_bleak.main w
    = (returned_by (bluetooth_scanner_bleak.select_device
                      (bleak_device_list found))
       ≫= fun selected_device =>
            match selected_device with
            | None => _ ← print "[*] Exiting..."; sys_exit 0
            | Some (device_address, device_name, rssi) =>
                _ ← print (nl +:+ "[+] Selected: " +:+ device_name
                           +:+ " (" +:+ device_address +:+ ")");
                _ ← bluetooth_scanner_bleak.inspect_device
                      device_address device_name;
                print "[*] Scan complete!"
            end) (printed lines w).
Proof.
  intros Hdiscover Hne. unfold bluetooth_scanner_bleak.main.
  rewrite (bind_run _ _ _ _ _ (bleak_print_banner_run w)).
  rewrite (bind_run _ _ _ _ _ (bleak_discover_devices_run _ _ _ Hdiscover)).
  rewrite printed_printed. fold (bleak_device_list found).
  pose proof (bleak_device_list_not_empty found Hne) as Hne'.
  destruct (bleak_device_list found) as [|d devices]; [contradiction|].
  destruct (returns_bleak_display_devices (d :: devices)
              (printed (bleak_banner_text ++ scanning_text 8) w))
    as ([] & lines & Hshown).
  rewrite (bind_run _ _ _ _ _ Hshown), printed_printed.
  eexists. reflexivity.
Qed.
End bleak_script.

(** X22: the BLE table is headed by the strongest signal: when the
    scanner found devices, the line "1" makes [select_device] return the
    first element of what [discover_devices] returned, one of the devices
    found, and no device found has a larger signal strength (a missing
    reading counting as 0). *)
Theorem bleak_number_1_is_strongest :
  ∀ (bs : BleakScanner.api) (duration : Z)
    (found : list (string * (BleakScanner.BLEDevice
                             * BleakScanner.AdvertisementData)))
    (rest : list input_event) (out : list string) (w : world),
    BleakScanner.discover duration = Returned found →
    found ≠ [] →
    ∃ (device_list : list bluetooth_scanner_bleak.device)
      (d : bluetooth_scanner_bleak.device),
      bluetooth_scanner_bleak.discover_devices duration w
      = (Returned device_list, printed (scanning_text duration) w)
      ∧ bluetooth_scanner_bleak.select_device device_list
          (World (Line "1" :: rest) out)
        = Selection (Returned (Some d)) device_list
            (World rest (out ++ [bluetooth_scanner_bleak.select_prompt]))
      ∧ d ∈ map bluetooth_scanner_bleak.device_tuple found
      ∧ ∀ item, item ∈ found →
                snd (bluetooth_scanner_bleak.device_tuple item) ≤ snd d.
Proof.
  intros bs duration found rest out w Hdiscover Hne.
  pose proof (bleak_device_list_not_empty found Hne) as Hne'.
  pose proof (py_sort_reverse_Permutation snd
                (map bluetooth_scanner_bleak.device_tuple found)) as Hperm.
  pose proof (py_sort_reverse_sorted snd
                (map bluetooth_scanner_bleak.device_tuple found)) as Hsorted.
  fold (bleak_device_list found) in Hperm, Hsorted.
  exists (bleak_device_list found).
  destruct (bleak_device_list found) as [|d devices] eqn:Hlist;
    [contradiction|].
  exists d. split; [|split; [|split]].
  - rewrite <- Hlist. apply bleak_discover_devices_run, Hdiscover.
  - apply (select_loop_pick _ _ "1" 1 d); [discriminate|reflexivity|reflexivity|lia].
  - rewrite <- Hperm. apply elem_of_cons. left. reflexivity.
  - intros item Hitem.
    assert (bluetooth_scanner_bleak.device_tuple item ∈ d :: devices) as Hin.
    { rewrite Hperm. apply (list_elem_of_fmap_2 bluetooth_scanner_bleak.device_tuple), Hitem. }
    apply StronglySorted_inv in Hsorted as [_ Hd].
    apply elem_of_cons in Hin as [->|Hin]; [lia|].
    rewrite Forall_forall in Hd. apply (Hd _ Hin).
Qed.

Lemma bleak_number_1_is_strongest_witness :
  ∃ device_list d,
    @bluetooth_scanner_bleak.discover_devices bleak_sample 8 (World [] [])
    = (Returned device_list, printed (scanning_text 8) (World [] []))
    ∧ bluetooth_scanner_bleak.select_device device_list
        (World [Line "1"; Line "2"] [])
      = Selection (Returned (Some d)) device_list
          (World [Line "2"] [bluetooth_scanner_bleak.select_prompt])
    ∧ d = ("CC", "<Unknown>", 0).
Proof.
  destruct (bleak_number_1_is_strongest bleak_sample 8 ble_found [Line "2"] []
              (World [] []) eq_refl ltac:(discriminate))
    as (device_list & d & Hrun & Hselect & _ & _).
  exists device_list, d. split; [exact Hrun|]. split; [exact Hselect|].
  assert (device_list
          = fst (let '(r, _) :=
                   @bluetooth_scanner_bleak.discover_devices bleak_sample 8
                     (World [] []) in
                 (match r with Returned l => l | Raised _ => [] end, tt)))
    as Hlist by (rewrite Hrun; reflexivity).
  vm_compute in Hlist. subst device_list.
  vm_compute in Hselect. injection Hselect as <-. reflexivity.
Defined.

(** X23: when the scanner finds nothing, or raises an [Exception], the
    BLE process writes its banner, the two scan lines, the discovery-error
    notice if there was an exception, and its checklist of three lines,
    and exits with status 1; the table and the prompt are not written and
    standard input is left as it was. *)
Theorem bleak_script_no_devices_exits_1 :
  ∀ (bs : BleakScanner.api) (bc : BleakClient.api) (w : world),
    (BleakScanner.discover 8 = Returned []
     ∨ ∃ e, BleakScanner.discover 8 = Raised (Exc e)) →
    bluetooth_scanner_bleak.script w
    = (1, World (stdin w)
            (stdout w ++ bleak_banner_text ++ scanning_text 8
             ++ discovery_notices (BleakScanner.discover 8)
             ++ bleak_no_devices_checklist)).
Proof.
  intros bs bc w Hnone.
  unfold bluetooth_scanner_bleak.script, bluetooth_scanner_bleak.main.
  rewrite (bind_run _ _ _ _ _ (bleak_print_banner_run w)).
  destruct Hnone as [Hnone|[e Hnone]].
  - rewrite (bind_run _ _ _ _ _ (bleak_discover_devices_run _ _ _ Hnone)).
    rewrite Hnone. cbn [map py_sort_reverse foldr discovery_notices].
    rewrite !bind_print, !printed_printed. unfold sys_exit, raise, printed.
    cbn [stdin stdout app]. rewrite <- ?app_assoc. reflexivity.
  - rewrite (bind_run _ _ _ _ _
               (bleak_discover_devices_raised _ _ _ Hnone)).
    rewrite Hnone. cbn [discovery_notices].
    rewrite !bind_print, !printed_printed. unfold sys_exit, raise, printed.
    cbn [stdin stdout]. rewrite <- ?app_assoc. reflexivity.
Qed.

Lemma bleak_script_no_devices_exits_1_witness :
  let bs := bleak_scanner (Raised (Exc (Exn (OtherException "BleakError")
                                          "Bluetooth device is turned off"))) in
  let bc := bleak_client (Returned []) (Returned tt) in
  bluetooth_scanner_bleak.script (World [Line "1"] [])
  = (1, World [Line "1"]
          (bleak_banner_text ++ scanning_text 8
           ++ [line ("[!] Error during device discovery: "
                     +:+ "Bluetooth device is turned off")]
           ++ bleak_no_devices_checklist)).
Proof.
  intros bs bc.
  apply (bleak_script_no_devices_exits_1 bs bc (World [Line "1"] [])).
  right. eexists. reflexivity.
Defined.



(** X25: devices were found but standard input ends before any event
    ends the selector: in the BLE process too the [EOFError] of [input()]
    reaches the top level, which writes the fatal-error notice last and
    exits with status 1, all input read. *)
Theorem bleak_script_exits_1_on_end_of_input :
  ∀ (bs : BleakScanner.api) (bc : BleakClient.api) (w : world)
    (found : list (string * (BleakScanner.BLEDevice
                             * BleakScanner.AdvertisementData))),
    BleakScanner.discover 8 = Returned found →
    found ≠ [] →
    Forall (fun ev => ¬ decisive (bleak_device_list found) ev) (stdin w) →
    fst (bluetooth_scanner_bleak.script w) = 1
    ∧ stdin (snd (bluetooth_scanner_bleak.script w)) = []
    ∧ last (stdout (snd (bluetooth_scanner_bleak.script w)))
      = Some (line (nl +:+ "[!] Fatal error: EOF when reading a line")).
Proof.
  intros bs bc w found Hdiscover Hne Hnone.
  destruct (bleak_main_devices_found found w Hdiscover Hne) as (lines & Hmain).
  unfold bluetooth_scanner_bleak.script. rewrite Hmain. clear Hmain.
  erewrite bind_raised; cycle 1.
  { unfold returned_by, bluetooth_scanner_bleak.select_device,
      select_device_with.
    cbn [stdin stdout printed].
    rewrite (select_loop_eof _ _ _ _ Hnone). reflexivity. }
  cbn [fst snd sel_world]. split; [reflexivity|]. split; [reflexivity|].
  unfold print, write. cbn [snd stdout]. apply last_snoc.
Qed.

Lemma bleak_script_exits_1_on_end_of_input_witness :
  let bc := bleak_client (Returned []) (Returned tt) in
  fst (@bluetooth_scanner_bleak.script bleak_sample bc
         (World [Line "4"; Line "one"] [])) = 1.
Proof.
  intros bc.
  apply (bleak_script_exits_1_on_end_of_input bleak_sample bc
           (World [Line "4"; Line "one"] []) ble_found eq_refl).
  - discriminate.
  - constructor; [|constructor; [|constructor]].
    + intros [Hq|(n & Hn & Hrange)]; [discriminate|].
      injection Hn as <-. vm_compute in Hrange.
      destruct Hrange as [_ Hrange]. apply Hrange. reflexivity.
    + intros [Hq|(n & Hn & _)]; discriminate.
Defined.

(** ** The quick scan of [test_bluetooth.py] *)

(** X26: a scan that answers makes [quick_scan] return after writing,
    behind its three opening lines, either the five lines of advice (no
    device) or the count, one numbered line per device in the order of
    the answer, with "<Unknown>" for a missing or empty name, and the two
    closing lines; the closing lines are written exactly when a device
    was found.  No input is read. *)
Theorem quick_scan_report :
  ∀ (sc : test_bluetooth.scanner) (devices : list BleakScanner.BLEDevice)
    (w : world),
    test_bluetooth.discover = Returned devices →
    ∃ lines : list string,
      test_bluetooth.quick_scan w
      = (Returned tt, World (stdin w) (stdout w ++ quick_scan_opening ++ lines))
      ∧ (devices = [] → lines = quick_scan_help)
      ∧ (devices ≠ [] →
         ∃ rows,
           lines
           = line ("Found " +:+ pretty (length devices) +:+ " device(s):"
                   +:+ nl)
             :: rows ++ quick_scan_success
           ∧ length rows = length devices
           ∧ ∀ i device,
               devices !! i = Some device →
               rows !! i = Some (quick_scan_row (S i) device)).
Proof.
  intros sc devices w Hdiscover. unfold test_bluetooth.quick_scan.
  rewrite !bind_print, !printed_printed.
  erewrite bind_run by (unfold call; rewrite Hdiscover; reflexivity).
  destruct devices as [|device devices].
  - exists quick_scan_help.
    rewrite !bind_print, print_run, !printed_printed.
    split; [reflexivity|]. split; [reflexivity|]. intros Hne. contradiction.
  - eexists. rewrite bind_print, printed_printed.
    erewrite bind_run; cycle 1.
    { apply (for_each_prints _ _ (fun '(i, device) => quick_scan_row i device)).
      intros [i d] w'. reflexivity. }
    rewrite bind_print, print_run, !printed_printed.
    split.
    { unfold printed. cbn [stdin stdout]. rewrite <- !app_assoc. reflexivity. }
    split; [discriminate|]. intros _.
    exists (map (fun '(i, device) => quick_scan_row i device)
              (py_enumerate1 (device :: devices))).
    split; [reflexivity|].
    split; [rewrite length_map; apply py_enumerate1_length|].
    intros i d Hi. rewrite list_lookup_fmap, py_enumerate1_lookup, Hi.
    reflexivity.
Qed.

Lemma quick_scan_report_witness :
  let sc := {| test_bluetooth.discover := Returned two_ble_devices |} in
  stdout (snd (test_bluetooth.quick_scan (World [] [])))
  = quick_scan_opening
    ++ [ line ("Found 2 device(s):" +:+ nl);
         line "1. Band (AA)"; line "2. <Unknown> (BB)" ]
    ++ quick_scan_success.
Proof.
  intros sc.
  destruct (quick_scan_report sc two_ble_devices (World [] []) eq_refl)
    as (lines & Hrun & _ & Hrows).
  destruct (Hrows ltac:(discriminate)) as (rows & -> & Hlen & Hrow).
  rewrite Hrun. cbn [snd stdout app].
  destruct rows as [|r1 [|r2 [|r3 rows]]]; try discriminate Hlen.
  pose proof (Hrow 0%nat _ eq_refl) as H1.
  pose proof (Hrow 1%nat _ eq_refl) as H2.
  cbn [lookup list_lookup] in H1, H2.
  vm_compute in H1. vm_compute in H2.
  injection H1 as ->. injection H2 as ->. vm_compute. reflexivity.
Defined.

(** X27: [quick_scan] has no handler: what the scan raises, an
    [Exception] included, leaves the function as it is, after the three
    opening lines and nothing else, where the two scanner scripts would
    catch an [Exception] and go on. *)
Theorem quick_scan_does_not_catch :
  ∀ (sc : test_bluetooth.scanner) (r : raised) (w : world),
    test_bluetooth.discover = Raised r →
    test_bluetooth.quick_scan w
    = (Raised r, World (stdin w) (stdout w ++ quick_scan_opening)).
Proof.
  intros sc r w Hdiscover. unfold test_bluetooth.quick_scan.
  rewrite !bind_print, !printed_printed.
  erewrite bind_raised by (unfold call; rewrite Hdiscover; reflexivity).
  reflexivity.
Qed.

Lemma quick_scan_does_not_catch_witness :
  let sc := {| test_bluetooth.discover := Raised (Exc connect_refused) |} in
  test_bluetooth.quick_scan (World [Line "1"] [])
  = (Raised (Exc connect_refused), World [Line "1"] quick_scan_opening).
Proof.
  intros sc.
  apply (quick_scan_does_not_catch sc (Exc connect_refused)
           (World [Line "1"] []) eq_refl).
Defined.
